(** * DeepChartAI: the chart pipeline of [backend/], embedded and verified

    The development follows the Python sources file by file:
    [utils.py] (validation, column-name sanitising), [llm_integration.py]
    (chart-config inference with its fallback, embedding), [database.py]
    (vector-store upsert), [chart_generator.py] (rendering), [routes.py]
    (the [generate_chart] pipeline) and [app.py] (the HTTP handler).

    External libraries (pandas parsing, plotly, the Gemini client, the
    Qdrant client, [json]) are collaborators: their answers are fields of
    a record [World], and every call to a remote collaborator leaves an
    event in a trace, so that "no call was made" is a statement about
    the trace. *)

From Stdlib Require Import Ascii NArith ZArith Lia.
From stdpp Require Import base strings list gmap.

Local Set Warnings "-register-all,-clear-no-such-hyp".

(** ** Python [str]

    A [str] is modelled by [string], each [ascii] standing for the code
    point of the same number (U+0000 to U+00FF).  On that range the three
    methods used by the sources are the following functions. *)

Module PyStr.

(** [str.isspace] on one code point: TAB..CR, FS..US, SPACE, NEL, NBSP. *)
Definition isspace (c : ascii) : bool :=
  let n := N_of_ascii c in
  ((9 <=? n) && (n <=? 13) || (28 <=? n) && (n <=? 32)
   || (n =? 133) || (n =? 160))%N.

Fixpoint lstrip (s : string) : string :=
  match s with
  | EmptyString => EmptyString
  | String c s' => if isspace c then lstrip s' else s
  end.

Fixpoint rstrip (s : string) : string :=
  match s with
  | EmptyString => EmptyString
  | String c s' =>
      match rstrip s' with
      | EmptyString => if isspace c then EmptyString else String c EmptyString
      | r => String c r
      end
  end.

(** [s.strip()] *)
Definition strip (s : string) : string := rstrip (lstrip s).

Fixpoint map (f : ascii -> ascii) (s : string) : string :=
  match s with
  | EmptyString => EmptyString
  | String c s' => String (f c) (map f s')
  end.

(** [s.replace(old, new)] for one-character [old] and [new]. *)
Definition replace (old new : ascii) (s : string) : string :=
  map (fun c => if Ascii.eqb c old then new else c) s.

(** Lower-case mapping of one code point: A..Z and the Latin-1 capitals
    U+00C0..U+00DE (without the multiplication sign U+00D7). *)
Definition lower_char (c : ascii) : ascii :=
  let n := N_of_ascii c in
  if ((65 <=? n) && (n <=? 90)
      || (192 <=? n) && (n <=? 222) && negb (n =? 215))%N
  then ascii_of_N (n + 32) else c.

(** [s.lower()] *)
Definition lower (s : string) : string := map lower_char s.

(** [s.endswith(suffix)] *)
Fixpoint endswith (s suffix : string) : bool :=
  String.eqb s suffix ||
  match s with
  | EmptyString => false
  | String _ s' => endswith s' suffix
  end.

(** [" " in s] *)
Fixpoint contains_char (a : ascii) (s : string) : bool :=
  match s with
  | EmptyString => false
  | String c s' => Ascii.eqb c a || contains_char a s'
  end.

End PyStr.

(** ** [utils.py] *)

(** [sanitize_column_name(name)]:
    [name.strip().replace(" ", "_").lower()] *)
Definition sanitize_column_name (name : string) : string :=
  PyStr.lower (PyStr.replace " " "_" (PyStr.strip name)).

(** *** Facts on [strip], [replace] and [lower] *)

Section StripFacts.

Import PyStr.

(** The first character, when there is one, is not white space. *)
Definition head_ns (s : string) : Prop :=
  match s with
  | EmptyString => True
  | String c _ => isspace c = false
  end.

(** A string that [strip] leaves alone. *)
Definition clean (s : string) : Prop := head_ns s /\ rstrip s = s.

Lemma lstrip_head_ns s : head_ns (lstrip s).
Proof.
  induction s as [|c s IH]; simpl; [exact I|].
  destruct (isspace c) eqn:E; [exact IH | simpl; exact E].
Qed.

Lemma lstrip_fixed s : head_ns s -> lstrip s = s.
Proof. destruct s as [|c s]; simpl; [reflexivity|]. now intros ->. Qed.

Lemma rstrip_cons c s :
  rstrip (String c s) =
  match rstrip s with
  | EmptyString => if isspace c then EmptyString else String c EmptyString
  | r => String c r
  end.
Proof. reflexivity. Qed.

Lemma rstrip_idem s : rstrip (rstrip s) = rstrip s.
Proof.
  induction s as [|c s IH]; [reflexivity|].
  rewrite rstrip_cons. destruct (rstrip s) as [|d r] eqn:E.
  - destruct (isspace c) eqn:Ec; [reflexivity|].
    rewrite rstrip_cons. simpl. now rewrite Ec.
  - rewrite rstrip_cons, IH. reflexivity.
Qed.

Lemma rstrip_head_ns s : head_ns s -> head_ns (rstrip s).
Proof.
  destruct s as [|c s]; simpl; [trivial|]. intros Hc.
  destruct (rstrip s); [rewrite Hc|]; exact Hc.
Qed.

Lemma strip_clean s : clean (strip s).
Proof.
  split; unfold strip.
  - apply rstrip_head_ns, lstrip_head_ns.
  - apply rstrip_idem.
Qed.

Lemma clean_strip s : clean s -> strip s = s.
Proof. intros [Hh Hr]. unfold strip. now rewrite (lstrip_fixed _ Hh). Qed.

(** A character map that never produces white space from a character
    that is none keeps the right end of a string stripped. *)
Lemma rstrip_map_fixed f s :
  (forall c, isspace c = false -> isspace (f c) = false) ->
  rstrip s = s -> rstrip (map f s) = map f s.
Proof.
  intros Hf. induction s as [|c s IH]; [reflexivity|].
  rewrite rstrip_cons. intros Hr.
  destruct (rstrip s) as [|d r] eqn:E.
  - destruct (isspace c) eqn:Ec; [discriminate|].
    injection Hr as <-. simpl. now rewrite (Hf _ Ec).
  - injection Hr as <-. cbn [map]. rewrite rstrip_cons.
    cbn [map] in IH. now rewrite (IH eq_refl).
Qed.

Lemma clean_map f s :
  (forall c, isspace c = false -> isspace (f c) = false) ->
  clean s -> clean (map f s).
Proof.
  intros Hf [Hh Hr]. split.
  - destruct s as [|c s]; simpl in *; auto.
  - now apply rstrip_map_fixed.
Qed.

Lemma map_map f g s : map g (map f s) = map (fun c => g (f c)) s.
Proof. induction s as [|c s IH]; simpl; [reflexivity | now rewrite IH]. Qed.

Lemma map_ext f g s : (forall c, f c = g c) -> map f s = map g s.
Proof. intros H. induction s as [|c s IH]; simpl; [reflexivity | now rewrite H, IH]. Qed.

(** The character map of [sanitize_column_name]. *)
Definition sanitize_char (c : ascii) : ascii :=
  lower_char (if Ascii.eqb c " " then "_"%char else c).

Lemma sanitize_unfold s : sanitize_column_name s = map sanitize_char (strip s).
Proof. unfold sanitize_column_name, lower, replace. now rewrite map_map. Qed.

Lemma sanitize_char_ns c : isspace c = false -> isspace (sanitize_char c) = false.
Proof. destruct c as [[] [] [] [] [] [] [] []]; vm_compute; congruence. Qed.

Lemma sanitize_char_idem c : sanitize_char (sanitize_char c) = sanitize_char c.
Proof. destruct c as [[] [] [] [] [] [] [] []]; reflexivity. Qed.

Lemma sanitize_char_not_space c : Ascii.eqb (sanitize_char c) " " = false.
Proof. destruct c as [[] [] [] [] [] [] [] []]; reflexivity. Qed.

Lemma lower_sanitize_char c : lower_char (sanitize_char c) = sanitize_char c.
Proof. destruct c as [[] [] [] [] [] [] [] []]; reflexivity. Qed.

Lemma sanitize_clean s : clean (sanitize_column_name s).
Proof.
  rewrite sanitize_unfold.
  apply clean_map; [exact sanitize_char_ns | apply strip_clean].
Qed.

Lemma sanitize_idempotent s :
  sanitize_column_name (sanitize_column_name s) = sanitize_column_name s.
Proof.
  rewrite (sanitize_unfold (sanitize_column_name s)).
  rewrite (clean_strip _ (sanitize_clean s)).
  rewrite sanitize_unfold, map_map.
  apply map_ext, sanitize_char_idem.
Qed.

Lemma sanitize_no_space s : contains_char " " (sanitize_column_name s) = false.
Proof.
  rewrite sanitize_unfold.
  induction (strip s) as [|c t IH]; simpl; [reflexivity|].
  now rewrite sanitize_char_not_space, IH.
Qed.

Lemma sanitize_lowered s : lower (sanitize_column_name s) = sanitize_column_name s.
Proof.
  rewrite sanitize_unfold. unfold lower. rewrite map_map.
  apply map_ext, lower_sanitize_char.
Qed.

End StripFacts.

(** Every character of [s] is white space. *)
Fixpoint all_space (s : string) : bool :=
  match s with
  | EmptyString => true
  | String c s' => PyStr.isspace c && all_space s'
  end.

Lemma lstrip_all_space (s : string) : all_space s = true -> PyStr.lstrip s = "".
Proof.
  induction s as [|c s IH]; [reflexivity|]. cbn.
  intros [Hc Hs]%andb_true_iff. now rewrite Hc, IH.
Qed.

Lemma rstrip_all_space (s : string) : all_space s = true -> PyStr.rstrip s = "".
Proof.
  induction s as [|c s IH]; [reflexivity|]. cbn [all_space].
  intros [Hc Hs]%andb_true_iff. now rewrite rstrip_cons, IH, Hc.
Qed.

Lemma lstrip_app_l (pre s : string) :
  all_space pre = true -> PyStr.lstrip (pre +:+ s) = PyStr.lstrip s.
Proof.
  induction pre as [|c pre IH]; [reflexivity|].
  change (String c pre +:+ s) with (String c (pre +:+ s)).
  cbn [all_space PyStr.lstrip].
  intros [Hc Hs]%andb_true_iff. now rewrite Hc, IH.
Qed.

Lemma rstrip_app_r (s post : string) :
  all_space post = true -> PyStr.rstrip (s +:+ post) = PyStr.rstrip s.
Proof.
  intros Hp. induction s as [|c s IH].
  - now apply rstrip_all_space.
  - change (String c s +:+ post) with (String c (s +:+ post)).
    now rewrite !rstrip_cons, IH.
Qed.

Lemma strip_app_r (s post : string) :
  all_space post = true -> PyStr.strip (s +:+ post) = PyStr.strip s.
Proof.
  intros Hp. unfold PyStr.strip. induction s as [|c s IH].
  - change ("" +:+ post) with post. now rewrite (lstrip_all_space _ Hp).
  - change (String c s +:+ post) with (String c (s +:+ post)).
    cbn [PyStr.lstrip]. destruct (PyStr.isspace c); [exact IH|].
    change (String c (s +:+ post)) with (String c s +:+ post).
    now apply rstrip_app_r.
Qed.

Lemma strip_surrounded (pre s post : string) :
  all_space pre = true -> all_space post = true ->
  PyStr.strip (pre +:+ s +:+ post) = PyStr.strip s.
Proof.
  intros Hpre Hpost. unfold PyStr.strip at 1. rewrite lstrip_app_l by exact Hpre.
  now apply strip_app_r.
Qed.

(** *** What [strip] removes *)

(** The first and the last character of a string, when it has one. *)
Definition first_char (s : string) : option ascii :=
  match s with
  | EmptyString => None
  | String c _ => Some c
  end.

Fixpoint last_char (s : string) : option ascii :=
  match s with
  | EmptyString => None
  | String c s' =>
      match s' with
      | EmptyString => Some c
      | String _ _ => last_char s'
      end
  end.

(** [lstrip] and [rstrip] remove white space, and white space only. *)
Lemma lstrip_prefix (s : string) :
  exists pre, s = pre +:+ PyStr.lstrip s /\ all_space pre = true.
Proof.
  induction s as [|c s (pre & Hs & Hpre)]; [now exists ""|].
  cbn [PyStr.lstrip]. destruct (PyStr.isspace c) eqn:Ec.
  - exists (String c pre). split.
    + change (String c pre +:+ PyStr.lstrip s) with (String c (pre +:+ PyStr.lstrip s)).
      now rewrite <- Hs.
    + cbn [all_space]. now rewrite Ec, Hpre.
  - now exists "".
Qed.

Lemma rstrip_suffix (s : string) :
  exists post, s = PyStr.rstrip s +:+ post /\ all_space post = true.
Proof.
  induction s as [|c s (post & Hs & Hpost)]; [now exists ""|].
  rewrite rstrip_cons. destruct (PyStr.rstrip s) as [|d r] eqn:Er.
  - change ("" +:+ post) with post in Hs. subst post.
    destruct (PyStr.isspace c) eqn:Ec.
    + exists (String c s). split; [reflexivity|]. cbn [all_space]. now rewrite Ec, Hpost.
    + exists s. split; [reflexivity | exact Hpost].
  - exists post. split; [|exact Hpost].
    change (String c (String d r) +:+ post) with (String c (String d r +:+ post)).
    now rewrite <- Hs.
Qed.

Lemma strip_decomposes (s : string) :
  exists pre post,
    s = pre +:+ PyStr.strip s +:+ post
    /\ all_space pre = true /\ all_space post = true.
Proof.
  destruct (lstrip_prefix s) as (pre & Hs & Hpre).
  destruct (rstrip_suffix (PyStr.lstrip s)) as (post & Hl & Hpost).
  exists pre, post. unfold PyStr.strip. now rewrite <- Hl, <- Hs.
Qed.

(** A string whose ends are not white space is one that [strip] leaves
    alone. *)
Lemma rstrip_fixed_last (s : string) :
  PyStr.rstrip s = s <-> (forall c, last_char s = Some c -> PyStr.isspace c = false).
Proof.
  induction s as [|c s IH]; [split; [discriminate | reflexivity]|].
  rewrite rstrip_cons. cbn [last_char]. destruct s as [|d s].
  - cbn [PyStr.rstrip]. destruct (PyStr.isspace c) eqn:Ec; split.
    + discriminate.
    + intros H. specialize (H c eq_refl). congruence.
    + now intros _ c' [= <-].
    + reflexivity.
  - destruct (PyStr.rstrip (String d s)) as [|d' r] eqn:Er.
    + split.
      * destruct (PyStr.isspace c); discriminate.
      * intros H. apply IH in H. discriminate H.
    + split.
      * intros Heq. apply IH. congruence.
      * intros H. apply IH in H. now rewrite H.
Qed.

Lemma clean_ends (s : string) :
  clean s <->
  (forall c, first_char s = Some c -> PyStr.isspace c = false)
  /\ (forall c, last_char s = Some c -> PyStr.isspace c = false).
Proof.
  unfold clean. rewrite rstrip_fixed_last.
  destruct s as [|c s]; cbn [head_ns first_char].
  - split; [intros _; split; discriminate | intuition].
  - split.
    + intros [Hc Hl]. split; [now intros c' [= <-] | exact Hl].
    + intros [Hf Hl]. split; [now apply Hf | exact Hl].
Qed.

(** What [sanitize_column_name] makes of one character of the stripped
    name. *)
Lemma sanitize_char_spec (c : ascii) :
  sanitize_char c = if Ascii.eqb c " " then "_"%char else PyStr.lower_char c.
Proof. unfold sanitize_char. now destruct (Ascii.eqb c " "). Qed.

(** The sanitized name of a string between white space, when its own
    ends are not white space. *)
Lemma sanitize_core (pre core post : string) :
  all_space pre = true -> all_space post = true ->
  (forall c, first_char core = Some c -> PyStr.isspace c = false) ->
  (forall c, last_char core = Some c -> PyStr.isspace c = false) ->
  sanitize_column_name (pre +:+ core +:+ post)
  = PyStr.map (fun c => if Ascii.eqb c " " then "_"%char else PyStr.lower_char c) core.
Proof.
  intros Hpre Hpost Hf Hl.
  rewrite sanitize_unfold, strip_surrounded by assumption.
  rewrite clean_strip by (apply clean_ends; auto).
  apply map_ext, sanitize_char_spec.
Qed.

(** C6: [sanitize_column_name] strips, replaces spaces by underscores and
    lower-cases.  Every string [s] is [pre + core + post] with [pre] and
    [post] white space and a [core] that neither begins nor ends with
    white space; for every such cut, the sanitized name is [core] with
    each space replaced by an underscore and every other character by
    its lower-case form (no character is added, dropped or moved).  It
    maps [" Revenue Growth "] to ["revenue_growth"] and the empty string
    to itself; its result has no white space at either end, contains no
    space and is in lower case; and it is idempotent. *)
Theorem C6_sanitize_column_name :
  sanitize_column_name " Revenue Growth " = "revenue_growth"
  /\ sanitize_column_name "" = ""
  /\ (forall s, exists pre core post,
        s = pre +:+ core +:+ post
        /\ all_space pre = true /\ all_space post = true
        /\ (forall c, first_char core = Some c -> PyStr.isspace c = false)
        /\ (forall c, last_char core = Some c -> PyStr.isspace c = false))
  /\ (forall pre core post,
        all_space pre = true -> all_space post = true ->
        (forall c, first_char core = Some c -> PyStr.isspace c = false) ->
        (forall c, last_char core = Some c -> PyStr.isspace c = false) ->
        sanitize_column_name (pre +:+ core +:+ post)
        = PyStr.map (fun c => if Ascii.eqb c " " then "_"%char else PyStr.lower_char c) core)
  /\ (forall s, PyStr.strip (sanitize_column_name s) = sanitize_column_name s)
  /\ (forall s, PyStr.contains_char " " (sanitize_column_name s) = false)
  /\ (forall s, PyStr.lower (sanitize_column_name s) = sanitize_column_name s)
  /\ (forall s, sanitize_column_name (sanitize_column_name s) = sanitize_column_name s).
Proof.
  split; [reflexivity|]. split; [reflexivity|].
  split.
  { intros s. destruct (strip_decomposes s) as (pre & post & Hs & Hpre & Hpost).
    exists pre, (PyStr.strip s), post.
    pose proof (proj1 (clean_ends _) (strip_clean s)) as [Hf Hl]. auto 6. }
  split; [exact sanitize_core|].
  split; [intros s; apply clean_strip, sanitize_clean|].
  split; [exact sanitize_no_space|].
  split; [exact sanitize_lowered | exact sanitize_idempotent].
Qed.

(** ** Python values, dictionaries and exceptions *)

(** The values that flow through the pipeline: JSON values, table cells,
    embeddings.  A [float] is kept as its 64-bit pattern. *)
Inductive pyval : Type :=
| PNone
| PBool (b : bool)
| PInt (z : Z)
| PFloat (bits : Z)
| PStr (s : string)
| PList (l : list pyval)
| PDict (d : list (string * pyval)).

(** A [dict] with string keys, in insertion order. *)
Definition dict : Type := list (string * pyval).

Module PyDict.

(** [d[k]] as an option; [None] stands for [KeyError]. *)
Fixpoint get (k : string) (d : dict) : option pyval :=
  match d with
  | [] => None
  | (k', v) :: d' => if String.eqb k' k then Some v else get k d'
  end.

(** [k in d] *)
Definition has (k : string) (d : dict) : bool :=
  match get k d with Some _ => true | None => false end.

(** [d[k] = v]: an existing key keeps its place. *)
Fixpoint set (k : string) (v : pyval) (d : dict) : dict :=
  match d with
  | [] => [(k, v)]
  | (k', v') :: d' =>
      if String.eqb k' k then (k, v) :: d' else (k', v') :: set k v d'
  end.

(** [{k: v for k, v in items}] *)
Definition of_items (items : list (string * pyval)) : dict :=
  fold_left (fun d kv => set (fst kv) (snd kv) d) items [].

End PyDict.

(** Truth value of an object, as tested by [if obj:]. *)
Definition truthy (v : pyval) : bool :=
  match v with
  | PNone => false
  | PBool b => b
  | PInt z => negb (z =? 0)%Z
  | PFloat bits => negb ((bits =? 0)%Z || (bits =? 2 ^ 63)%Z)
  | PStr s => negb (String.eqb s "")
  | PList l => match l with [] => false | _ => true end
  | PDict d => match d with [] => false | _ => true end
  end.

(** Truth value of an [Optional[str]] argument. *)
Definition truthy_str (o : option string) : bool :=
  match o with
  | Some s => negb (String.eqb s "")
  | None => false
  end.

(** [v == s] for a [str] [s]: only an equal [str] is equal to it. *)
Definition eq_str (v : pyval) (s : string) : bool :=
  match v with
  | PStr t => String.eqb t s
  | _ => false
  end.

(** [v in l] for a list of [str]. *)
Definition in_list (v : pyval) (l : list string) : bool :=
  existsb (eq_str v) l.

(** The exception classes the sources raise, catch or let through.
    [JSONDecodeError] and [UnicodeDecodeError] are subclasses of
    [ValueError]; [HTTPException] carries its status code and has its
    detail as message. *)
Inductive exn_class : Type :=
| ValueError
| JSONDecodeError
| UnicodeDecodeError
| IndexError
| KeyError
| NameError
| TypeError
| HTTPException (status_code : nat)
| OtherException.

Inductive exn : Type :=
| Exn (cls : exn_class) (msg : string) (cause : option exn).

Definition exn_cls (e : exn) : exn_class := let 'Exn c _ _ := e in c.
(** [str(e)] *)
Definition exn_msg (e : exn) : string := let 'Exn _ m _ := e in m.
(** [e.__cause__] *)
Definition exn_cause (e : exn) : option exn := let 'Exn _ _ c := e in c.

(** [isinstance(e, ValueError)] *)
Definition is_ValueError (e : exn) : bool :=
  match exn_cls e with
  | ValueError | JSONDecodeError | UnicodeDecodeError => true
  | _ => false
  end.

(** [isinstance(e, json.JSONDecodeError)] *)
Definition is_JSONDecodeError (e : exn) : bool :=
  match exn_cls e with JSONDecodeError => true | _ => false end.

(** [isinstance(e, HTTPException)] *)
Definition is_HTTPException (e : exn) : bool :=
  match exn_cls e with HTTPException _ => true | _ => false end.

(** The outcome of a call: a value, or a raised exception. *)
Inductive Result (A : Type) : Type :=
| Ok (a : A)
| Raise (e : exn).
Arguments Ok {A} a.
Arguments Raise {A} e.

(** The [float] nearest to the integer [z], ties going to the even
    significand, as its 64-bit pattern: the cast of an [int64] or a
    [uint64] to [float64]. *)
Definition float64_of_int (z : Z) : Z :=
  if (z =? 0)%Z then 0%Z
  else
    let a := Z.abs z in
    let e := Z.log2 a in
    let m :=
      if (e <=? 52)%Z then Z.shiftl a (52 - e)
      else
        let sh := (e - 52)%Z in
        let q := Z.shiftr a sh in
        let r := Z.land a (Z.ones sh) in
        let half := Z.shiftl 1 (sh - 1) in
        if (half <? r)%Z || ((r =? half)%Z && Z.odd q) then (q + 1)%Z else q in
    ((if (z <? 0)%Z then 2 ^ 63 else 0) + (e + 1023) * 2 ^ 52 + (m - 2 ^ 52))%Z.

(** ** Tables *)

(** A [pandas.DataFrame] with [str] column labels, as [pd.read_csv]
    builds it from a header line and [pd.DataFrame] from JSON objects:
    the labels in order, and the rows, each holding one cell per column.
    A table labelled by position, as [pd.DataFrame] builds it from a JSON
    array of arrays, is not a value of this type. *)
Record DataFrame : Type := mkDataFrame {
  columns : list string;
  rows : list (list pyval)
}.

Module Frame.

(** [len(df)] *)
Definition len (df : DataFrame) : nat := length (rows df).

(** [df.empty]: some axis has length 0. *)
Definition empty (df : DataFrame) : bool :=
  match rows df, columns df with
  | [], _ | _, [] => true
  | _, _ => false
  end.

(** [df.columns = names] *)
Definition set_columns (names : list string) (df : DataFrame) : DataFrame :=
  {| columns := names; rows := rows df |}.

(** The cells of the column at position [j]. *)
Definition column_at (j : nat) (df : DataFrame) : list pyval :=
  List.map (fun r => nth j r PNone) (rows df).

(** The positions of the columns labelled [name]. *)
Fixpoint positions (name : string) (cols : list string) (j : nat) : list nat :=
  match cols with
  | [] => []
  | c :: cols' =>
      (if String.eqb c name then [j] else []) ++ positions name cols' (S j)
  end.

(** [df[labels]]: for each label in turn, every column that bears it;
    [None] (a [KeyError]) when a label is borne by no column. *)
Fixpoint select_positions (labels : list string) (cols : list string)
  : option (list (string * nat)) :=
  match labels with
  | [] => Some []
  | l :: labels' =>
      match positions l cols 0, select_positions labels' cols with
      | [], _ | _, None => None
      | ps, Some rest => Some (List.map (fun p => (l, p)) ps ++ rest)
      end
  end.

(** [df[labels].to_dict(orient="list")]: one key per label, holding the
    cells of the column; of several columns with one label the last
    one stays. *)
Definition select_to_dict (labels : list string) (df : DataFrame) : option dict :=
  match select_positions labels (columns df) with
  | None => None
  | Some sel =>
      Some (PyDict.of_items
              (List.map (fun lp => (fst lp, PList (column_at (snd lp) df))) sel))
  end.

(** The dtypes pandas gives the columns of the tables built here: a
    column of ints is [int64], or [uint64] when some int needs it; a
    column of floats is [float64], a column of booleans [bool]; every
    other column, and the column of a table without rows, is [object]. *)
Inductive dtype : Type := Dint64 | Duint64 | Dfloat64 | Dbool | Dobject.

Definition dtype_eqb (d1 d2 : dtype) : bool :=
  match d1, d2 with
  | Dint64, Dint64 | Duint64, Duint64 | Dfloat64, Dfloat64
  | Dbool, Dbool | Dobject, Dobject => true
  | _, _ => false
  end.

Definition is_int64 (v : pyval) : bool :=
  match v with
  | PInt z => (- 2 ^ 63 <=? z)%Z && (z <? 2 ^ 63)%Z
  | _ => false
  end.

Definition is_uint64 (v : pyval) : bool :=
  match v with
  | PInt z => (0 <=? z)%Z && (z <? 2 ^ 64)%Z
  | _ => false
  end.

Definition is_float (v : pyval) : bool :=
  match v with PFloat _ => true | _ => false end.

Definition is_bool (v : pyval) : bool :=
  match v with PBool _ => true | _ => false end.

Definition numeric (d : dtype) : bool :=
  match d with
  | Dint64 | Duint64 | Dfloat64 => true
  | Dbool | Dobject => false
  end.

(** The dtype of a column, from its cells. *)
Definition column_dtype (cells : list pyval) : dtype :=
  match cells with
  | [] => Dobject
  | _ =>
      if forallb is_int64 cells then Dint64
      else if forallb is_uint64 cells then Duint64
      else if forallb is_float cells then Dfloat64
      else if forallb is_bool cells then Dbool
      else Dobject
  end.

(** [df.dtypes], column by column. *)
Definition dtypes (df : DataFrame) : list dtype :=
  List.map (fun j => column_dtype (column_at j df)) (seq 0 (length (columns df))).

(** The dtype that holds a row across columns of the given dtypes: their
    own when they all agree; [object] when one is [object], or when
    [bool] meets a number; [float64] for any other mix of numbers. *)
Definition common_dtype (ds : list dtype) : dtype :=
  match ds with
  | [] => Dobject
  | d :: ds' =>
      if forallb (dtype_eqb d) ds' then d
      else if existsb (dtype_eqb Dobject) ds || existsb (dtype_eqb Dbool) ds then Dobject
      else Dfloat64
  end.

(** The dtype of the Series [df.iloc[i]]. *)
Definition row_dtype (df : DataFrame) : dtype := common_dtype (dtypes df).

(** A cell as the row holds it: in a [float64] row an int is the float
    nearest to it; every other cell is as the column holds it. *)
Definition as_dtype (d : dtype) (v : pyval) : pyval :=
  match d, v with
  | Dfloat64, PInt z => PFloat (float64_of_int z)
  | _, _ => v
  end.

(** [df.iloc[i].to_dict()] for [i < len(df)]: the row is first brought
    to one dtype. *)
Definition row_to_dict (i : nat) (df : DataFrame) : dict :=
  let r := nth i (rows df) [] in
  let d := row_dtype df in
  PyDict.of_items
    (List.map (fun jc => (snd jc, as_dtype d (nth (fst jc) r PNone)))
              (combine (seq 0 (length (columns df))) (columns df))).

End Frame.

(** [validate_dataset(df)] ([utils.py]).  The table is passed by
    reference: the second component is the table as the call leaves it. *)
Definition validate_dataset (df : DataFrame) : Result unit * DataFrame :=
  if Frame.empty df then
    (Raise (Exn ValueError "Dataset is empty." None), df)
  else if length (columns df) <? 2 then
    (Raise (Exn ValueError "Dataset must have at least 2 columns." None), df)
  else if negb (size (list_to_set (columns df) : gset string) =? length (columns df)) then
    (Raise (Exn ValueError "Column names must be unique." None), df)
  else (Ok tt, df).

(** [len(set(l))] never exceeds [len(l)], and reaches it exactly when
    [l] has no duplicate. *)
Lemma size_set_le (l : list string) :
  size (list_to_set l : gset string) <= length l.
Proof.
  induction l as [|y l IH]; [rewrite list_to_set_nil, size_empty; lia|].
  rewrite list_to_set_cons. cbn [length].
  rewrite size_union_alt, size_singleton.
  pose proof (subseteq_size ((list_to_set l : gset string) ∖ {[y]}) (list_to_set l)) as Hs.
  specialize (Hs ltac:(set_solver)). lia.
Qed.

Lemma size_set_NoDup (l : list string) :
  size (list_to_set l : gset string) = length l <-> NoDup l.
Proof.
  split; [|apply size_list_to_set].
  induction l as [|x l IH]; [constructor|].
  rewrite list_to_set_cons. cbn [length]. intros Hsz.
  pose proof (size_set_le l) as Hle.
  destruct (decide (x ∈ l)) as [Hin|Hnin].
  - exfalso.
    assert (Heq : ({[x]} ∪ list_to_set l : gset string) = list_to_set l).
    { apply leibniz_equiv. set_solver. }
    rewrite Heq in Hsz. lia.
  - constructor; [exact Hnin|]. apply IH.
    rewrite size_union, size_singleton in Hsz by set_solver. lia.
Qed.

Lemma empty_true (df : DataFrame) :
  Frame.empty df = true <-> Frame.len df = 0 \/ length (columns df) = 0.
Proof.
  unfold Frame.empty, Frame.len.
  destruct (rows df), (columns df); simpl; intuition (discriminate || lia).
Qed.

(** [validate_dataset] leaves the table as it was. *)
Lemma validate_dataset_unchanged (df : DataFrame) : snd (validate_dataset df) = df.
Proof.
  unfold validate_dataset.
  destruct (Frame.empty df); [reflexivity|].
  destruct (length (columns df) <? 2); [reflexivity|].
  now destruct (negb _).
Qed.

(** C5: [validate_dataset] returns without error exactly for the tables
    with at least one row, at least two columns and pairwise different
    column names; every other table is refused with a [ValueError]; and
    the table is left as it was. *)
Theorem C5_validate_dataset (df : DataFrame) :
  snd (validate_dataset df) = df
  /\ (fst (validate_dataset df) = Ok tt <->
      1 <= Frame.len df /\ 2 <= length (columns df) /\ NoDup (columns df))
  /\ (fst (validate_dataset df) = Ok tt
      \/ exists msg, fst (validate_dataset df) = Raise (Exn ValueError msg None)).
Proof.
  unfold validate_dataset.
  destruct (Frame.empty df) eqn:Ee.
  { apply empty_true in Ee. cbn [fst snd].
    split; [reflexivity|]. split; [|right; eauto].
    split; [discriminate | intros (H1 & H2 & _); lia]. }
  assert (Hne : ~ (Frame.len df = 0 \/ length (columns df) = 0)).
  { rewrite <- empty_true, Ee. discriminate. }
  destruct (length (columns df) <? 2) eqn:El.
  { apply Nat.ltb_lt in El. cbn [fst snd].
    split; [reflexivity|]. split; [|right; eauto].
    split; [discriminate | intros (_ & H2 & _); lia]. }
  apply Nat.ltb_ge in El.
  destruct (size (list_to_set (columns df) : gset string) =? length (columns df)) eqn:E;
    cbn [negb fst snd].
  - apply Nat.eqb_eq, size_set_NoDup in E.
    split; [reflexivity|]. split; [|left; reflexivity].
    split; [intros _; repeat split; [lia | lia | exact E] | reflexivity].
  - apply Nat.eqb_neq in E.
    split; [reflexivity|]. split; [|right; eauto].
    split; [discriminate|]. intros (_ & _ & Hnd). exfalso. apply E.
    now apply size_set_NoDup.
Qed.

(** ** Collaborators, events and the monad of the pipeline *)

Definition bytes : Type := list Byte.byte.

(** A plotly figure, as [to_dict] presents it: its traces, and its layout,
    an object whose properties are objects in turn. *)
Record Figure : Type := mkFigure {
  fig_data : pyval;
  fig_layout : dict
}.

(** [qdrant_client.http.models.PointStruct] *)
Record PointStruct : Type := mkPointStruct {
  point_id : Z;
  point_vector : pyval;
  point_payload : dict
}.

(** What the libraries and the remote services answer.  Each field is
    the outcome of one library call as a function of its arguments. *)
Record World : Type := mkWorld {
  (** truth value of the module-level [model] of [llm_integration.py] *)
  model_initialized : bool;
  (** [model.generate_content(prompt, safety_settings=...).text] *)
  generate_content : string -> Result string;
  (** [json.loads(text)] *)
  json_loads : string -> Result pyval;
  (** [genai.embed_content(model=..., content=text, ...)["embedding"]] *)
  embed_content : string -> Result pyval;
  (** [client.upsert(collection_name=..., wait=True, points=...)] *)
  client_upsert : string -> list PointStruct -> Result unit;
  (** [hash((i, filename))] *)
  hash_tuple : nat -> option string -> Z;
  (** [data.decode("utf-8")] and [text.encode("utf-8")] *)
  decode_utf8 : bytes -> Result string;
  encode_utf8 : string -> bytes;
  (** [pd.read_csv(StringIO(text))], and [pd.DataFrame(obj)] for an
      [obj] whose table it labels with [str] *)
  read_csv : string -> Result DataFrame;
  DataFrame_of : pyval -> Result DataFrame;
  (** [df.to_string()] *)
  df_to_string : DataFrame -> string;
  (** [str(v)] for a value that is not a [str] *)
  py_repr : pyval -> string;
  (** [px.line], [px.bar], [px.pie], [px.scatter], [px.density_heatmap],
      by name, on the table, the two columns and the title *)
  px : string -> DataFrame -> pyval -> pyval -> string -> Result Figure;
  (** an axis of the layout after [axis.title = v] for a [v] that is not a
      [str]: what plotly's validators make of the axis and [v] *)
  assign_title : dict -> pyval -> Result dict;
  (** [json.loads(json.dumps(fig_dict, default=str))] *)
  json_roundtrip : pyval -> pyval
}.

(** The calls that leave the process or draw, in the order they happen. *)
Inductive event : Type :=
| EvGenerateContent (prompt : string)
| EvEmbedContent (text : string)
| EvUpsert (collection : string) (points : list PointStruct)
| EvPlot (fn : string) (df : DataFrame) (x y : pyval).

Definition trace : Type := list event.

(** A computation: from the trace so far to an outcome and the trace
    after it.  An exception keeps the events that came before it. *)
Definition M (A : Type) : Type := trace -> Result A * trace.

#[global] Instance M_ret : MRet M := fun A a tr => (Ok a, tr).

#[global] Instance M_bind : MBind M := fun A B f m tr =>
  match m tr with
  | (Ok a, tr') => f a tr'
  | (Raise e, tr') => (Raise e, tr')
  end.

Definition raise {A : Type} (e : exn) : M A := fun tr => (Raise e, tr).

(** A library call that leaves no event. *)
Definition lift {A : Type} (r : Result A) : M A := fun tr => (r, tr).

Definition emit (ev : event) : M unit := fun tr => (Ok tt, tr ++ [ev]).

(** [try: body / except Exception as e: handler e] *)
Definition try_except {A : Type} (body : M A) (handler : exn -> M A) : M A :=
  fun tr =>
    match body tr with
    | (Ok a, tr') => (Ok a, tr')
    | (Raise e, tr') => handler e tr'
    end.

(** [l[i]] on a list or on [df.columns] *)
Definition getitem {A : Type} (l : list A) (i : nat) : M A :=
  match nth_error l i with
  | Some a => mret a
  | None => raise (Exn IndexError "list index out of range" None)
  end.

(** [d[k]] *)
Definition dict_getitem (d : dict) (k : string) : M pyval :=
  match PyDict.get k d with
  | Some v => mret v
  | None => raise (Exn KeyError k None)
  end.

(** [str(v)], as f-strings apply it *)
Definition py_str (W : World) (v : pyval) : string :=
  match v with
  | PStr s => s
  | _ => py_repr W v
  end.

Definition nl : string := String "010" "".
Definition dquote : string := String "034" "".

(** ** [llm_integration.py] *)

(** [CHART_PROMPT.format(query=query, columns=columns)] *)
Definition CHART_PROMPT_format (W : World) (query : string) (columns : list string) : string :=
  nl +:+ "Given a user query '" +:+ query
  +:+ "' and available dataset columns " +:+ py_repr W (PList (List.map PStr columns))
  +:+ ", suggest a chart type (line, bar, pie, scatter, heatmap) and the X and Y axis labels. Respond in JSON format with the keys: "
  +:+ dquote +:+ "chart_type" +:+ dquote +:+ ", " +:+ dquote +:+ "x" +:+ dquote
  +:+ ", and " +:+ dquote +:+ "y" +:+ dquote +:+ "." +:+ nl.

(** The expression every fallback of [interpret_query] returns:
    [{"chart_type": "scatter", "x": columns[0], "y": columns[1]}
     if len(columns) >= 2 else
     {"chart_type": "scatter", "x": columns[0], "y": None}] *)
Definition default_config (columns : list string) : M dict :=
  if 2 <=? length columns then
    c0 ← getitem columns 0;
    c1 ← getitem columns 1;
    mret [("chart_type", PStr "scatter"); ("x", PStr c0); ("y", PStr c1)]
  else
    c0 ← getitem columns 0;
    mret [("chart_type", PStr "scatter"); ("x", PStr c0); ("y", PNone)].

(** [isinstance(chart_config, dict) and
     all(key in chart_config for key in ["chart_type", "x", "y"])] *)
Definition complete_config (v : pyval) : option dict :=
  match v with
  | PDict d =>
      if forallb (fun key => PyDict.has key d) ["chart_type"; "x"; "y"]
      then Some d else None
  | _ => None
  end.

(** [interpret_query(query, columns)] *)
Definition interpret_query (W : World) (query : string) (columns : list string) : M dict :=
  if negb (model_initialized W) then default_config columns
  else
    try_except
      (let full_prompt := CHART_PROMPT_format W query columns in
       _ ← emit (EvGenerateContent full_prompt);
       text ← lift (generate_content W full_prompt);
       let response_text := PyStr.strip text in
       match json_loads W response_text with
       | Raise e =>
           if is_JSONDecodeError e then default_config columns else raise e
       | Ok chart_config =>
           match complete_config chart_config with
           | None => default_config columns
           | Some d =>
               x ← dict_getitem d "x";
               y ← dict_getitem d "y";
               if negb (in_list x columns) || negb (in_list y columns)
               then default_config columns
               else mret d
           end
       end)
      (fun e => default_config columns).

(** [generate_embedding(text)]; [PNone] is Python's [None]. *)
Definition generate_embedding (W : World) (text : string) : M pyval :=
  if negb (model_initialized W) then mret PNone
  else
    try_except
      (_ ← emit (EvEmbedContent text);
       lift (embed_content W text))
      (fun e => mret PNone).

(** ** [database.py] *)

Definition COLLECTION_NAME : string := "charts".

(** The body of the loop [for i in range(len(df))] of [save_embeddings],
    run on the indices [idx] with the points built so far. *)
Fixpoint build_points (W : World) (df : DataFrame) (embeddings : list pyval)
    (filename : option string) (idx : list nat) (points : list PointStruct)
    : M (list PointStruct) :=
  match idx with
  | [] => mret points
  | i :: idx' =>
      let payload := Frame.row_to_dict i df in
      let payload :=
        if truthy_str filename
        then PyDict.set "filename" (PStr (default "" filename)) payload
        else payload in
      vector ← getitem embeddings i;
      build_points W df embeddings filename idx'
        (points ++ [mkPointStruct (hash_tuple W i filename) vector payload])
  end.

(** [save_embeddings(df, embeddings, collection_name, filename)] *)
Definition save_embeddings (W : World) (df : DataFrame) (embeddings : list pyval)
    (collection_name : string) (filename : option string) : M unit :=
  try_except
    (points ← build_points W df embeddings filename (seq 0 (Frame.len df)) [];
     _ ← emit (EvUpsert collection_name points);
     lift (client_upsert W collection_name points))
    (fun e => raise e).

(** ** [chart_generator.py] *)

(** The layout of a figure is an object of objects: [layout.xaxis] holds
    the properties of the x axis, [layout.xaxis.title] its title, itself
    an object with the key [text]. *)
Module Layout.

(** The object under the key [k]; an empty one when there is none yet. *)
Definition child (k : string) (d : dict) : dict :=
  match PyDict.get k d with
  | Some (PDict c) => c
  | _ => []
  end.

(** The property at a path, [d[k1][k2]...]. *)
Fixpoint get (path : list string) (d : dict) : option pyval :=
  match path with
  | [] => None
  | k :: rest =>
      match rest with
      | [] => PyDict.get k d
      | _ => match PyDict.get k d with
             | Some (PDict c) => get rest c
             | _ => None
             end
      end
  end.

(** [obj.title = v]: plotly makes a [str] the title [{"text": v}], in
    place of the title the object had; what becomes of the object for
    any other value is left to plotly. *)
Definition set_title (W : World) (v : pyval) (obj : dict) : Result dict :=
  match v with
  | PStr s => Ok (PyDict.set "title" (PDict [("text", PStr s)]) obj)
  | _ => assign_title W obj v
  end.

(** The assignment of [v] at a path of the layout, for the properties
    [create_chart] sets: a title, and the tick angle [-45], which plotly
    keeps as it is given.  The objects on the way are created when they
    are missing. *)
Fixpoint assign (W : World) (path : list string) (v : pyval) (d : dict) : Result dict :=
  match path with
  | [] => Ok d
  | k :: rest =>
      match rest with
      | [] => if String.eqb k "title" then set_title W v d else Ok (PyDict.set k v d)
      | _ =>
          match assign W rest v (child k d) with
          | Ok c => Ok (PyDict.set k (PDict c) d)
          | Raise e => Raise e
          end
      end
  end.

End Layout.

(** The path a keyword of [fig.update_layout] stands for: [xaxis_title]
    is [layout.xaxis.title], [xaxis_tickangle] is [layout.xaxis.tickangle].
    For the keywords [create_chart] passes, it is the keyword cut at its
    underscores. *)
Fixpoint keyword_path_from (word : string) (s : string) : list string :=
  match s with
  | EmptyString => [word]
  | String c s' =>
      if Ascii.eqb c "_" then word :: keyword_path_from "" s'
      else keyword_path_from (word +:+ String c "") s'
  end.

Definition keyword_path (keyword : string) : list string :=
  keyword_path_from "" keyword.

(** The keyword arguments of [fig.update_layout], assigned in turn. *)
Fixpoint update_properties (W : World) (kwargs : list (string * pyval)) (layout : dict)
    : Result dict :=
  match kwargs with
  | [] => Ok layout
  | (keyword, v) :: kwargs' =>
      match Layout.assign W (keyword_path keyword) v layout with
      | Ok layout' => update_properties W kwargs' layout'
      | Raise e => Raise e
      end
  end.

(** [fig.update_layout] with the given keyword arguments *)
Definition update_layout (W : World) (kwargs : list (string * pyval)) (fig : Figure)
    : Result Figure :=
  match update_properties W kwargs (fig_layout fig) with
  | Ok layout => Ok {| fig_data := fig_data fig; fig_layout := layout |}
  | Raise e => Raise e
  end.

(** [fig.to_dict()] *)
Definition fig_to_dict (fig : Figure) : pyval :=
  PDict [("data", fig_data fig); ("layout", PDict (fig_layout fig))].

(** A call of a [plotly.express] function. *)
Definition px_call (W : World) (fn : string) (df : DataFrame) (x y : pyval)
    (title : string) : M Figure :=
  _ ← emit (EvPlot fn df x y);
  lift (px W fn df x y title).

(** [create_chart(chart_type, df, x_axis, y_axis)] *)
Definition create_chart (W : World) (chart_type : pyval) (df : DataFrame)
    (x_axis y_axis : pyval) : M pyval :=
  try_except
    (fig ←
       (if eq_str chart_type "line" then
          fig ← px_call W "line" df x_axis y_axis "Line Chart";
          lift (update_layout W [("xaxis_title", x_axis); ("yaxis_title", y_axis);
                                 ("xaxis_tickangle", PInt (-45))] fig)
        else if eq_str chart_type "bar" then
          fig ← px_call W "bar" df x_axis y_axis "Bar Chart";
          lift (update_layout W [("xaxis_title", x_axis); ("yaxis_title", y_axis)] fig)
        else if eq_str chart_type "pie" then
          px_call W "pie" df x_axis y_axis "Pie Chart"
        else if eq_str chart_type "scatter" then
          fig ← px_call W "scatter" df x_axis y_axis "Scatter Plot";
          lift (update_layout W [("xaxis_title", x_axis); ("yaxis_title", y_axis)] fig)
        else if eq_str chart_type "heatmap" then
          fig ← px_call W "density_heatmap" df x_axis y_axis "Heatmap";
          lift (update_layout W [("xaxis_title", x_axis); ("yaxis_title", y_axis)] fig)
        else
          raise (Exn ValueError ("Unsupported chart type: " +:+ py_str W chart_type) None));
     let fig_dict := fig_to_dict fig in
     mret fig_dict)
    (fun e => raise (Exn ValueError "Failed to generate chart." (Some e))).

(** ** [routes.py] *)

(** What [generate_chart] returns. *)
Record ChartResult : Type := mkChartResult {
  res_chart_type : pyval;
  res_x_axis : pyval;
  res_y_axis : pyval;
  res_data : dict;
  res_plotly_data : pyval;
  res_status : string
}.

(** The names bound in the module [routes.py]: its imports, its logger
    and its two functions. *)
Definition routes_globals : list string :=
  ["pd"; "StringIO"; "json"; "Dict"; "Optional"; "create_chart";
   "interpret_query"; "analyze_data"; "generate_embedding";
   "validate_dataset"; "sanitize_column_name"; "logging"; "traceback";
   "plotly"; "jsonable_encoder"; "logger"; "generate_chart"; "analyze_trends"].

(** A call of the module-level name [name] in the namespace [ns]. *)
Definition call_global {A : Type} (ns : list string) (name : string) (call : M A) : M A :=
  if existsb (String.eqb name) ns then call
  else raise (Exn NameError ("name '" +:+ name +:+ "' is not defined") None).

(** [data_type == s] for the [Optional[str]] argument *)
Definition data_type_is (data_type : option string) (s : string) : bool :=
  match data_type with
  | Some t => String.eqb t s
  | None => false
  end.

(** [pd.DataFrame(json.loads(data_content.decode("utf-8")))] *)
Definition frame_of_json (W : World) (data_content : bytes) : M DataFrame :=
  text ← lift (decode_utf8 W data_content);
  obj ← lift (json_loads W text);
  lift (DataFrame_of W obj).

(** [pd.read_csv(StringIO(data_content.decode("utf-8")))] *)
Definition frame_of_csv (W : World) (data_content : bytes) : M DataFrame :=
  text ← lift (decode_utf8 W data_content);
  lift (read_csv W text).

(** Lines 38 to 63 of [generate_chart]: loading by [data_type]. *)
Definition load_data (W : World) (data_content : bytes) (data_type : option string)
    : M DataFrame :=
  if data_type_is data_type "json" then
    try_except (frame_of_json W data_content)
      (fun e => if is_JSONDecodeError e
                then raise (Exn ValueError ("Invalid JSON data: " +:+ exn_msg e) (Some e))
                else raise e)
  else if data_type_is data_type "file" then
    try_except (frame_of_csv W data_content)
      (fun _ => try_except (frame_of_json W data_content)
         (fun e => raise (Exn ValueError
            ("Error processing file content as CSV or JSON: " +:+ exn_msg e) (Some e))))
  else if data_type_is data_type "manual" then
    try_except (frame_of_csv W data_content)
      (fun e => raise (Exn ValueError
         ("Error processing manual CSV data: " +:+ exn_msg e) (Some e)))
  else raise (Exn ValueError "Unknown data type." None).

(** Lines 65 to 67: validation, then
    [df.columns = [sanitize_column_name(col) for col in df.columns]], on
    a table whose labels are [str] (on any other label the call of
    [sanitize_column_name] raises [AttributeError]). *)
Definition validate_and_sanitize (df : DataFrame) : M DataFrame :=
  let '(r, df) := validate_dataset df in
  _ ← lift r;
  mret (Frame.set_columns (List.map sanitize_column_name (columns df)) df).

(** Lines 69 to 72: the chart configuration, from the caller's chart type
    when it is given, from [interpret_query] otherwise. *)
Definition resolve_config (W : World) (query : string) (chart_type : option string)
    (df_columns : list string) : M dict :=
  if truthy_str chart_type then
    c0 ← getitem df_columns 0;
    c1 ← getitem df_columns 1;
    mret [("chart_type", PStr (default "" chart_type)); ("x", PStr c0); ("y", PStr c1)]
  else interpret_query W query df_columns.

(** [v in df.columns]: hashing [v] comes first. *)
Definition index_contains (v : pyval) (cols : list string) : M bool :=
  match v with
  | PList _ | PDict _ => raise (Exn TypeError "unhashable type" None)
  | _ => mret (in_list v cols)
  end.

(** [df[[x_axis, y_axis]].to_dict(orient="list")] *)
Definition axes_to_dict (df : DataFrame) (x_axis y_axis : pyval) : M dict :=
  match x_axis, y_axis with
  | PStr x, PStr y =>
      match Frame.select_to_dict [x; y] df with
      | Some d => mret d
      | None => raise (Exn KeyError "not in index" None)
      end
  | _, _ => raise (Exn KeyError "not in index" None)
  end.

(** Lines 38 to 82: from the request to the rendered figure. *)
Definition prepare_chart (W : World) (query : string) (data_content : bytes)
    (chart_type : option string) (data_type : option string)
    : M (DataFrame * pyval * pyval * pyval * pyval) :=
  df ← load_data W data_content data_type;
  df ← validate_and_sanitize df;
  chart_config ← resolve_config W query chart_type (columns df);
  chart_type ← dict_getitem chart_config "chart_type";
  x_axis ← dict_getitem chart_config "x";
  y_axis ← dict_getitem chart_config "y";
  x_in ← index_contains x_axis (columns df);
  y_in ← (if x_in then index_contains y_axis (columns df) else mret false);
  if negb x_in || negb y_in then
    raise (Exn ValueError ("Columns '" +:+ py_str W x_axis +:+ "' or '"
                           +:+ py_str W y_axis +:+ "' not found in dataset") None)
  else
    fig_dict ← create_chart W chart_type df x_axis y_axis;
    mret (df, chart_type, x_axis, y_axis, fig_dict).

(** Lines 84 to 92: the embedding and its storage, both best effort. *)
Definition store_embedding (ns : list string) (W : World) (query : string)
    (filename : option string) (df : DataFrame) (chart_type x_axis y_axis : pyval)
    : M unit :=
  let combined_text :=
    query +:+ " " +:+ df_to_string W df +:+ " chart type " +:+ py_str W chart_type
    +:+ " x axis " +:+ py_str W x_axis +:+ " y axis " +:+ py_str W y_axis in
  embedding ← generate_embedding W combined_text;
  if truthy embedding then
    try_except
      (call_global ns "save_embeddings"
         (save_embeddings W df [embedding] COLLECTION_NAME filename))
      (fun e => mret tt)
  else mret tt.

(** [generate_chart(query, data_content, chart_type, data_type, filename)],
    with the names of module [routes.py] looked up in [ns]. *)
Definition generate_chart_in (ns : list string) (W : World) (query : string)
    (data_content : bytes) (chart_type : option string) (data_type : option string)
    (filename : option string) : M ChartResult :=
  try_except
    ('(df, chart_type, x_axis, y_axis, fig_dict) ←
       prepare_chart W query data_content chart_type data_type;
     _ ← store_embedding ns W query filename df chart_type x_axis y_axis;
     data ← axes_to_dict df x_axis y_axis;
     mret {| res_chart_type := chart_type;
             res_x_axis := x_axis;
             res_y_axis := y_axis;
             res_data := data;
             res_plotly_data := json_roundtrip W fig_dict;
             res_status := "success" |})
    (fun e => raise e).

Definition generate_chart : World -> string -> bytes -> option string ->
    option string -> option string -> M ChartResult :=
  generate_chart_in routes_globals.

(** ** [app.py] *)

Module App.

(** An uploaded file: its name and what [await file.read()] gives. *)
Record UploadFile : Type := mkUploadFile {
  filename : string;
  file_bytes : bytes
}.

(** The form fields of [POST /generate-chart/]; a field that was not
    sent is [None]. *)
Record Form : Type := mkForm {
  query : string;
  chart_type : option string;
  file : option UploadFile;
  json_data : option string;
  manual_data : option string
}.

Definition HTTP_400_BAD_REQUEST : nat := 400.
Definition HTTP_500_INTERNAL_SERVER_ERROR : nat := 500.

(** Lines 52 to 76 of [create_chart]: the content, its [data_type] and
    the file name, from the first field that is present. *)
Definition select_source (W : World) (form : Form)
    : M (bytes * option string * option string) :=
  match file form with
  | Some f =>
      if negb (PyStr.endswith (filename f) ".csv" || PyStr.endswith (filename f) ".json")
      then raise (Exn (HTTPException HTTP_400_BAD_REQUEST)
                      "Only CSV and JSON files are supported" None)
      else mret (file_bytes f, Some "file", Some (filename f))
  | None =>
      if truthy_str (json_data form) then
        mret (encode_utf8 W (default "" (json_data form)), Some "json", None)
      else if truthy_str (manual_data form) then
        mret (encode_utf8 W (default "" (manual_data form)), Some "manual", None)
      else raise (Exn (HTTPException HTTP_400_BAD_REQUEST) "No data provided" None)
  end.

(** [create_chart(query, chart_type, file, json_data, manual_data)] *)
Definition create_chart (W : World) (form : Form) : M ChartResult :=
  try_except
    ('(content, data_type, filename) ← select_source W form;
     generate_chart W (query form) content (chart_type form) data_type filename)
    (fun e =>
       if is_HTTPException e then raise e
       else if is_ValueError e then
         raise (Exn (HTTPException HTTP_400_BAD_REQUEST) (exn_msg e) None)
       else
         raise (Exn (HTTPException HTTP_500_INTERNAL_SERVER_ERROR)
                    ("Unexpected error: " +:+ exn_msg e) (Some e))).

End App.


(** ** Sample tables and worlds *)

(** The table of the CSV text [a,b / 1,2 / 3,4]. *)
Definition table_ab : DataFrame :=
  {| columns := ["a"; "b"]; rows := [[PInt 1; PInt 2]; [PInt 3; PInt 4]] |}.

Definition csv_ab : string := "a,b" +:+ nl +:+ "1,2" +:+ nl +:+ "3,4".

(** Two tables whose column names differ only until they are sanitized. *)
Definition table_Aa : DataFrame :=
  {| columns := ["A"; "a"]; rows := [[PInt 1; PInt 2]] |}.

Definition csv_Aa : string := "A,a" +:+ nl +:+ "1,2".

Definition table_a_b : DataFrame :=
  {| columns := ["a b"; "a_b"]; rows := [[PInt 1; PInt 2]] |}.

Definition csv_a_b : string := "a b,a_b" +:+ nl +:+ "1,2".

Definition unavailable : exn := Exn OtherException "service unavailable" None.

(** A JSON string literal. *)
Definition jstr (s : string) : string := dquote +:+ s +:+ dquote.

(** The answer [{"chart_type": "pie", "x": "b", "y": "a"}] and its parse. *)
Definition answer_pie : string :=
  "{" +:+ jstr "chart_type" +:+ ": " +:+ jstr "pie" +:+ ", " +:+ jstr "x" +:+ ": "
  +:+ jstr "b" +:+ ", " +:+ jstr "y" +:+ ": " +:+ jstr "a" +:+ "}".

Definition parsed_pie : pyval :=
  PDict [("chart_type", PStr "pie"); ("x", PStr "b"); ("y", PStr "a")].

(** pandas on the sample texts. *)
Definition sample_read_csv (text : string) : Result DataFrame :=
  if String.eqb text csv_ab then Ok table_ab
  else if String.eqb text csv_Aa then Ok table_Aa
  else if String.eqb text csv_a_b then Ok table_a_b
  else Raise (Exn OtherException "Error tokenizing data" None).

(** A world in which pandas and plotly work and every remote service is
    down: the language model, the embedding model and the vector store. *)
Definition offline : World :=
  {| model_initialized := true;
     generate_content := fun _ => Raise unavailable;
     json_loads := fun _ => Raise (Exn JSONDecodeError "Expecting value" None);
     embed_content := fun _ => Raise unavailable;
     client_upsert := fun _ _ => Raise unavailable;
     hash_tuple := fun i _ => Z.of_nat i;
     decode_utf8 := fun b => Ok (String.string_of_list_byte b);
     encode_utf8 := String.list_byte_of_string;
     read_csv := sample_read_csv;
     DataFrame_of := fun _ => Raise (Exn ValueError "DataFrame constructor not properly called!" None);
     df_to_string := fun _ => "";
     py_repr := fun _ => "";
     px := fun _ _ _ _ _ => Ok {| fig_data := PList []; fig_layout := [] |};
     assign_title := fun _ _ => Raise (Exn ValueError "Invalid value" None);
     json_roundtrip := fun v => v |}.

(** [offline] with a language model that answers [answer_pie], and a
    [json.loads] that parses it. *)
Definition answering : World :=
  {| model_initialized := true;
     generate_content := fun _ => Ok answer_pie;
     json_loads := fun text =>
       if String.eqb text answer_pie then Ok parsed_pie
       else Raise (Exn JSONDecodeError "Expecting value" None);
     embed_content := embed_content offline;
     client_upsert := client_upsert offline;
     hash_tuple := hash_tuple offline;
     decode_utf8 := decode_utf8 offline;
     encode_utf8 := encode_utf8 offline;
     read_csv := read_csv offline;
     DataFrame_of := DataFrame_of offline;
     df_to_string := df_to_string offline;
     py_repr := py_repr offline;
     px := px offline;
     assign_title := assign_title offline;
     json_roundtrip := json_roundtrip offline |}.

(** [offline] with a plotly that fails on every table. *)
Definition undrawable : World :=
  {| model_initialized := true;
     generate_content := generate_content offline;
     json_loads := json_loads offline;
     embed_content := embed_content offline;
     client_upsert := client_upsert offline;
     hash_tuple := hash_tuple offline;
     decode_utf8 := decode_utf8 offline;
     encode_utf8 := encode_utf8 offline;
     read_csv := read_csv offline;
     DataFrame_of := DataFrame_of offline;
     df_to_string := df_to_string offline;
     py_repr := py_repr offline;
     px := fun _ _ _ _ _ =>
       Raise (Exn TypeError "unsupported operand type(s) for +: 'int' and 'str'" None);
     assign_title := assign_title offline;
     json_roundtrip := json_roundtrip offline |}.

(** * The chart-config resolver *)

(** The configuration [{"chart_type": t, "x": x, "y": y}]. *)
Definition config (t x : string) (y : pyval) : dict :=
  [("chart_type", PStr t); ("x", PStr x); ("y", y)].

(** [v] is not one of the column names. *)
Definition not_a_column (v : pyval) (columns : list string) : Prop :=
  forall s, v = PStr s -> s ∉ columns.

Lemma in_list_true (v : pyval) (l : list string) :
  in_list v l = true <-> exists s, v = PStr s /\ s ∈ l.
Proof.
  unfold in_list. rewrite existsb_exists. split.
  - intros (s & Hin & Heq). destruct v; try discriminate.
    apply String.eqb_eq in Heq. subst. exists s.
    split; [reflexivity | now apply list_elem_of_In].
  - intros (s & -> & Hin). exists s.
    split; [now apply list_elem_of_In | apply String.eqb_refl].
Qed.


(** The situations in which the spec asks for the default configuration. *)
Inductive fallback_case (W : World) (query : string) (columns : list string) : Prop :=
| fb_unavailable :
    model_initialized W = false -> fallback_case W query columns
| fb_call_fails e :
    generate_content W (CHART_PROMPT_format W query columns) = Raise e ->
    fallback_case W query columns
| fb_unparseable text e :
    generate_content W (CHART_PROMPT_format W query columns) = Ok text ->
    json_loads W (PyStr.strip text) = Raise e ->
    fallback_case W query columns
| fb_incomplete text v :
    generate_content W (CHART_PROMPT_format W query columns) = Ok text ->
    json_loads W (PyStr.strip text) = Ok v ->
    (forall d, v = PDict d ->
       ~ (PyDict.has "chart_type" d = true /\ PyDict.has "x" d = true
          /\ PyDict.has "y" d = true)) ->
    fallback_case W query columns
| fb_bad_axis text d x y :
    generate_content W (CHART_PROMPT_format W query columns) = Ok text ->
    json_loads W (PyStr.strip text) = Ok (PDict d) ->
    PyDict.get "x" d = Some x -> PyDict.get "y" d = Some y ->
    not_a_column x columns \/ not_a_column y columns ->
    fallback_case W query columns.








(** The failing input: with no column the fallback itself raises. *)
Lemma interpret_query_no_columns :
  fallback_case offline "plot" []
  /\ length ([] : list string) < 2
  /\ fst (interpret_query offline "plot" [] [])
     = Raise (Exn IndexError "list index out of range" None)
  /\ ~ (exists cfg, fst (interpret_query offline "plot" [] []) = Ok cfg
                    /\ PyDict.get "y" cfg = Some PNone).
Proof.
  split; [apply (fb_call_fails _ _ _ unavailable); reflexivity|].
  split; [simpl; lia|].
  split; [reflexivity|].
  intros (cfg & Hcfg & _). discriminate Hcfg.
Qed.

(** C7, as the code has it: with a non-empty explicit chart type and at
    least two columns the resolver returns
    [{chart_type: explicit_type, x: columns[0], y: columns[1]}] whatever
    the query and the collaborators are, and the trace is left as it was:
    no collaborator is called. *)
Theorem C7_resolve_config_explicit (W : World) (query explicit_type : string)
    (c0 c1 : string) (rest : list string) (tr : trace) :
  explicit_type <> "" ->
  resolve_config W query (Some explicit_type) (c0 :: c1 :: rest) tr
  = (Ok (config explicit_type c0 (PStr c1)), tr).
Proof.
  intros Hne. unfold resolve_config, truthy_str.
  apply String.eqb_neq in Hne. rewrite Hne. reflexivity.
Qed.

Lemma C7_resolve_config_explicit_witness :
  "bar" <> ""
  /\ resolve_config answering "show me a pie of b by a" (Some "bar") ["a"; "b"; "c"] []
     = (Ok (config "bar" "a" (PStr "b")), []).
Proof.
  assert (H : "bar" <> "") by discriminate.
  split; [exact H|].
  exact (C7_resolve_config_explicit answering "show me a pie of b by a" "bar"
           "a" "b" ["c"] [] H).
Defined.

(** The empty string is an explicit chart type that the resolver does not
    honour: it asks the language model, and returns what that one says. *)
Lemma C7_empty_type_counterexample :
  resolve_config answering "plot" (Some "") ["a"; "b"] []
  = (Ok (config "pie" "b" (PStr "a")),
     [EvGenerateContent (CHART_PROMPT_format answering "plot" ["a"; "b"])])
  /\ resolve_config answering "plot" (Some "") ["a"; "b"] []
     <> (Ok (config "" "a" (PStr "b")), []).
Proof. split; [vm_compute; reflexivity | vm_compute; discriminate]. Qed.

(** * Rendering *)

Definition supported_types : list string := ["line"; "bar"; "pie"; "scatter"; "heatmap"].

(** The [plotly.express] function and the title [create_chart] uses for a
    supported chart type. *)
Definition px_function (t : string) : string :=
  if String.eqb t "heatmap" then "density_heatmap" else t.

Definition px_title (t : string) : string :=
  if String.eqb t "line" then "Line Chart"
  else if String.eqb t "bar" then "Bar Chart"
  else if String.eqb t "pie" then "Pie Chart"
  else if String.eqb t "scatter" then "Scatter Plot"
  else "Heatmap".

(** The one exception [create_chart] lets out. *)
Definition render_failure (cause : exn) : exn :=
  Exn ValueError "Failed to generate chart." (Some cause).

Lemma create_chart_unsupported (W : World) (t : string) (df : DataFrame)
    (x y : pyval) (tr : trace) :
  t ∉ supported_types ->
  create_chart W (PStr t) df x y tr
  = (Raise (render_failure (Exn ValueError ("Unsupported chart type: " +:+ t) None)), tr).
Proof.
  intros Hn. unfold create_chart, eq_str.
  assert (H : forall s, s ∈ supported_types -> String.eqb t s = false).
  { intros s Hs. apply String.eqb_neq. intros ->. contradiction. }
  rewrite !H by (unfold supported_types; set_solver).
  reflexivity.
Qed.

Lemma create_chart_px_fails (W : World) (t : string) (df : DataFrame)
    (x y : pyval) (tr : trace) (e : exn) :
  t ∈ supported_types ->
  px W (px_function t) df x y (px_title t) = Raise e ->
  create_chart W (PStr t) df x y tr
  = (Raise (render_failure e), tr ++ [EvPlot (px_function t) df x y]).
Proof.
  intros Hin Hpx. unfold supported_types in Hin.
  repeat (apply elem_of_cons in Hin as [-> | Hin]);
    [ .. | now apply elem_of_nil in Hin];
    unfold create_chart, try_except, px_call, mbind, M_bind, emit, lift;
    cbn -[px] in *; rewrite Hpx; reflexivity.
Qed.

(** C4, as the code has it: a chart type outside the five supported ones
    and a failure inside plotly for a supported one both leave
    [create_chart] as a [ValueError] with the message
    ["Failed to generate chart."]; they differ only in the chained cause,
    which is the ["Unsupported chart type: ..."] error in the first case
    and plotly's error in the second. *)
Theorem C4_create_chart_failures (W : World) (df : DataFrame) (x y : pyval) (tr : trace) :
  (forall t, t ∉ supported_types ->
     exists e, fst (create_chart W (PStr t) df x y tr) = Raise e
       /\ exn_cls e = ValueError /\ exn_msg e = "Failed to generate chart."
       /\ exn_cause e = Some (Exn ValueError ("Unsupported chart type: " +:+ t) None))
  /\ (forall t cause, t ∈ supported_types ->
        px W (px_function t) df x y (px_title t) = Raise cause ->
        exists e, fst (create_chart W (PStr t) df x y tr) = Raise e
          /\ exn_cls e = ValueError /\ exn_msg e = "Failed to generate chart."
          /\ exn_cause e = Some cause).
Proof.
  split.
  - intros t Ht. rewrite create_chart_unsupported by exact Ht.
    eexists. repeat split.
  - intros t cause Ht Hpx. rewrite (create_chart_px_fails _ _ _ _ _ _ _ Ht Hpx).
    eexists. repeat split.
Qed.

(** An unsupported type and a plotly failure, seen from the caller: the
    same class and the same message. *)
Lemma C4_same_kind_counterexample :
  fst (create_chart undrawable (PStr "donut") table_ab (PStr "a") (PStr "b") [])
  = Raise (Exn ValueError "Failed to generate chart."
             (Some (Exn ValueError "Unsupported chart type: donut" None)))
  /\ fst (create_chart undrawable (PStr "scatter") table_ab (PStr "a") (PStr "b") [])
     = Raise (Exn ValueError "Failed to generate chart."
                (Some (Exn TypeError "unsupported operand type(s) for +: 'int' and 'str'" None)))
  /\ ~ (exists distinct : exn -> bool,
          (forall e, distinct e = distinct (Exn (exn_cls e) (exn_msg e) None))
          /\ distinct (Exn ValueError "Failed to generate chart."
                         (Some (Exn ValueError "Unsupported chart type: donut" None)))
             <> distinct (Exn ValueError "Failed to generate chart."
                            (Some (Exn TypeError "unsupported operand type(s) for +: 'int' and 'str'" None)))).
Proof.
  split; [reflexivity|]. split; [reflexivity|].
  intros (f & Hf & Hne). apply Hne. rewrite Hf. symmetry. rewrite Hf. reflexivity.
Qed.

Lemma C4_create_chart_failures_witness :
  ("donut" ∉ supported_types)
  /\ exists e,
       fst (create_chart undrawable (PStr "donut") table_ab (PStr "a") (PStr "b") []) = Raise e
       /\ exn_cls e = ValueError /\ exn_msg e = "Failed to generate chart."
       /\ exn_cause e = Some (Exn ValueError ("Unsupported chart type: " +:+ "donut") None).
Proof.
  assert (H : "donut" ∉ supported_types).
  { unfold supported_types. intros Hin.
    repeat (apply elem_of_cons in Hin as [Hin | Hin]; [discriminate Hin|]).
    now apply elem_of_nil in Hin. }
  split; [exact H|].
  exact (proj1 (C4_create_chart_failures undrawable table_ab (PStr "a") (PStr "b") [])
           "donut" H).
Defined.

(** * The vector-store upsert *)

Definition sample_vector : pyval := PList [PFloat 0; PFloat 4607182418800017408].

(** A world in which every service works: the language model answers
    [answer_pie], the embedding model gives [sample_vector] and the vector
    store accepts every upsert. *)
Definition online : World :=
  {| model_initialized := true;
     generate_content := generate_content answering;
     json_loads := json_loads answering;
     embed_content := fun _ => Ok sample_vector;
     client_upsert := fun _ _ => Ok tt;
     hash_tuple := hash_tuple offline;
     decode_utf8 := decode_utf8 offline;
     encode_utf8 := encode_utf8 offline;
     read_csv := read_csv offline;
     DataFrame_of := DataFrame_of offline;
     df_to_string := df_to_string offline;
     py_repr := py_repr offline;
     px := px offline;
     assign_title := assign_title offline;
     json_roundtrip := json_roundtrip offline |}.

(** The record built for row [i]. *)
Definition point_of_row (W : World) (df : DataFrame) (embeddings : list pyval)
    (filename : option string) (i : nat) : PointStruct :=
  {| point_id := hash_tuple W i filename;
     point_vector := nth i embeddings PNone;
     point_payload :=
       if truthy_str filename
       then PyDict.set "filename" (PStr (default "" filename)) (Frame.row_to_dict i df)
       else Frame.row_to_dict i df |}.

(** With one embedding per row, the loop builds one record per row. *)
Lemma build_points_enough (W : World) (df : DataFrame) (embeddings : list pyval)
    (filename : option string) (idx : list nat) (points : list PointStruct) (tr : trace) :
  Forall (fun i => i < length embeddings) idx ->
  build_points W df embeddings filename idx points tr
  = (Ok (points ++ List.map (point_of_row W df embeddings filename) idx), tr).
Proof.
  revert points. induction idx as [|i idx IH]; intros points Hall.
  - simpl. now rewrite app_nil_r.
  - apply Forall_cons in Hall as [Hi Hall]. cbn [build_points].
    unfold mbind, M_bind, getitem.
    destruct (nth_error embeddings i) as [v|] eqn:E.
    + unfold mret, M_ret. rewrite (IH _ Hall). cbn [List.map].
      rewrite <- app_assoc. cbn [app]. unfold point_of_row at 2.
      now rewrite (nth_error_nth _ _ PNone E).
    + apply nth_error_None in E. lia.
Qed.

Lemma save_embeddings_enough (W : World) (df : DataFrame) (embeddings : list pyval)
    (collection : string) (filename : option string) (tr : trace) :
  Frame.len df <= length embeddings ->
  snd (save_embeddings W df embeddings collection filename tr)
  = tr ++ [EvUpsert collection
             (List.map (point_of_row W df embeddings filename) (seq 0 (Frame.len df)))].
Proof.
  intros Hlen. unfold save_embeddings, try_except, mbind, M_bind.
  rewrite build_points_enough.
  - unfold emit, lift. cbn [app]. now destruct (client_upsert W _ _).
  - apply Forall_forall. intros i Hi. apply elem_of_seq in Hi. lia.
Qed.

(** With the single embedding of a request and two rows or more, the
    loop stops at row 1 on [embeddings[1]], before any upsert. *)
Lemma save_embeddings_single (W : World) (df : DataFrame) (v : pyval)
    (collection : string) (filename : option string) (tr : trace) :
  2 <= Frame.len df ->
  save_embeddings W df [v] collection filename tr
  = (Raise (Exn IndexError "list index out of range" None), tr).
Proof.
  intros Hlen. unfold save_embeddings.
  destruct (Frame.len df) as [|[|n]]; [lia | lia |]. reflexivity.
Qed.

(** The call of [save_embeddings] in [routes.py] finds no such name. *)
Lemma save_embeddings_unbound (A : Type) (call : M A) (tr : trace) :
  call_global routes_globals "save_embeddings" call tr
  = (Raise (Exn NameError "name 'save_embeddings' is not defined" None), tr).
Proof. reflexivity. Qed.

Definition is_upsert (ev : event) : bool :=
  match ev with EvUpsert _ _ => true | _ => false end.

(** C2, at the failing input: on the two-row table and the single
    embedding of the request, [save_embeddings] raises [IndexError] and
    sends nothing to the vector store (the same for every table of two
    rows or more); only a table of one row gets its record.  Through
    [generate_chart], with every service working, no upsert happens
    either. *)
Theorem C2_save_embeddings_single_vector :
  save_embeddings online table_ab [sample_vector] COLLECTION_NAME (Some "sales.csv") []
  = (Raise (Exn IndexError "list index out of range" None), [])
  /\ (forall W df v collection filename tr, 2 <= Frame.len df ->
        save_embeddings W df [v] collection filename tr
        = (Raise (Exn IndexError "list index out of range" None), tr))
  /\ snd (save_embeddings online table_Aa [sample_vector] COLLECTION_NAME (Some "sales.csv") [])
     = [EvUpsert COLLECTION_NAME
          [{| point_id := 0; point_vector := sample_vector;
              point_payload := [("A", PInt 1); ("a", PInt 2); ("filename", PStr "sales.csv")] |}]]
  /\ filter is_upsert
       (snd (generate_chart online "plot a vs b" (encode_utf8 online csv_ab)
               None (Some "manual") None [])) = [].
Proof.
  split; [reflexivity|].
  split; [intros; now apply save_embeddings_single|].
  split; [reflexivity|].
  vm_compute. reflexivity.
Qed.

(** * The pipeline of [generate_chart] *)

(** ** Dictionaries built by insertion *)

(** The value of the last item of [items] whose key is [k]. *)
Fixpoint last_value (k : string) (items : list (string * pyval)) : option pyval :=
  match items with
  | [] => None
  | (k', v) :: rest =>
      match last_value k rest with
      | Some w => Some w
      | None => if String.eqb k' k then Some v else None
      end
  end.

Lemma get_set (k k' : string) (v : pyval) (d : dict) :
  PyDict.get k (PyDict.set k' v d) = if String.eqb k' k then Some v else PyDict.get k d.
Proof.
  induction d as [|[k0 v0] d IH]; [reflexivity|].
  cbn [PyDict.set]. destruct (String.eqb k0 k') eqn:E0; cbn [PyDict.get].
  - apply String.eqb_eq in E0. subst k0.
    now destruct (String.eqb k' k).
  - rewrite IH. destruct (String.eqb k0 k) eqn:E1; [|reflexivity].
    apply String.eqb_eq in E1. subst k0.
    destruct (String.eqb k' k) eqn:E2; [|reflexivity].
    apply String.eqb_eq in E2. subst k'. now rewrite String.eqb_refl in E0.
Qed.

Lemma get_fold_set (k : string) (items : list (string * pyval)) (d : dict) :
  PyDict.get k (fold_left (fun d kv => PyDict.set (fst kv) (snd kv) d) items d)
  = match last_value k items with
    | Some v => Some v
    | None => PyDict.get k d
    end.
Proof.
  revert d. induction items as [|[k' v] items IH]; intros d; [reflexivity|].
  cbn [fold_left last_value fst snd]. rewrite IH, get_set.
  destruct (last_value k items); [reflexivity|].
  now destruct (String.eqb k' k).
Qed.

Lemma get_of_items (k : string) (items : list (string * pyval)) :
  PyDict.get k (PyDict.of_items items) = last_value k items.
Proof.
  unfold PyDict.of_items. rewrite get_fold_set. now destruct (last_value k items).
Qed.

Lemma last_value_app (k : string) (l1 l2 : list (string * pyval)) :
  last_value k (l1 ++ l2)
  = match last_value k l2 with
    | Some v => Some v
    | None => last_value k l1
    end.
Proof.
  induction l1 as [|[k' v] l1 IH]; cbn [app last_value].
  - now destruct (last_value k l2).
  - rewrite IH. now destruct (last_value k l2).
Qed.

Lemma last_value_same (k : string) (f : nat -> pyval) (ps : list nat) :
  ps <> [] ->
  last_value k (List.map (fun p => (k, f p)) ps) = Some (f (List.last ps 0)).
Proof.
  induction ps as [|p ps IH]; [congruence|]. intros _.
  cbn [List.map last_value]. destruct ps as [|q ps].
  - cbn. now rewrite String.eqb_refl.
  - rewrite IH by discriminate. reflexivity.
Qed.

Lemma last_value_other (k k' : string) (f : nat -> pyval) (ps : list nat) :
  k' <> k -> last_value k (List.map (fun p => (k', f p)) ps) = None.
Proof.
  intros Hne. induction ps as [|p ps IH]; [reflexivity|].
  cbn [List.map last_value]. rewrite IH.
  apply String.eqb_neq in Hne. now rewrite Hne.
Qed.

(** ** Columns by label *)

(** The position of the last column labelled [name]. *)
Definition last_position (name : string) (cols : list string) : nat :=
  List.last (Frame.positions name cols 0) 0.

Lemma positions_nonempty (name : string) (cols : list string) (j : nat) :
  name ∈ cols -> Frame.positions name cols j <> [].
Proof.
  revert j. induction cols as [|c cols IH]; intros j Hin.
  - now apply elem_of_nil in Hin.
  - cbn [Frame.positions]. destruct (String.eqb c name) eqn:E; [discriminate|].
    apply elem_of_cons in Hin as [->|Hin]; [now rewrite String.eqb_refl in E|].
    cbn [app]. now apply IH.
Qed.

(** [df[[x, y]].to_dict(orient="list")] for two labels the table bears:
    the keys are [x] and [y], each with the cells of the last column of
    that name. *)
Lemma select_to_dict_two (df : DataFrame) (x y : string) :
  x ∈ columns df -> y ∈ columns df ->
  exists d, Frame.select_to_dict [x; y] df = Some d
    /\ (forall k, PyDict.has k d = true <-> k = x \/ k = y)
    /\ PyDict.get x d = Some (PList (Frame.column_at (last_position x (columns df)) df))
    /\ PyDict.get y d = Some (PList (Frame.column_at (last_position y (columns df)) df)).
Proof.
  intros Hx Hy. unfold Frame.select_to_dict. cbn [Frame.select_positions].
  pose proof (positions_nonempty x _ 0 Hx) as Hpx.
  pose proof (positions_nonempty y _ 0 Hy) as Hpy.
  destruct (Frame.positions x (columns df) 0) as [|px0 pxs] eqn:Ex; [congruence|].
  destruct (Frame.positions y (columns df) 0) as [|py0 pys] eqn:Ey; [congruence|].
  eexists. split; [reflexivity|].
  rewrite app_nil_r, List.map_app, !List.map_map. cbn [fst snd].
  set (col := fun p => PList (Frame.column_at p df)).
  assert (Hget : forall k,
    PyDict.get k (PyDict.of_items
      (List.map (fun p => (x, col p)) (px0 :: pxs)
       ++ List.map (fun p => (y, col p)) (py0 :: pys)))
    = if String.eqb y k then Some (col (List.last (py0 :: pys) 0))
      else if String.eqb x k then Some (col (List.last (px0 :: pxs) 0))
      else None).
  { intros k. rewrite get_of_items, last_value_app.
    destruct (String.eqb y k) eqn:Eyk.
    - apply String.eqb_eq in Eyk. subst k. now rewrite last_value_same.
    - apply String.eqb_neq in Eyk. rewrite last_value_other by exact Eyk.
      destruct (String.eqb x k) eqn:Exk.
      + apply String.eqb_eq in Exk. subst k. now rewrite last_value_same.
      + apply String.eqb_neq in Exk. now rewrite last_value_other. }
  split; [|split].
  - intros k. unfold PyDict.has. rewrite Hget.
    destruct (String.eqb y k) eqn:Eyk; [apply String.eqb_eq in Eyk; intuition|].
    destruct (String.eqb x k) eqn:Exk; [apply String.eqb_eq in Exk; intuition|].
    apply String.eqb_neq in Eyk, Exk. split; [discriminate | intros [?|?]; congruence].
  - rewrite Hget, String.eqb_refl. unfold last_position. rewrite Ex.
    destruct (String.eqb y x) eqn:Eyx; [|reflexivity].
    apply String.eqb_eq in Eyx. subst y. rewrite Ex in Ey. now inversion Ey.
  - rewrite Hget, String.eqb_refl. unfold last_position. now rewrite Ey.
Qed.

(** ** Running the monad *)

Lemma bind_Ok_inv {A B : Type} (m : M A) (f : A -> M B) (tr tr' : trace) (b : B) :
  (a ← m; f a) tr = (Ok b, tr') ->
  exists a tr1, m tr = (Ok a, tr1) /\ f a tr1 = (Ok b, tr').
Proof.
  unfold mbind, M_bind. destruct (m tr) as [[a|e] tr1]; [eauto | discriminate].
Qed.

Lemma index_contains_true (v : pyval) (cols : list string) (tr tr' : trace) :
  index_contains v cols tr = (Ok true, tr') ->
  tr' = tr /\ exists s, v = PStr s /\ s ∈ cols.
Proof.
  unfold index_contains, raise, mret, M_ret.
  destruct v; try discriminate; intros [= H]; subst;
    (split; [reflexivity | now apply in_list_true]).
Qed.

(** When [prepare_chart] succeeds, both axes are names of columns of the
    table it hands on. *)
Lemma prepare_chart_axes (W : World) (query : string) (data_content : bytes)
    (chart_type data_type : option string) (tr tr' : trace)
    (df : DataFrame) (ct x y fig : pyval) :
  prepare_chart W query data_content chart_type data_type tr
  = (Ok (df, ct, x, y, fig), tr') ->
  exists xs ys, x = PStr xs /\ y = PStr ys /\ xs ∈ columns df /\ ys ∈ columns df.
Proof.
  unfold prepare_chart. intros H.
  apply bind_Ok_inv in H as (df0 & t0 & _ & H).
  apply bind_Ok_inv in H as (df1 & t1 & _ & H).
  apply bind_Ok_inv in H as (cfg & t2 & _ & H).
  apply bind_Ok_inv in H as (ct' & t3 & _ & H).
  apply bind_Ok_inv in H as (x' & t4 & _ & H).
  apply bind_Ok_inv in H as (y' & t5 & _ & H).
  apply bind_Ok_inv in H as (x_in & t6 & Hx & H).
  apply bind_Ok_inv in H as (y_in & t7 & Hy & H).
  destruct x_in; [|discriminate H].
  destruct y_in; [|discriminate H].
  cbn [negb orb] in H.
  apply bind_Ok_inv in H as (fig' & t8 & _ & H).
  unfold mret, M_ret in H. injection H as -> -> -> -> -> ->.
  apply index_contains_true in Hx as (_ & xs & -> & Hxs).
  apply index_contains_true in Hy as (_ & ys & -> & Hys).
  exists xs, ys. auto.
Qed.

(** The embedding step always completes: a failing embedding gives
    [None], a failing or missing [save_embeddings] is swallowed. *)
Lemma generate_embedding_total (W : World) (text : string) (tr : trace) :
  exists v tr', generate_embedding W text tr = (Ok v, tr')
    /\ (forall e, embed_content W text = Raise e -> v = PNone).
Proof.
  unfold generate_embedding.
  destruct (model_initialized W); cbn [negb].
  - unfold try_except, mbind, M_bind, emit, lift, mret, M_ret.
    destruct (embed_content W text) as [v|e]; eexists _, _;
      (split; [reflexivity | congruence]).
  - eexists _, _. split; [reflexivity | reflexivity].
Qed.

Lemma store_embedding_total (ns : list string) (W : World) (query : string)
    (filename : option string) (df : DataFrame) (ct x y : pyval) (tr : trace) :
  exists tr', store_embedding ns W query filename df ct x y tr = (Ok tt, tr').
Proof.
  unfold store_embedding, mbind, M_bind.
  destruct (generate_embedding_total W
    (query +:+ " " +:+ df_to_string W df +:+ " chart type " +:+ py_str W ct
     +:+ " x axis " +:+ py_str W x +:+ " y axis " +:+ py_str W y) tr)
    as (v & tr1 & -> & _).
  destruct (truthy v); [|eexists; reflexivity].
  unfold try_except.
  destruct (call_global ns "save_embeddings" _ tr1) as [[[]|e] tr2];
    eexists; reflexivity.
Qed.

Lemma axes_to_dict_run (df : DataFrame) (x y : pyval) (tr : trace) :
  axes_to_dict df x y tr = (fst (axes_to_dict df x y []), tr).
Proof.
  unfold axes_to_dict. destruct x, y; try reflexivity.
  now destruct (Frame.select_to_dict _ df).
Qed.

(** ** The [data] field of the result *)

(** C3, as the code has it: the [data] field of a successful
    [generate_chart] is keyed by the names of the resolved x and y columns
    (not by ["x"] and ["y"]); under each name it holds the cells of the
    column of that name in the sanitized table, the last such column when
    several bear the name. *)
Theorem C3_generate_chart_data (ns : list string) (W : World) (query : string)
    (data_content : bytes) (chart_type data_type filename : option string)
    (tr : trace) (r : ChartResult) :
  fst (generate_chart_in ns W query data_content chart_type data_type filename tr) = Ok r ->
  exists df x y fig tr1,
    prepare_chart W query data_content chart_type data_type tr
    = (Ok (df, res_chart_type r, PStr x, PStr y, fig), tr1)
    /\ res_x_axis r = PStr x /\ res_y_axis r = PStr y
    /\ res_status r = "success"
    /\ (forall k, PyDict.has k (res_data r) = true <-> k = x \/ k = y)
    /\ PyDict.get x (res_data r)
       = Some (PList (Frame.column_at (last_position x (columns df)) df))
    /\ PyDict.get y (res_data r)
       = Some (PList (Frame.column_at (last_position y (columns df)) df)).
Proof.
  unfold generate_chart_in, try_except, mbind at 1, M_bind at 1.
  destruct (prepare_chart W query data_content chart_type data_type tr)
    as [[[[[[df ct] x] y] fig] | e] tr1] eqn:Hprep; [|discriminate].
  destruct (prepare_chart_axes _ _ _ _ _ _ _ _ _ _ _ _ Hprep)
    as (xs & ys & -> & -> & Hxs & Hys).
  unfold mbind, M_bind.
  destruct (store_embedding_total ns W query filename df ct (PStr xs) (PStr ys) tr1)
    as (tr2 & ->).
  destruct (select_to_dict_two df xs ys Hxs Hys) as (d & Hd & Hkeys & Hgx & Hgy).
  unfold axes_to_dict. rewrite Hd. unfold mret, M_ret. cbn [fst].
  intros [= <-]. cbn.
  exists df, xs, ys, fig, tr1. repeat split; try assumption; apply Hkeys.
Qed.

(** The request of the spec's end-to-end example: the manual data
    [a,b / 1,2 / 3,4], no chart type. *)
Definition form_ab : App.Form :=
  {| App.query := "plot a vs b";
     App.chart_type := None;
     App.file := None;
     App.json_data := None;
     App.manual_data := Some csv_ab |}.

Lemma C3_generate_chart_data_witness :
  fst (generate_chart_in routes_globals offline "plot a vs b" (encode_utf8 offline csv_ab)
         None (Some "manual") None [])
  = Ok {| res_chart_type := PStr "scatter"; res_x_axis := PStr "a"; res_y_axis := PStr "b";
          res_data := [("a", PList [PInt 1; PInt 3]); ("b", PList [PInt 2; PInt 4])];
          res_plotly_data :=
            PDict [("data", PList []);
                   ("layout",
                    PDict [("xaxis", PDict [("title", PDict [("text", PStr "a")])]);
                           ("yaxis", PDict [("title", PDict [("text", PStr "b")])])])];
          res_status := "success" |}
  /\ exists df x y fig tr1,
       prepare_chart offline "plot a vs b" (encode_utf8 offline csv_ab) None (Some "manual") []
       = (Ok (df, PStr "scatter", PStr x, PStr y, fig), tr1)
       /\ PStr "a" = PStr x /\ PStr "b" = PStr y
       /\ "success" = "success"
       /\ (forall k, PyDict.has k [("a", PList [PInt 1; PInt 3]); ("b", PList [PInt 2; PInt 4])] = true
                     <-> k = x \/ k = y)
       /\ PyDict.get x [("a", PList [PInt 1; PInt 3]); ("b", PList [PInt 2; PInt 4])]
          = Some (PList (Frame.column_at (last_position x (columns df)) df))
       /\ PyDict.get y [("a", PList [PInt 1; PInt 3]); ("b", PList [PInt 2; PInt 4])]
          = Some (PList (Frame.column_at (last_position y (columns df)) df)).
Proof.
  assert (H : fst (generate_chart_in routes_globals offline "plot a vs b"
                     (encode_utf8 offline csv_ab) None (Some "manual") None [])
              = Ok {| res_chart_type := PStr "scatter"; res_x_axis := PStr "a";
                      res_y_axis := PStr "b";
                      res_data := [("a", PList [PInt 1; PInt 3]); ("b", PList [PInt 2; PInt 4])];
                      res_plotly_data :=
                        PDict [("data", PList []);
                               ("layout",
                                PDict [("xaxis", PDict [("title", PDict [("text", PStr "a")])]);
                                       ("yaxis", PDict [("title", PDict [("text", PStr "b")])])])];
                      res_status := "success" |}).
  { vm_compute. reflexivity. }
  split; [exact H|].
  exact (C3_generate_chart_data routes_globals offline "plot a vs b"
           (encode_utf8 offline csv_ab) None (Some "manual") None [] _ H).
Defined.

(** The spec's example through the HTTP handler: [data] has the keys
    ["a"] and ["b"], and neither ["x"] nor ["y"]. *)
Lemma C3_data_keys_counterexample :
  match fst (App.create_chart offline form_ab []) with
  | Ok r =>
      res_status r = "success"
      /\ res_data r = [("a", PList [PInt 1; PInt 3]); ("b", PList [PInt 2; PInt 4])]
      /\ PyDict.get "x" (res_data r) = None
      /\ PyDict.get "y" (res_data r) = None
  | Raise _ => False
  end.
Proof. vm_compute. repeat split. Qed.

(** ** Best-effort enrichment *)

(** [W] with other answers of the embedding model and of the vector store. *)
Definition with_enrichment (W : World) (embed : string -> Result pyval)
    (upsert : string -> list PointStruct -> Result unit) : World :=
  {| model_initialized := model_initialized W;
     generate_content := generate_content W;
     json_loads := json_loads W;
     embed_content := embed;
     client_upsert := upsert;
     hash_tuple := hash_tuple W;
     decode_utf8 := decode_utf8 W;
     encode_utf8 := encode_utf8 W;
     read_csv := read_csv W;
     DataFrame_of := DataFrame_of W;
     df_to_string := df_to_string W;
     py_repr := py_repr W;
     px := px W;
     assign_title := assign_title W;
     json_roundtrip := json_roundtrip W |}.

(** Everything up to the rendered figure ignores the embedding model and
    the vector store. *)
Lemma prepare_chart_enrichment (W : World) (embed : string -> Result pyval)
    (upsert : string -> list PointStruct -> Result unit) (query : string)
    (data_content : bytes) (chart_type data_type : option string) (tr : trace) :
  prepare_chart (with_enrichment W embed upsert) query data_content chart_type data_type tr
  = prepare_chart W query data_content chart_type data_type tr.
Proof. reflexivity. Qed.

(** After a successful [prepare_chart] the request succeeds. *)
Lemma generate_chart_after_render (ns : list string) (W : World) (query : string)
    (data_content : bytes) (chart_type data_type filename : option string)
    (tr tr1 : trace) (df : DataFrame) (ct x y fig : pyval) :
  prepare_chart W query data_content chart_type data_type tr
  = (Ok (df, ct, x, y, fig), tr1) ->
  exists data,
    fst (axes_to_dict df x y []) = Ok data
    /\ fst (generate_chart_in ns W query data_content chart_type data_type filename tr)
       = Ok {| res_chart_type := ct; res_x_axis := x; res_y_axis := y; res_data := data;
               res_plotly_data := json_roundtrip W fig; res_status := "success" |}.
Proof.
  intros Hprep.
  destruct (prepare_chart_axes _ _ _ _ _ _ _ _ _ _ _ _ Hprep)
    as (xs & ys & -> & -> & Hxs & Hys).
  destruct (select_to_dict_two df xs ys Hxs Hys) as (d & Hd & _).
  exists d. split.
  - unfold axes_to_dict. now rewrite Hd.
  - unfold generate_chart_in, try_except, mbind, M_bind. rewrite Hprep.
    destruct (store_embedding_total ns W query filename df ct (PStr xs) (PStr ys) tr1)
      as (tr2 & ->).
    unfold axes_to_dict. now rewrite Hd.
Qed.

(** The outcome of a request, result or exception, is the same under
    any other behaviour of the embedding model and of the vector store. *)
Lemma generate_chart_enrichment (ns : list string) (W : World)
    (embed : string -> Result pyval) (upsert : string -> list PointStruct -> Result unit)
    (query : string) (data_content : bytes) (chart_type data_type filename : option string)
    (tr : trace) :
  fst (generate_chart_in ns (with_enrichment W embed upsert) query data_content
         chart_type data_type filename tr)
  = fst (generate_chart_in ns W query data_content chart_type data_type filename tr).
Proof.
  destruct (prepare_chart W query data_content chart_type data_type tr)
    as [[[[[[df ct] x] y] fig] | e] tr1] eqn:Hprep.
  - destruct (generate_chart_after_render ns W query data_content chart_type data_type
                filename tr tr1 df ct x y fig Hprep) as (data & Hdata & ->).
    assert (Hprep' : prepare_chart (with_enrichment W embed upsert) query data_content
                       chart_type data_type tr = (Ok (df, ct, x, y, fig), tr1)).
    { rewrite prepare_chart_enrichment. exact Hprep. }
    destruct (generate_chart_after_render ns _ query data_content chart_type data_type
                filename tr tr1 df ct x y fig Hprep') as (data' & Hdata' & ->).
    rewrite Hdata in Hdata'. injection Hdata' as <-. reflexivity.
  - unfold generate_chart_in, try_except, mbind, M_bind.
    rewrite prepare_chart_enrichment, Hprep. reflexivity.
Qed.

(** C8: once rendering has succeeded, [generate_chart] returns a result
    with status ["success"] whatever the embedding call and the upsert do;
    the embedding call never raises (its failure is [None]); and the
    outcome of the request is the same under any other behaviour of the
    embedding model and of the vector store. *)
Theorem C8_enrichment_is_best_effort (ns : list string) (W : World) (query : string)
    (data_content : bytes) (chart_type data_type filename : option string)
    (tr tr1 : trace) (df : DataFrame) (ct x y fig : pyval) :
  prepare_chart W query data_content chart_type data_type tr
  = (Ok (df, ct, x, y, fig), tr1) ->
  (exists r,
     fst (generate_chart_in ns W query data_content chart_type data_type filename tr) = Ok r
     /\ res_status r = "success")
  /\ (forall text tr0, exists v tr0',
        generate_embedding W text tr0 = (Ok v, tr0')
        /\ (forall e, embed_content W text = Raise e -> v = PNone))
  /\ (forall embed upsert,
        fst (generate_chart_in ns (with_enrichment W embed upsert) query data_content
               chart_type data_type filename tr)
        = fst (generate_chart_in ns W query data_content chart_type data_type filename tr)).
Proof.
  intros Hprep. split; [|split].
  - destruct (generate_chart_after_render ns W query data_content chart_type data_type
                filename tr tr1 df ct x y fig Hprep) as (data & _ & ->).
    eexists. split; reflexivity.
  - intros text tr0. apply generate_embedding_total.
  - intros embed upsert. apply generate_chart_enrichment.
Qed.

(** The sanitized [table_ab] and the figure the sample plotly draws. *)
Definition sample_figure : pyval :=
  PDict [("data", PList []);
         ("layout",
          PDict [("xaxis", PDict [("title", PDict [("text", PStr "a")])]);
                 ("yaxis", PDict [("title", PDict [("text", PStr "b")])])])].

Lemma C8_enrichment_is_best_effort_witness :
  prepare_chart offline "plot a vs b" (encode_utf8 offline csv_ab) None (Some "manual") []
  = (Ok (table_ab, PStr "scatter", PStr "a", PStr "b", sample_figure),
     [EvGenerateContent (CHART_PROMPT_format offline "plot a vs b" ["a"; "b"]);
      EvPlot "scatter" table_ab (PStr "a") (PStr "b")])
  /\ exists r,
       fst (generate_chart_in routes_globals offline "plot a vs b"
              (encode_utf8 offline csv_ab) None (Some "manual") (Some "sales.csv") []) = Ok r
       /\ res_status r = "success".
Proof.
  assert (H : prepare_chart offline "plot a vs b" (encode_utf8 offline csv_ab) None
                (Some "manual") []
              = (Ok (table_ab, PStr "scatter", PStr "a", PStr "b", sample_figure),
                 [EvGenerateContent (CHART_PROMPT_format offline "plot a vs b" ["a"; "b"]);
                  EvPlot "scatter" table_ab (PStr "a") (PStr "b")])).
  { vm_compute. reflexivity. }
  split; [exact H|].
  exact (proj1 (C8_enrichment_is_best_effort routes_globals offline "plot a vs b"
                  (encode_utf8 offline csv_ab) None (Some "manual") (Some "sales.csv")
                  [] _ _ _ _ _ _ H)).
Defined.

(** * The HTTP handler *)

(** [form] without the fields that [select_source] does not reach: those
    after the first one that is present. *)
Definition first_source (form : App.Form) : App.Form :=
  match App.file form with
  | Some _ =>
      {| App.query := App.query form; App.chart_type := App.chart_type form;
         App.file := App.file form; App.json_data := None; App.manual_data := None |}
  | None =>
      if truthy_str (App.json_data form) then
        {| App.query := App.query form; App.chart_type := App.chart_type form;
           App.file := None; App.json_data := App.json_data form;
           App.manual_data := None |}
      else form
  end.

(** The number of data fields a form supplies. *)
Definition supplied (form : App.Form) : nat :=
  (match App.file form with Some _ => 1 | None => 0 end)
  + (if truthy_str (App.json_data form) then 1 else 0)
  + (if truthy_str (App.manual_data form) then 1 else 0).

Lemma select_source_first (W : World) (form : App.Form) (tr : trace) :
  App.select_source W form tr = App.select_source W (first_source form) tr.
Proof.
  unfold first_source, App.select_source.
  destruct (App.file form) as [f|] eqn:Ef; cbn; [reflexivity|].
  destruct (truthy_str (App.json_data form)) eqn:E; cbn; rewrite ?Ef, ?E; reflexivity.
Qed.

Lemma truthy_str_true (o : option string) :
  truthy_str o = true <-> exists s, o = Some s /\ s <> "".
Proof.
  destruct o as [s|]; cbn.
  - rewrite negb_true_iff, String.eqb_neq. split; [eauto | now intros (? & [= <-] & ?)].
  - split; [discriminate | now intros (? & ? & _)].
Qed.

(** C9, as the code has it: at least one of [file], [json_data],
    [manual_data] must be supplied, else the request fails with status 400
    and ["No data provided"]; the first one supplied, in this order, gives
    the content and the [data_type] ([file], [json], [manual]); and a
    request that supplies several is accepted and handled exactly as the
    request with only its first source. *)
Theorem C9_select_source (W : World) (form : App.Form) (tr : trace) :
  (supplied form = 0 ->
   App.select_source W form tr
   = (Raise (Exn (HTTPException 400) "No data provided" None), tr))
  /\ (forall content data_type name,
        fst (App.select_source W form tr) = Ok (content, data_type, name) ->
        (data_type = Some "file"
         /\ exists f, App.file form = Some f /\ content = App.file_bytes f
                      /\ name = Some (App.filename f))
        \/ (data_type = Some "json" /\ App.file form = None /\ name = None
            /\ exists s, App.json_data form = Some s /\ s <> ""
                         /\ content = encode_utf8 W s)
        \/ (data_type = Some "manual" /\ App.file form = None /\ name = None
            /\ truthy_str (App.json_data form) = false
            /\ exists s, App.manual_data form = Some s /\ s <> ""
                         /\ content = encode_utf8 W s))
  /\ supplied (first_source form) <= 1
  /\ App.select_source W form tr = App.select_source W (first_source form) tr
  /\ App.create_chart W form tr = App.create_chart W (first_source form) tr.
Proof.
  split; [|split; [|split; [|split]]].
  - unfold supplied, App.select_source.
    destruct (App.file form); [lia|].
    destruct (truthy_str (App.json_data form)); [lia|].
    destruct (truthy_str (App.manual_data form)); [lia|]. reflexivity.
  - intros content data_type name. unfold App.select_source.
    destruct (App.file form) as [f|].
    + destruct (negb _); [discriminate|]. cbn. intros [= <- <- <-].
      left. split; [reflexivity|]. eauto.
    + destruct (truthy_str (App.json_data form)) eqn:Ej.
      * apply truthy_str_true in Ej as (s & Hs & Hne). rewrite Hs. cbn.
        intros [= <- <- <-]. right; left. repeat split. eauto.
      * destruct (truthy_str (App.manual_data form)) eqn:Em; [|discriminate].
        apply truthy_str_true in Em as (s & Hs & Hne). rewrite Hs. cbn.
        intros [= <- <- <-]. right; right. repeat split. eauto.
  - unfold supplied, first_source.
    destruct (App.file form) eqn:Ef; cbn; [lia|].
    destruct (truthy_str (App.json_data form)) eqn:Ej; cbn; rewrite ?Ef, ?Ej;
      destruct (truthy_str (App.manual_data form)); lia.
  - apply select_source_first.
  - unfold App.create_chart, try_except, mbind, M_bind.
    rewrite select_source_first.
    assert (Hq : App.query (first_source form) = App.query form
                 /\ App.chart_type (first_source form) = App.chart_type form).
    { unfold first_source. destruct (App.file form); [split; reflexivity|].
      destruct (truthy_str (App.json_data form)); split; reflexivity. }
    destruct Hq as [-> ->]. reflexivity.
Qed.

(** A request with both a file and manual data. *)
Definition form_two_sources : App.Form :=
  {| App.query := "plot a vs b";
     App.chart_type := None;
     App.file := Some {| App.filename := "sales.csv";
                         App.file_bytes := encode_utf8 offline csv_ab |};
     App.json_data := None;
     App.manual_data := Some csv_Aa |}.

(** It is accepted, with the file as its source. *)
Lemma C9_two_sources_counterexample :
  supplied form_two_sources = 2
  /\ fst (App.select_source offline form_two_sources [])
     = Ok (encode_utf8 offline csv_ab, Some "file", Some "sales.csv")
  /\ match fst (App.create_chart offline form_two_sources []) with
     | Ok r =>
         res_status r = "success"
         /\ res_data r = [("a", PList [PInt 1; PInt 3]); ("b", PList [PInt 2; PInt 4])]
     | Raise _ => False
     end.
Proof. split; [reflexivity|]. split; [reflexivity|]. vm_compute. split; reflexivity. Qed.

(** * Column names after sanitizing *)

(** A valid table comes out of lines 65 to 67 with its column names
    sanitized, and nothing looks at the new names. *)
Lemma validate_and_sanitize_valid (df : DataFrame) (tr : trace) :
  fst (validate_dataset df) = Ok tt ->
  validate_and_sanitize df tr
  = (Ok (Frame.set_columns (List.map sanitize_column_name (columns df)) df), tr).
Proof.
  intros Hv. unfold validate_and_sanitize.
  pose proof (validate_dataset_unchanged df) as Hsnd.
  destruct (validate_dataset df) as [r df']. cbn in Hv, Hsnd. subst. reflexivity.
Qed.

Lemma not_NoDup_twice (s : string) : ~ NoDup [s; s].
Proof. intros H. apply NoDup_cons in H as [Hn _]. apply Hn. set_solver. Qed.



(** * Further properties of the sources *)

(** ** [sanitize_column_name]: what it does not see *)

Lemma lstrip_map (f : ascii -> ascii) (s : string) :
  (forall c, PyStr.isspace (f c) = PyStr.isspace c) ->
  PyStr.lstrip (PyStr.map f s) = PyStr.map f (PyStr.lstrip s).
Proof.
  intros Hf. induction s as [|c s IH]; [reflexivity|]. cbn.
  rewrite Hf. now destruct (PyStr.isspace c).
Qed.

Lemma rstrip_map (f : ascii -> ascii) (s : string) :
  (forall c, PyStr.isspace (f c) = PyStr.isspace c) ->
  PyStr.rstrip (PyStr.map f s) = PyStr.map f (PyStr.rstrip s).
Proof.
  intros Hf. induction s as [|c s IH]; [reflexivity|].
  cbn [PyStr.map]. rewrite !rstrip_cons, IH, Hf.
  destruct (PyStr.rstrip s); [now destruct (PyStr.isspace c) | reflexivity].
Qed.

Lemma lower_char_isspace (c : ascii) :
  PyStr.isspace (PyStr.lower_char c) = PyStr.isspace c.
Proof. destruct c as [[] [] [] [] [] [] [] []]; reflexivity. Qed.

Lemma sanitize_char_lower (c : ascii) :
  sanitize_char (PyStr.lower_char c) = sanitize_char c.
Proof. destruct c as [[] [] [] [] [] [] [] []]; reflexivity. Qed.

Lemma sanitize_char_underscore (c : ascii) :
  sanitize_char (if Ascii.eqb c " " then "_"%char else c) = sanitize_char c.
Proof. destruct c as [[] [] [] [] [] [] [] []]; reflexivity. Qed.

(** X1: white space around a name and the case of its letters do not
    reach the sanitized name, and inside a stripped name a space and an
    underscore are the same: names that differ only in these sanitize to
    one name. *)
Theorem X1_sanitize_insensitive (pre s post : string) :
  all_space pre = true -> all_space post = true ->
  sanitize_column_name (pre +:+ s +:+ post) = sanitize_column_name s
  /\ sanitize_column_name (PyStr.lower s) = sanitize_column_name s
  /\ sanitize_column_name (PyStr.replace " " "_" (PyStr.strip s)) = sanitize_column_name s.
Proof.
  intros Hpre Hpost. split; [|split].
  - rewrite !sanitize_unfold. now rewrite strip_surrounded.
  - rewrite !sanitize_unfold. unfold PyStr.lower, PyStr.strip.
    rewrite lstrip_map, rstrip_map by exact lower_char_isspace.
    rewrite map_map. apply map_ext, sanitize_char_lower.
  - rewrite !sanitize_unfold. unfold PyStr.replace.
    assert (Hclean : clean (PyStr.map (fun c => if Ascii.eqb c " " then "_"%char else c)
                              (PyStr.strip s))).
    { apply clean_map; [|apply strip_clean].
      intros c Hc. destruct c as [[] [] [] [] [] [] [] []]; vm_compute in Hc |- *; congruence. }
    rewrite (clean_strip _ Hclean), map_map.
    apply map_ext, sanitize_char_underscore.
Qed.

Lemma X1_sanitize_insensitive_witness :
  all_space "  " = true /\ all_space (String "009" "") = true
  /\ sanitize_column_name ("  " +:+ "Revenue Growth" +:+ String "009" "")
     = sanitize_column_name "Revenue Growth".
Proof.
  assert (H1 : all_space "  " = true) by reflexivity.
  assert (H2 : all_space (String "009" "") = true) by reflexivity.
  split; [exact H1|]. split; [exact H2|].
  exact (proj1 (X1_sanitize_insensitive "  " "Revenue Growth" (String "009" "") H1 H2)).
Defined.

(** ** The resolver: what it accepts, what it guarantees *)

(** A configuration whose axes are columns of the table. *)
Definition refers_to (columns : list string) (cfg : dict) : Prop :=
  (exists t, PyDict.get "chart_type" cfg = Some t)
  /\ (exists x, PyDict.get "x" cfg = Some (PStr x) /\ x ∈ columns)
  /\ (exists y, PyDict.get "y" cfg = Some (PStr y) /\ y ∈ columns).

Lemma complete_config_Some (v : pyval) (d : dict) :
  complete_config v = Some d ->
  v = PDict d /\ PyDict.has "chart_type" d = true
  /\ PyDict.has "x" d = true /\ PyDict.has "y" d = true.
Proof.
  destruct v as [| | | | | |d']; try discriminate.
  unfold complete_config. cbn [forallb].
  destruct (PyDict.has "chart_type" d') eqn:E1; [|discriminate].
  destruct (PyDict.has "x" d') eqn:E2; [|discriminate].
  destruct (PyDict.has "y" d') eqn:E3; [|discriminate].
  intros [= <-]. auto.
Qed.

Lemma has_get (k : string) (d : dict) :
  PyDict.has k d = true -> exists v, PyDict.get k d = Some v.
Proof. unfold PyDict.has. destruct (PyDict.get k d); [eauto | discriminate]. Qed.

(** X2: an answer of the language model that parses to an object with the
    three keys, whose [x] and [y] are column names, is returned as it is,
    after exactly one call: the [chart_type] in it is not looked at, and
    further keys stay. *)
Theorem X2_interpret_query_accepts (W : World) (query : string)
    (columns : list string) (tr : trace) (text : string) (d : dict) (x y : string) :
  model_initialized W = true ->
  generate_content W (CHART_PROMPT_format W query columns) = Ok text ->
  json_loads W (PyStr.strip text) = Ok (PDict d) ->
  PyDict.has "chart_type" d = true ->
  PyDict.get "x" d = Some (PStr x) -> x ∈ columns ->
  PyDict.get "y" d = Some (PStr y) -> y ∈ columns ->
  interpret_query W query columns tr
  = (Ok d, tr ++ [EvGenerateContent (CHART_PROMPT_format W query columns)]).
Proof.
  intros Hm Hg Hj Hc Hx Hxin Hy Hyin. unfold interpret_query.
  rewrite Hm. cbn [negb]. unfold try_except, mbind, M_bind, emit, lift.
  rewrite Hg, Hj. unfold complete_config. cbn [forallb]. rewrite Hc.
  unfold PyDict.has. rewrite Hx, Hy. cbn [andb].
  unfold dict_getitem. rewrite Hx, Hy. unfold mret, M_ret.
  assert (Hix : in_list (PStr x) columns = true) by (apply in_list_true; eauto).
  assert (Hiy : in_list (PStr y) columns = true) by (apply in_list_true; eauto).
  now rewrite Hix, Hiy.
Qed.

(** An answer with a chart type plotly does not know and a key nobody
    asked for. *)
Definition answer_donut : string :=
  "{" +:+ jstr "chart_type" +:+ ": " +:+ jstr "donut" +:+ ", " +:+ jstr "x" +:+ ": "
  +:+ jstr "a" +:+ ", " +:+ jstr "y" +:+ ": " +:+ jstr "b" +:+ ", " +:+ jstr "why"
  +:+ ": " +:+ jstr "looks nice" +:+ "}".

Definition parsed_donut : dict :=
  [("chart_type", PStr "donut"); ("x", PStr "a"); ("y", PStr "b");
   ("why", PStr "looks nice")].

Definition answering_donut : World :=
  {| model_initialized := true;
     generate_content := fun _ => Ok (" " +:+ answer_donut +:+ nl);
     json_loads := fun text =>
       if String.eqb text answer_donut then Ok (PDict parsed_donut)
       else Raise (Exn JSONDecodeError "Expecting value" None);
     embed_content := embed_content offline;
     client_upsert := client_upsert offline;
     hash_tuple := hash_tuple offline;
     decode_utf8 := decode_utf8 offline;
     encode_utf8 := encode_utf8 offline;
     read_csv := read_csv offline;
     DataFrame_of := DataFrame_of offline;
     df_to_string := df_to_string offline;
     py_repr := py_repr offline;
     px := px offline;
     assign_title := assign_title offline;
     json_roundtrip := json_roundtrip offline |}.

Lemma X2_interpret_query_accepts_witness :
  interpret_query answering_donut "plot a vs b" ["a"; "b"] []
  = (Ok parsed_donut,
     [] ++ [EvGenerateContent (CHART_PROMPT_format answering_donut "plot a vs b" ["a"; "b"])]).
Proof.
  apply (X2_interpret_query_accepts answering_donut "plot a vs b" ["a"; "b"] []
           (" " +:+ answer_donut +:+ nl) parsed_donut "a" "b");
    try reflexivity; set_solver.
Defined.

(** What [interpret_query] returns on two columns or more, and the trace
    it leaves. *)
Lemma interpret_query_two (W : World) (query : string) (c0 c1 : string)
    (rest : list string) (tr : trace) :
  exists cfg,
    interpret_query W query (c0 :: c1 :: rest) tr
    = (Ok cfg,
       if model_initialized W
       then tr ++ [EvGenerateContent (CHART_PROMPT_format W query (c0 :: c1 :: rest))]
       else tr)
    /\ refers_to (c0 :: c1 :: rest) cfg.
Proof.
  assert (Hdef : refers_to (c0 :: c1 :: rest) (config "scatter" c0 (PStr c1))).
  { repeat split; eexists; try (split; [reflexivity|]); try reflexivity; set_solver. }
  unfold interpret_query.
  destruct (model_initialized W); cbn [negb]; [|eexists; split; [reflexivity | exact Hdef]].
  unfold try_except, mbind, M_bind, emit, lift.
  destruct (generate_content W _) as [text|e];
    [|eexists; split; [reflexivity | exact Hdef]].
  destruct (json_loads W _) as [v|e];
    [|destruct (is_JSONDecodeError e); eexists; (split; [reflexivity | exact Hdef])].
  destruct (complete_config v) as [d|] eqn:Ec;
    [|eexists; split; [reflexivity | exact Hdef]].
  apply complete_config_Some in Ec as (-> & Hc & Hx & Hy).
  apply has_get in Hc as (t & Ht), Hx as (x & Hx), Hy as (y & Hy).
  unfold dict_getitem. rewrite Hx, Hy. unfold mret, M_ret.
  destruct (in_list x (c0 :: c1 :: rest)) eqn:Ex; cbn [negb orb];
    [|eexists; split; [reflexivity | exact Hdef]].
  destruct (in_list y (c0 :: c1 :: rest)) eqn:Ey; cbn [negb orb];
    [|eexists; split; [reflexivity | exact Hdef]].
  apply in_list_true in Ex as (xs & -> & Hxs), Ey as (ys & -> & Hys).
  exists d. split; [reflexivity|].
  split; [eauto|]. split; eauto.
Qed.

(** X3: on two columns or more the resolver never raises, with or without
    an explicit chart type and whatever the language model does; the
    configuration it returns has the three keys, and its [x] and [y] are
    names of columns; it calls the language model once at most, and not
    at all for a non-empty explicit chart type. *)
Theorem X3_resolve_config_refers_to_columns (W : World) (query : string)
    (chart_type : option string) (columns : list string) (tr : trace) :
  2 <= length columns ->
  exists cfg tr',
    resolve_config W query chart_type columns tr = (Ok cfg, tr')
    /\ refers_to columns cfg
    /\ tr' = (if truthy_str chart_type then tr
              else if model_initialized W
                   then tr ++ [EvGenerateContent (CHART_PROMPT_format W query columns)]
                   else tr).
Proof.
  intros Hlen. destruct columns as [|c0 [|c1 rest]]; cbn in Hlen; try lia.
  unfold resolve_config. destruct (truthy_str chart_type).
  - eexists _, _. split; [reflexivity|]. split; [|reflexivity].
    repeat split; eexists; try (split; [reflexivity|]); try reflexivity; set_solver.
  - destruct (interpret_query_two W query c0 c1 rest tr) as (cfg & -> & Hcfg).
    eexists _, _. split; [reflexivity|]. split; [exact Hcfg | reflexivity].
Qed.

Lemma X3_resolve_config_refers_to_columns_witness :
  2 <= length ["a"; "b"]
  /\ exists cfg tr',
       resolve_config answering "plot" None ["a"; "b"] [] = (Ok cfg, tr')
       /\ refers_to ["a"; "b"] cfg
       /\ tr' = (if truthy_str None then []
                 else if model_initialized answering
                      then [] ++ [EvGenerateContent (CHART_PROMPT_format answering "plot" ["a"; "b"])]
                      else []).
Proof.
  assert (H : 2 <= length ["a"; "b"]) by (cbn; lia).
  split; [exact H|].
  exact (X3_resolve_config_refers_to_columns answering "plot" None ["a"; "b"] [] H).
Defined.

(** ** [create_chart]: what a drawn figure carries *)

(** The title plotly makes of a [str]. *)
Definition title_of (s : string) : pyval := PDict [("text", PStr s)].

(** The layout [d] with [d[a][b] = v]. *)
Definition put (a b : string) (v : pyval) (d : dict) : dict :=
  PyDict.set a (PDict (PyDict.set b v (Layout.child a d))) d.

Lemma eqb_false_of_ne (s t : string) : s <> t -> String.eqb s t = false.
Proof. apply String.eqb_neq. Qed.

Lemma layout_get_two (a b : string) (d : dict) :
  Layout.get [a; b] d = PyDict.get b (Layout.child a d).
Proof.
  cbn [Layout.get]. unfold Layout.child.
  destruct (PyDict.get a d) as [[| | | | | |c]|]; reflexivity.
Qed.

Lemma get_put_other (k a b : string) (v : pyval) (d : dict) :
  k <> a -> PyDict.get k (put a b v d) = PyDict.get k d.
Proof.
  intros Hne. unfold put. rewrite get_set.
  now rewrite (eqb_false_of_ne a k) by congruence.
Qed.

Lemma child_put_same (a b : string) (v : pyval) (d : dict) :
  Layout.child a (put a b v d) = PyDict.set b v (Layout.child a d).
Proof. unfold put, Layout.child at 1. now rewrite get_set, String.eqb_refl. Qed.

Lemma child_put_other (a' a b : string) (v : pyval) (d : dict) :
  a' <> a -> Layout.child a' (put a b v d) = Layout.child a' d.
Proof. intros Hne. unfold Layout.child. now rewrite get_put_other. Qed.

(** The two calls of [fig.update_layout] in [create_chart], on column
    names. *)
Lemma update_layout_titles (W : World) (xs ys : string) (fig : Figure) :
  update_layout W [("xaxis_title", PStr xs); ("yaxis_title", PStr ys)] fig
  = Ok {| fig_data := fig_data fig;
          fig_layout := put "yaxis" "title" (title_of ys)
                          (put "xaxis" "title" (title_of xs) (fig_layout fig)) |}.
Proof. reflexivity. Qed.

Lemma update_layout_line (W : World) (xs ys : string) (fig : Figure) :
  update_layout W [("xaxis_title", PStr xs); ("yaxis_title", PStr ys);
                   ("xaxis_tickangle", PInt (-45))] fig
  = Ok {| fig_data := fig_data fig;
          fig_layout := put "xaxis" "tickangle" (PInt (-45))
                          (put "yaxis" "title" (title_of ys)
                             (put "xaxis" "title" (title_of xs) (fig_layout fig))) |}.
Proof. reflexivity. Qed.

(** Rewrites a lookup in a layout built by [put] down to the layout it
    was built from. *)
Ltac layout_lookup :=
  rewrite ?layout_get_two;
  repeat first
    [ rewrite child_put_same
    | rewrite child_put_other by congruence
    | rewrite get_put_other by congruence
    | rewrite get_set ];
  rewrite ?String.eqb_refl;
  repeat match goal with
         | |- context [String.eqb ?a ?b] =>
             rewrite (eqb_false_of_ne a b) by congruence
         end.

(** X4: for a supported chart type that plotly draws on two column
    names, [create_chart] calls the matching plotly function once and
    returns the figure as a dict; a pie keeps plotly's layout as it is;
    for every other type the titles of the x and the y axis,
    [layout.xaxis.title] and [layout.yaxis.title], are replaced by
    [{"text": name}] with the two column names; only a line chart gets
    [layout.xaxis.tickangle = -45]; every other property of the layout
    and of its two axes stays as plotly made it. *)
Theorem X4_create_chart_layout (W : World) (df : DataFrame) (xs ys : string)
    (tr : trace) (t : string) (fig : Figure) :
  t ∈ supported_types ->
  px W (px_function t) df (PStr xs) (PStr ys) (px_title t) = Ok fig ->
  exists layout,
    create_chart W (PStr t) df (PStr xs) (PStr ys) tr
    = (Ok (PDict [("data", fig_data fig); ("layout", PDict layout)]),
       tr ++ [EvPlot (px_function t) df (PStr xs) (PStr ys)])
    /\ (t = "pie" -> layout = fig_layout fig)
    /\ (t <> "pie" ->
        Layout.get ["xaxis"; "title"] layout = Some (PDict [("text", PStr xs)])
        /\ Layout.get ["yaxis"; "title"] layout = Some (PDict [("text", PStr ys)]))
    /\ Layout.get ["xaxis"; "tickangle"] layout
       = (if String.eqb t "line" then Some (PInt (-45))
          else Layout.get ["xaxis"; "tickangle"] (fig_layout fig))
    /\ (forall k, k <> "xaxis" -> k <> "yaxis" ->
          PyDict.get k layout = PyDict.get k (fig_layout fig))
    /\ (forall k, k <> "title" -> k <> "tickangle" ->
          Layout.get ["xaxis"; k] layout = Layout.get ["xaxis"; k] (fig_layout fig))
    /\ (forall k, k <> "title" ->
          Layout.get ["yaxis"; k] layout = Layout.get ["yaxis"; k] (fig_layout fig)).
Proof.
  intros Hin Hpx. unfold supported_types in Hin.
  repeat (apply elem_of_cons in Hin as [-> | Hin]);
    [ .. | now apply elem_of_nil in Hin];
    unfold create_chart, try_except, px_call, mbind, M_bind, emit, lift;
    cbn -[px update_layout Layout.get] in *; rewrite Hpx;
    rewrite ?update_layout_line, ?update_layout_titles;
    unfold mret, M_ret, fig_to_dict; cbn [fig_data fig_layout];
    eexists; (split; [reflexivity|]);
    (split; [try discriminate; try reflexivity|]);
    (split; [intros Hne; try congruence; unfold title_of; split;
             layout_lookup; reflexivity|]);
    (split; [try reflexivity; layout_lookup; reflexivity|]);
    (split; [intros k H1 H2; try reflexivity; layout_lookup; reflexivity|]);
    (split; intros k H1; try intros H2; try reflexivity; layout_lookup; reflexivity).
Qed.

Lemma X4_create_chart_layout_witness :
  ("line" ∈ supported_types)
  /\ exists layout,
       create_chart offline (PStr "line") table_ab (PStr "a") (PStr "b") []
       = (Ok (PDict [("data", PList []); ("layout", PDict layout)]),
          [] ++ [EvPlot "line" table_ab (PStr "a") (PStr "b")])
       /\ Layout.get ["xaxis"; "title"] layout = Some (PDict [("text", PStr "a")])
       /\ Layout.get ["xaxis"; "tickangle"] layout = Some (PInt (-45)).
Proof.
  assert (H : "line" ∈ supported_types) by (unfold supported_types; set_solver).
  split; [exact H|].
  destruct (X4_create_chart_layout offline table_ab "a" "b" [] "line"
              {| fig_data := PList []; fig_layout := [] |} H eq_refl)
    as (layout & Hrun & _ & Htitles & Hangle & _).
  exists layout. split; [exact Hrun|]. split; [|exact Hangle].
  apply Htitles. discriminate.
Defined.

(** ** [generate_chart]: loading *)

Lemma frame_of_csv_run (W : World) (data_content : bytes) (tr : trace) :
  frame_of_csv W data_content tr = (fst (frame_of_csv W data_content []), tr).
Proof.
  unfold frame_of_csv, mbind, M_bind, lift.
  destruct (decode_utf8 W data_content); reflexivity.
Qed.

Lemma frame_of_json_run (W : World) (data_content : bytes) (tr : trace) :
  frame_of_json W data_content tr = (fst (frame_of_json W data_content []), tr).
Proof.
  unfold frame_of_json, mbind, M_bind, lift.
  destruct (decode_utf8 W data_content) as [text|]; [|reflexivity].
  destruct (json_loads W text); reflexivity.
Qed.

(** Loading leaves no event. *)
Lemma load_data_trace (W : World) (data_content : bytes) (data_type : option string)
    (tr : trace) :
  snd (load_data W data_content data_type tr) = tr.
Proof.
  unfold load_data, try_except.
  destruct (data_type_is data_type "json").
  { rewrite frame_of_json_run. destruct (fst _) as [|e]; [reflexivity|].
    now destruct (is_JSONDecodeError e). }
  destruct (data_type_is data_type "file").
  { rewrite frame_of_csv_run. destruct (fst _); [reflexivity|].
    rewrite frame_of_json_run. now destruct (fst _). }
  destruct (data_type_is data_type "manual"); [|reflexivity].
  rewrite frame_of_csv_run. now destruct (fst _).
Qed.

(** X5: manual and file data fail to load with a [ValueError] only, chained
    to the library's error and leaving no event; a file is read as CSV
    first and as JSON only when that fails, and when both fail the
    message is that of the JSON attempt. *)
Theorem X5_load_data_manual_and_file (W : World) (data_content : bytes) (tr : trace) :
  load_data W data_content (Some "manual") tr
  = (match fst (frame_of_csv W data_content []) with
     | Ok df => Ok df
     | Raise e =>
         Raise (Exn ValueError ("Error processing manual CSV data: " +:+ exn_msg e) (Some e))
     end, tr)
  /\ load_data W data_content (Some "file") tr
     = (match fst (frame_of_csv W data_content []) with
        | Ok df => Ok df
        | Raise _ =>
            match fst (frame_of_json W data_content []) with
            | Ok df => Ok df
            | Raise e =>
                Raise (Exn ValueError
                         ("Error processing file content as CSV or JSON: " +:+ exn_msg e)
                         (Some e))
            end
        end, tr)
  /\ (forall data_type e,
        data_type = "manual" \/ data_type = "file" ->
        fst (load_data W data_content (Some data_type) tr) = Raise e ->
        exn_cls e = ValueError /\ is_Some (exn_cause e)).
Proof.
  assert (Hm : load_data W data_content (Some "manual") tr
    = (match fst (frame_of_csv W data_content []) with
       | Ok df => Ok df
       | Raise e =>
           Raise (Exn ValueError ("Error processing manual CSV data: " +:+ exn_msg e) (Some e))
       end, tr)).
  { unfold load_data, try_except. cbn [data_type_is String.eqb Ascii.eqb Bool.eqb].
    cbn. rewrite frame_of_csv_run. now destruct (fst _). }
  assert (Hf : load_data W data_content (Some "file") tr
    = (match fst (frame_of_csv W data_content []) with
       | Ok df => Ok df
       | Raise _ =>
           match fst (frame_of_json W data_content []) with
           | Ok df => Ok df
           | Raise e =>
               Raise (Exn ValueError
                        ("Error processing file content as CSV or JSON: " +:+ exn_msg e)
                        (Some e))
           end
       end, tr)).
  { unfold load_data, try_except. cbn.
    rewrite frame_of_csv_run. destruct (fst _); [reflexivity|].
    rewrite frame_of_json_run. now destruct (fst _). }
  split; [exact Hm|]. split; [exact Hf|].
  intros data_type e [-> | ->].
  - rewrite Hm. cbn [fst]. destruct (fst _); [discriminate|].
    intros [= <-]. split; [reflexivity | eexists; reflexivity].
  - rewrite Hf. cbn [fst]. destruct (fst _); [discriminate|].
    destruct (fst _); [discriminate|].
    intros [= <-]. split; [reflexivity | eexists; reflexivity].
Qed.

(** X6: JSON data: only a [JSONDecodeError] is turned into the
    [ValueError] ["Invalid JSON data: ..."]; any other failure (decoding
    the bytes, building the table) leaves [load_data] as it was raised.
    A [data_type] other than [json], [file] and [manual], or none, is
    refused before the content is looked at. *)
Theorem X6_load_data_json_and_unknown (W : World) (data_content : bytes) (tr : trace) :
  load_data W data_content (Some "json") tr
  = (match fst (frame_of_json W data_content []) with
     | Ok df => Ok df
     | Raise e =>
         if is_JSONDecodeError e
         then Raise (Exn ValueError ("Invalid JSON data: " +:+ exn_msg e) (Some e))
         else Raise e
     end, tr)
  /\ load_data W data_content None tr = (Raise (Exn ValueError "Unknown data type." None), tr)
  /\ (forall data_type,
        data_type <> "json" -> data_type <> "file" -> data_type <> "manual" ->
        load_data W data_content (Some data_type) tr
        = (Raise (Exn ValueError "Unknown data type." None), tr)).
Proof.
  split; [|split].
  - unfold load_data, try_except. cbn.
    rewrite frame_of_json_run. destruct (fst _) as [|e]; [reflexivity|].
    now destruct (is_JSONDecodeError e).
  - reflexivity.
  - intros data_type H1 H2 H3. unfold load_data, data_type_is.
    now rewrite !eqb_false_of_ne by assumption.
Qed.

(** ** [str.endswith] *)

Lemma endswith_spec (s suffix : string) :
  PyStr.endswith s suffix = true <-> exists pre, s = pre +:+ suffix.
Proof.
  induction s as [|c s IH].
  - cbn [PyStr.endswith]. rewrite orb_false_r. split.
    + intros H%String.eqb_eq. exists "". now subst.
    + intros ([|c pre] & H); [|discriminate].
      change ("" +:+ suffix) with suffix in H. subst. reflexivity.
  - cbn [PyStr.endswith]. rewrite orb_true_iff, IH. split.
    + intros [H%String.eqb_eq | (pre & ->)]; [exists ""; now subst|].
      exists (String c pre). reflexivity.
    + intros ([|c' pre] & H).
      * left. change ("" +:+ suffix) with suffix in H. subst. apply String.eqb_refl.
      * right. change (String c' pre +:+ suffix) with (String c' (pre +:+ suffix)) in H.
        injection H as -> ->. eauto.
Qed.

(** ** [generate_chart] and its handler: how requests fail *)

Lemma select_source_trace (W : World) (form : App.Form) (tr : trace) :
  snd (App.select_source W form tr) = tr.
Proof.
  unfold App.select_source.
  destruct (App.file form) as [f|].
  - now destruct (negb _).
  - destruct (truthy_str (App.json_data form)); [reflexivity|].
    now destruct (truthy_str (App.manual_data form)).
Qed.

Lemma select_source_run (W : World) (form : App.Form) (tr : trace)
    (src : bytes * option string * option string) :
  fst (App.select_source W form tr) = Ok src ->
  App.select_source W form tr = (Ok src, tr).
Proof.
  intros H. pose proof (select_source_trace W form tr) as Ht.
  destruct (App.select_source W form tr) as [r t]. cbn in H, Ht. now subst.
Qed.

Lemma load_data_run (W : World) (data_content : bytes) (data_type : option string)
    (tr : trace) (df : DataFrame) :
  fst (load_data W data_content data_type tr) = Ok df ->
  load_data W data_content data_type tr = (Ok df, tr).
Proof.
  intros H. pose proof (load_data_trace W data_content data_type tr) as Ht.
  destruct (load_data W data_content data_type tr) as [r t]. cbn in H, Ht. now subst.
Qed.

(** The table [df0] of a request was read by [pd.read_csv], whose column
    labels are [str]: the request carries manual data, or a file that
    reads as CSV. *)
Definition read_as_csv (W : World) (data_content : bytes) (data_type : option string)
    (df0 : DataFrame) : Prop :=
  (data_type = Some "manual" \/ data_type = Some "file")
  /\ fst (frame_of_csv W data_content []) = Ok df0.

(** No table of the request is built by [pd.DataFrame] from JSON: the
    data is not sent as JSON, and a file reads as CSV. *)
Definition csv_request (W : World) (data_content : bytes) (data_type : option string)
    : Prop :=
  data_type <> Some "json"
  /\ (data_type = Some "file" -> exists df, fst (frame_of_csv W data_content []) = Ok df).

Lemma read_as_csv_loads (W : World) (data_content : bytes) (data_type : option string)
    (df0 : DataFrame) (tr : trace) :
  read_as_csv W data_content data_type df0 ->
  fst (load_data W data_content data_type tr) = Ok df0.
Proof.
  intros [[-> | ->] Hcsv]; unfold load_data, try_except; cbn;
    now rewrite frame_of_csv_run, Hcsv.
Qed.

Lemma csv_request_loads (W : World) (data_content : bytes) (data_type : option string)
    (df0 : DataFrame) (tr : trace) :
  csv_request W data_content data_type ->
  fst (load_data W data_content data_type tr) = Ok df0 ->
  read_as_csv W data_content data_type df0.
Proof.
  intros [Hnj Hfile]. unfold load_data, try_except, read_as_csv.
  destruct (data_type_is data_type "json") eqn:Ej.
  { destruct data_type as [t|]; [|discriminate]. cbn in Ej.
    apply String.eqb_eq in Ej. now subst. }
  destruct (data_type_is data_type "file") eqn:Ef.
  { destruct data_type as [t|]; [|discriminate]. cbn in Ef.
    apply String.eqb_eq in Ef. subst t.
    destruct (Hfile eq_refl) as (df & Hdf).
    rewrite frame_of_csv_run, Hdf. cbn. intros [= ->]. auto. }
  destruct (data_type_is data_type "manual") eqn:Em; [|discriminate].
  destruct data_type as [t|]; [|discriminate]. cbn in Em.
  apply String.eqb_eq in Em. subst t.
  rewrite frame_of_csv_run. destruct (fst (frame_of_csv W data_content [])) as [df|e] eqn:E;
    cbn; [|discriminate].
  intros [= ->]. auto.
Qed.

(** What the handler makes of an exception. *)
Definition http_error (e : exn) : exn :=
  if is_HTTPException e then e
  else if is_ValueError e then Exn (HTTPException 400) (exn_msg e) None
  else Exn (HTTPException 500) ("Unexpected error: " +:+ exn_msg e) (Some e).

Lemma http_error_is_http (e : exn) : is_HTTPException (http_error e) = true.
Proof.
  unfold http_error. destruct (is_HTTPException e) eqn:E; [exact E|].
  now destruct (is_ValueError e).
Qed.

Lemma app_create_chart_run (W : World) (form : App.Form) (tr : trace) :
  App.create_chart W form tr
  = match App.select_source W form tr with
    | (Ok (content, data_type, filename), tr1) =>
        match generate_chart W (App.query form) content (App.chart_type form)
                data_type filename tr1 with
        | (Ok r, tr2) => (Ok r, tr2)
        | (Raise e, tr2) => (Raise (http_error e), tr2)
        end
    | (Raise e, tr1) => (Raise (http_error e), tr1)
    end.
Proof.
  unfold App.create_chart, try_except, mbind, M_bind, http_error, raise.
  destruct (App.select_source W form tr) as [[[[content dt] fn]|e] tr1].
  - destruct (generate_chart W _ content _ dt fn tr1) as [[r|e] tr2]; [reflexivity|].
    destruct (is_HTTPException e); [reflexivity|]. now destruct (is_ValueError e).
  - destruct (is_HTTPException e); [reflexivity|]. now destruct (is_ValueError e).
Qed.

(** X7: whatever goes wrong, the handler of [/generate-chart/] lets out an
    [HTTPException] and nothing else; a [ValueError] of [generate_chart]
    (or of a subclass) becomes status 400 with the same message and no
    cause, any other exception status 500 with the message after
    ["Unexpected error: "], chained to it. *)
Theorem X7_handler_raises_http_only (W : World) (form : App.Form) (tr : trace) (e : exn) :
  fst (App.create_chart W form tr) = Raise e ->
  is_HTTPException e = true
  /\ (forall content data_type filename e0,
        fst (App.select_source W form tr) = Ok (content, data_type, filename) ->
        fst (generate_chart W (App.query form) content (App.chart_type form)
               data_type filename tr) = Raise e0 ->
        is_HTTPException e0 = false ->
        e = if is_ValueError e0
            then Exn (HTTPException 400) (exn_msg e0) None
            else Exn (HTTPException 500) ("Unexpected error: " +:+ exn_msg e0) (Some e0)).
Proof.
  rewrite app_create_chart_run. intros H. split.
  - destruct (App.select_source W form tr) as [[[[content dt] fn]|e1] tr1].
    + destruct (generate_chart W _ content _ dt fn tr1) as [[r|e2] tr2];
        [discriminate|]. injection H as <-. apply http_error_is_http.
    + injection H as <-. apply http_error_is_http.
  - intros content dt fn e0 Hsel Hgen Hnot.
    rewrite (select_source_run _ _ _ _ Hsel) in H.
    destruct (generate_chart W _ content _ dt fn tr) as [[r|e2] tr2];
      cbn in Hgen; [discriminate|].
    injection Hgen as ->. injection H as <-.
    unfold http_error. now rewrite Hnot.
Qed.

Lemma X7_handler_raises_http_only_witness :
  fst (App.create_chart undrawable form_ab [])
  = Raise (Exn (HTTPException 400) "Failed to generate chart." None)
  /\ is_HTTPException (Exn (HTTPException 400) "Failed to generate chart." None) = true.
Proof.
  assert (H : fst (App.create_chart undrawable form_ab [])
              = Raise (Exn (HTTPException 400) "Failed to generate chart." None)).
  { vm_compute. reflexivity. }
  split; [exact H|].
  exact (proj1 (X7_handler_raises_http_only undrawable form_ab [] _ H)).
Defined.

(** X8: an uploaded file whose name ends neither in [.csv] nor in [.json]
    (the test is case sensitive) is refused with status 400, whatever the
    other fields hold: its content is not read, and nothing else happens. *)
Theorem X8_unsupported_file_name (W : World) (form : App.Form) (tr : trace)
    (f : App.UploadFile) :
  App.file form = Some f ->
  ~ (exists pre, App.filename f = pre +:+ ".csv") ->
  ~ (exists pre, App.filename f = pre +:+ ".json") ->
  App.create_chart W form tr
  = (Raise (Exn (HTTPException 400) "Only CSV and JSON files are supported" None), tr).
Proof.
  intros Hf Hcsv Hjson. rewrite app_create_chart_run. unfold App.select_source.
  rewrite Hf.
  destruct (PyStr.endswith (App.filename f) ".csv") eqn:E1;
    [apply endswith_spec in E1; contradiction|].
  destruct (PyStr.endswith (App.filename f) ".json") eqn:E2;
    [apply endswith_spec in E2; contradiction|].
  reflexivity.
Qed.

(** A request with a file [SALES.CSV] and, besides, valid manual data. *)
Definition form_upper_case : App.Form :=
  {| App.query := "plot a vs b";
     App.chart_type := None;
     App.file := Some {| App.filename := "SALES.CSV";
                         App.file_bytes := encode_utf8 offline csv_ab |};
     App.json_data := None;
     App.manual_data := Some csv_ab |}.

Lemma X8_unsupported_file_name_witness :
  App.create_chart offline form_upper_case []
  = (Raise (Exn (HTTPException 400) "Only CSV and JSON files are supported" None), []).
Proof.
  apply (X8_unsupported_file_name offline form_upper_case []
           {| App.filename := "SALES.CSV";
              App.file_bytes := encode_utf8 offline csv_ab |} eq_refl).
  - intros H%endswith_spec. discriminate H.
  - intros H%endswith_spec. discriminate H.
Defined.

(** The message of [validate_dataset] for a table it refuses: the checks
    come in this order. *)
Definition validation_error (df : DataFrame) : string :=
  if Frame.empty df then "Dataset is empty."
  else if length (columns df) <? 2 then "Dataset must have at least 2 columns."
  else "Column names must be unique.".

Lemma validate_dataset_refuses (df : DataFrame) :
  ~ (1 <= Frame.len df /\ 2 <= length (columns df) /\ NoDup (columns df)) ->
  fst (validate_dataset df) = Raise (Exn ValueError (validation_error df) None).
Proof.
  intros Hinv. unfold validate_dataset, validation_error.
  destruct (Frame.empty df) eqn:Ee; [reflexivity|].
  destruct (length (columns df) <? 2) eqn:El; [reflexivity|].
  destruct (size (list_to_set (columns df) : gset string) =? length (columns df)) eqn:E;
    [|reflexivity].
  exfalso. apply Hinv.
  apply Nat.eqb_eq, size_set_NoDup in E. apply Nat.ltb_ge in El.
  assert (Hne : ~ (Frame.len df = 0 \/ length (columns df) = 0)).
  { rewrite <- empty_true, Ee. discriminate. }
  repeat split; [lia | exact El | exact E].
Qed.

Lemma validate_dataset_accepts (df : DataFrame) :
  fst (validate_dataset df) = Ok tt -> 2 <= length (columns df).
Proof.
  unfold validate_dataset.
  destruct (Frame.empty df); [discriminate|].
  destruct (length (columns df) <? 2) eqn:El; [discriminate|].
  intros _. now apply Nat.ltb_ge in El.
Qed.

Lemma generate_chart_invalid (ns : list string) (W : World) (query : string)
    (data_content : bytes) (chart_type data_type filename : option string)
    (tr : trace) (df : DataFrame) (e : exn) :
  fst (load_data W data_content data_type tr) = Ok df ->
  fst (validate_dataset df) = Raise e ->
  generate_chart_in ns W query data_content chart_type data_type filename tr
  = (Raise e, tr).
Proof.
  intros Hload Hval.
  unfold generate_chart_in, try_except, prepare_chart, mbind, M_bind.
  rewrite (load_data_run _ _ _ _ _ Hload). unfold validate_and_sanitize.
  destruct (validate_dataset df) as [r df']. cbn in Hval. subst r. reflexivity.
Qed.

(** X9: a request whose data loads into a table with no row, fewer than
    two columns or a repeated column name is answered with status 400 and
    the message of the first failing check (empty, then too narrow, then
    duplicates); no language model, plotly, embedding or vector-store call
    is made for it. *)
Theorem X9_invalid_table_is_400 (W : World) (form : App.Form) (tr : trace)
    (content : bytes) (data_type filename : option string) (df : DataFrame) :
  fst (App.select_source W form tr) = Ok (content, data_type, filename) ->
  fst (load_data W content data_type tr) = Ok df ->
  ~ (1 <= Frame.len df /\ 2 <= length (columns df) /\ NoDup (columns df)) ->
  App.create_chart W form tr
  = (Raise (Exn (HTTPException 400) (validation_error df) None), tr).
Proof.
  intros Hsel Hload Hinv. rewrite app_create_chart_run.
  rewrite (select_source_run _ _ _ _ Hsel). unfold generate_chart.
  rewrite (generate_chart_invalid _ _ _ _ _ _ _ _ _ _ Hload
             (validate_dataset_refuses df Hinv)).
  reflexivity.
Qed.

(** A header line with a repeated name and one data line, as pandas loads
    it when duplicates are kept, and a world whose [read_csv] gives it. *)
Definition table_dup : DataFrame :=
  {| columns := ["a"; "a"]; rows := [[PInt 1; PInt 2]] |}.

Definition reading_dup : World :=
  {| model_initialized := true;
     generate_content := generate_content offline;
     json_loads := json_loads offline;
     embed_content := embed_content offline;
     client_upsert := client_upsert offline;
     hash_tuple := hash_tuple offline;
     decode_utf8 := decode_utf8 offline;
     encode_utf8 := encode_utf8 offline;
     read_csv := fun _ => Ok table_dup;
     DataFrame_of := DataFrame_of offline;
     df_to_string := df_to_string offline;
     py_repr := py_repr offline;
     px := px offline;
     assign_title := assign_title offline;
     json_roundtrip := json_roundtrip offline |}.

Lemma X9_invalid_table_is_400_witness :
  App.create_chart reading_dup form_ab []
  = (Raise (Exn (HTTPException 400) "Column names must be unique." None), []).
Proof.
  apply (X9_invalid_table_is_400 reading_dup form_ab []
           (encode_utf8 reading_dup csv_ab) (Some "manual") None table_dup);
    [reflexivity | reflexivity |].
  intros (_ & _ & Hnd). now apply (not_NoDup_twice "a").
Defined.

Lemma index_contains_member (s : string) (cols : list string) (tr : trace) :
  s ∈ cols -> index_contains (PStr s) cols tr = (Ok true, tr).
Proof.
  intros Hin. unfold index_contains, mret, M_ret.
  assert (H : in_list (PStr s) cols = true) by (apply in_list_true; eauto).
  now rewrite H.
Qed.

Lemma bind_Ok {A B : Type} (m : M A) (f : A -> M B) (tr tr1 : trace) (a : A) :
  m tr = (Ok a, tr1) -> (x ← m; f x) tr = f a tr1.
Proof. intros H. unfold mbind, M_bind. now rewrite H. Qed.

Lemma resolve_config_explicit_run (W : World) (query explicit_type : string)
    (c0 c1 : string) (rest : list string) (tr : trace) :
  explicit_type <> "" ->
  resolve_config W query (Some explicit_type) (c0 :: c1 :: rest) tr
  = (Ok (config explicit_type c0 (PStr c1)), tr).
Proof.
  intros Hne. unfold resolve_config, truthy_str.
  now rewrite (eqb_false_of_ne _ _ Hne).
Qed.

(** With a non-empty explicit chart type, a table that loads and passes
    validation goes to [create_chart] with its first two columns,
    sanitized. *)
Lemma prepare_chart_explicit (W : World) (query : string) (data_content : bytes)
    (explicit_type : string) (data_type : option string) (tr : trace) (df0 : DataFrame) :
  explicit_type <> "" ->
  fst (load_data W data_content data_type tr) = Ok df0 ->
  fst (validate_dataset df0) = Ok tt ->
  exists c0 c1 rest,
    columns df0 = c0 :: c1 :: rest
    /\ prepare_chart W query data_content (Some explicit_type) data_type tr
       = let df := Frame.set_columns (List.map sanitize_column_name (columns df0)) df0 in
         let x := PStr (sanitize_column_name c0) in
         let y := PStr (sanitize_column_name c1) in
         match create_chart W (PStr explicit_type) df x y tr with
         | (Ok fig, tr') => (Ok (df, PStr explicit_type, x, y, fig), tr')
         | (Raise e, tr') => (Raise e, tr')
         end.
Proof.
  intros Hne Hload Hval.
  pose proof (validate_dataset_accepts df0 Hval) as Hlen.
  destruct (columns df0) as [|c0 [|c1 rest]] eqn:Hcols; cbn in Hlen; try lia.
  exists c0, c1, rest. split; [reflexivity|].
  unfold prepare_chart.
  rewrite (bind_Ok _ _ _ _ _ (load_data_run _ _ _ _ _ Hload)).
  rewrite (bind_Ok _ _ _ _ _ (validate_and_sanitize_valid df0 tr Hval)).
  rewrite Hcols. cbn [Frame.set_columns columns List.map].
  rewrite (bind_Ok _ _ _ _ _ (resolve_config_explicit_run W query explicit_type _ _ _ tr Hne)).
  rewrite (bind_Ok (dict_getitem (config explicit_type (sanitize_column_name c0)
                                    (PStr (sanitize_column_name c1))) "chart_type")
             _ tr tr (PStr explicit_type) eq_refl).
  rewrite (bind_Ok (dict_getitem (config explicit_type (sanitize_column_name c0)
                                    (PStr (sanitize_column_name c1))) "x")
             _ tr tr (PStr (sanitize_column_name c0)) eq_refl).
  rewrite (bind_Ok (dict_getitem (config explicit_type (sanitize_column_name c0)
                                    (PStr (sanitize_column_name c1))) "y")
             _ tr tr (PStr (sanitize_column_name c1)) eq_refl).
  set (cols := sanitize_column_name c0 :: sanitize_column_name c1
               :: List.map sanitize_column_name rest).
  assert (H0 : sanitize_column_name c0 ∈ cols) by (subst cols; set_solver).
  assert (H1 : sanitize_column_name c1 ∈ cols) by (subst cols; set_solver).
  rewrite (bind_Ok _ _ _ _ _ (index_contains_member _ cols tr H0)).
  rewrite (bind_Ok _ _ _ _ _ (index_contains_member _ cols tr H1)).
  cbn [negb orb]. unfold mbind, M_bind.
  now destruct (create_chart W _ _ _ _ tr) as [[fig|e] tr'].
Qed.

(** X10: a non-empty explicit chart type outside the five supported ones,
    on manual data or a file that reads as CSV into a table that passes
    validation, is answered with status 400 and the message
    ["Failed to generate chart."]: the name of the offending type does
    not reach the caller, and neither plotly nor any remote service is
    called. *)
Theorem X10_unsupported_explicit_type_is_400 (W : World) (form : App.Form) (tr : trace)
    (content : bytes) (data_type filename : option string) (df : DataFrame)
    (explicit_type : string) :
  App.chart_type form = Some explicit_type ->
  explicit_type <> "" ->
  explicit_type ∉ supported_types ->
  fst (App.select_source W form tr) = Ok (content, data_type, filename) ->
  read_as_csv W content data_type df ->
  fst (validate_dataset df) = Ok tt ->
  App.create_chart W form tr
  = (Raise (Exn (HTTPException 400) "Failed to generate chart." None), tr).
Proof.
  intros Hct Hne Hunsup Hsel Hcsv Hval.
  pose proof (read_as_csv_loads W content data_type df tr Hcsv) as Hload.
  rewrite app_create_chart_run.
  rewrite (select_source_run _ _ _ _ Hsel), Hct.
  unfold generate_chart, generate_chart_in, try_except.
  unfold mbind at 1, M_bind at 1.
  destruct (prepare_chart_explicit W (App.query form) content explicit_type data_type tr df
              Hne Hload Hval) as (c0 & c1 & rest & _ & ->).
  cbv zeta. rewrite create_chart_unsupported by exact Hunsup. reflexivity.
Qed.

Definition form_donut : App.Form :=
  {| App.query := "plot a vs b";
     App.chart_type := Some "donut";
     App.file := None;
     App.json_data := None;
     App.manual_data := Some csv_ab |}.

Lemma X10_unsupported_explicit_type_is_400_witness :
  App.create_chart online form_donut []
  = (Raise (Exn (HTTPException 400) "Failed to generate chart." None), []).
Proof.
  apply (X10_unsupported_explicit_type_is_400 online form_donut []
           (encode_utf8 online csv_ab) (Some "manual") None table_ab "donut");
    try reflexivity; [discriminate | | split; [now left | reflexivity]].
  unfold supported_types. intros Hin.
  repeat (apply elem_of_cons in Hin as [Hin | Hin]; [discriminate Hin|]).
  now apply elem_of_nil in Hin.
Defined.

(** ** Which calls a request makes, and in which order *)

Definition is_generate (ev : event) : bool :=
  match ev with EvGenerateContent _ => true | _ => false end.

Definition is_plot (ev : event) : bool :=
  match ev with EvPlot _ _ _ _ => true | _ => false end.

Definition is_embed (ev : event) : bool :=
  match ev with EvEmbedContent _ => true | _ => false end.

(** The calls up to the drawn figure, and those after it. *)
Definition is_inference (ev : event) : bool := is_generate ev || is_plot ev.
Definition is_enrichment (ev : event) : bool := is_embed ev || is_upsert ev.

(** [tr'] is [tr] followed by events that all satisfy [P]. *)
Definition appends (P : event -> bool) (tr tr' : trace) : Prop :=
  exists evs, tr' = tr ++ evs /\ forallb P evs = true.

(** Whatever its outcome, [m] only adds events that satisfy [P]. *)
Definition emits {A : Type} (P : event -> bool) (m : M A) : Prop :=
  forall tr, appends P tr (snd (m tr)).

Section Emits.

Context {A B : Type} (P : event -> bool).

Lemma appends_refl (tr : trace) : appends P tr tr.
Proof. exists []. now rewrite app_nil_r. Qed.

Lemma appends_trans (t1 t2 t3 : trace) :
  appends P t1 t2 -> appends P t2 t3 -> appends P t1 t3.
Proof.
  intros (e1 & -> & H1) (e2 & -> & H2). exists (e1 ++ e2).
  rewrite app_assoc, forallb_app, H1, H2. auto.
Qed.

Lemma emits_ret (a : A) : emits P (mret a).
Proof. intros tr. apply appends_refl. Qed.

Lemma emits_raise (e : exn) : emits P (raise e : M A).
Proof. intros tr. apply appends_refl. Qed.

Lemma emits_lift (r : Result A) : emits P (lift r).
Proof. intros tr. apply appends_refl. Qed.

Lemma emits_emit (ev : event) : P ev = true -> emits P (emit ev).
Proof. intros H tr. exists [ev]. cbn. now rewrite H. Qed.

Lemma emits_bind (m : M A) (f : A -> M B) :
  emits P m -> (forall a, emits P (f a)) -> emits P (x ← m; f x).
Proof.
  intros Hm Hf tr. unfold mbind, M_bind. specialize (Hm tr).
  destruct (m tr) as [[a|e] t1]; cbn [snd] in *; [|exact Hm].
  eapply appends_trans; [exact Hm | apply Hf].
Qed.

Lemma emits_try (body : M A) (handler : exn -> M A) :
  emits P body -> (forall e, emits P (handler e)) -> emits P (try_except body handler).
Proof.
  intros Hm Hh tr. unfold try_except. specialize (Hm tr).
  destruct (body tr) as [[a|e] t1]; cbn [snd] in *; [exact Hm|].
  eapply appends_trans; [exact Hm | apply Hh].
Qed.

End Emits.

Lemma emits_weaken {A : Type} (P Q : event -> bool) (m : M A) :
  (forall ev, P ev = true -> Q ev = true) -> emits P m -> emits Q m.
Proof.
  intros HPQ Hm tr. destruct (Hm tr) as (evs & -> & Hall).
  exists evs. split; [reflexivity|].
  apply forallb_forall. intros ev Hev. apply HPQ.
  now apply (proj1 (forallb_forall P evs) Hall).
Qed.

(** One step of a proof that a computation only emits events of a kind. *)
Ltac emits_step :=
  first
    [ apply emits_ret
    | apply emits_raise
    | apply emits_lift
    | apply emits_emit; reflexivity
    | apply emits_bind; [|intros ?]
    | apply emits_try; [|intros ?]
    | match goal with
      | |- emits _ (if ?b then _ else _) => destruct b
      | |- emits _ (match ?x with _ => _ end) => destruct x
      | |- emits _ (let _ := _ in _) => cbv zeta
      end ].

Lemma getitem_emits {A : Type} (P : event -> bool) (l : list A) (i : nat) :
  emits P (getitem l i).
Proof. unfold getitem. repeat emits_step. Qed.

Lemma dict_getitem_emits (P : event -> bool) (d : dict) (k : string) :
  emits P (dict_getitem d k).
Proof. unfold dict_getitem. repeat emits_step. Qed.

Lemma default_config_emits (P : event -> bool) (columns : list string) :
  emits P (default_config columns).
Proof.
  unfold default_config.
  repeat first [apply getitem_emits | emits_step].
Qed.

Lemma interpret_query_emits (W : World) (query : string) (columns : list string) :
  emits is_generate (interpret_query W query columns).
Proof.
  unfold interpret_query.
  repeat first [apply default_config_emits | apply dict_getitem_emits | emits_step].
Qed.

Lemma resolve_config_emits (W : World) (query : string) (chart_type : option string)
    (columns : list string) :
  emits is_generate (resolve_config W query chart_type columns).
Proof.
  unfold resolve_config.
  repeat first [apply interpret_query_emits | apply getitem_emits | emits_step].
Qed.

Lemma create_chart_emits (W : World) (chart_type : pyval) (df : DataFrame) (x y : pyval) :
  emits is_plot (create_chart W chart_type df x y).
Proof. unfold create_chart, px_call. repeat emits_step. Qed.

Lemma load_data_emits (P : event -> bool) (W : World) (data_content : bytes)
    (data_type : option string) :
  emits P (load_data W data_content data_type).
Proof.
  intros tr. rewrite load_data_trace. apply appends_refl.
Qed.

Lemma validate_and_sanitize_emits (P : event -> bool) (df : DataFrame) :
  emits P (validate_and_sanitize df).
Proof. unfold validate_and_sanitize. repeat emits_step. Qed.

Lemma index_contains_emits (P : event -> bool) (v : pyval) (cols : list string) :
  emits P (index_contains v cols).
Proof. unfold index_contains. repeat emits_step. Qed.

Lemma prepare_chart_emits (W : World) (query : string) (data_content : bytes)
    (chart_type data_type : option string) :
  emits is_inference (prepare_chart W query data_content chart_type data_type).
Proof.
  unfold prepare_chart.
  repeat first
    [ apply load_data_emits
    | apply validate_and_sanitize_emits
    | apply dict_getitem_emits
    | apply index_contains_emits
    | apply (emits_weaken is_generate is_inference);
        [now intros [] | apply resolve_config_emits]
    | apply (emits_weaken is_plot is_inference);
        [now intros [] | apply create_chart_emits]
    | emits_step ].
Qed.

Lemma build_points_emits (P : event -> bool) (W : World) (df : DataFrame)
    (embeddings : list pyval) (filename : option string) (idx : list nat)
    (points : list PointStruct) :
  emits P (build_points W df embeddings filename idx points).
Proof.
  revert points. induction idx as [|i idx IH]; intros points; cbn [build_points].
  - emits_step.
  - cbv zeta. apply emits_bind; [apply getitem_emits | intros v; apply IH].
Qed.

Lemma save_embeddings_emits (W : World) (df : DataFrame) (embeddings : list pyval)
    (collection : string) (filename : option string) :
  emits is_upsert (save_embeddings W df embeddings collection filename).
Proof.
  unfold save_embeddings.
  repeat first [apply build_points_emits | emits_step].
Qed.

Lemma generate_embedding_emits (W : World) (text : string) :
  emits is_embed (generate_embedding W text).
Proof. unfold generate_embedding. repeat emits_step. Qed.

Lemma store_embedding_emits (ns : list string) (W : World) (query : string)
    (filename : option string) (df : DataFrame) (ct x y : pyval) :
  emits is_enrichment (store_embedding ns W query filename df ct x y).
Proof.
  unfold store_embedding, call_global.
  repeat first
    [ apply (emits_weaken is_embed is_enrichment);
        [now intros [] | apply generate_embedding_emits]
    | apply (emits_weaken is_upsert is_enrichment);
        [now intros [] | apply save_embeddings_emits]
    | emits_step ].
Qed.

(** X11: every request runs in two phases: first the calls that lead to
    the figure (the language model, plotly), then the calls that enrich
    (the embedding model, the vector store); a request that fails has
    made no call of the second phase. *)
Theorem X11_enrichment_comes_last (ns : list string) (W : World) (query : string)
    (data_content : bytes) (chart_type data_type filename : option string) (tr : trace) :
  exists evs1 evs2,
    snd (generate_chart_in ns W query data_content chart_type data_type filename tr)
    = tr ++ evs1 ++ evs2
    /\ forallb is_inference evs1 = true
    /\ forallb is_enrichment evs2 = true
    /\ (forall e,
          fst (generate_chart_in ns W query data_content chart_type data_type filename tr)
          = Raise e -> evs2 = []).
Proof.
  destruct (prepare_chart_emits W query data_content chart_type data_type tr)
    as (evs1 & Htr1 & H1).
  destruct (prepare_chart W query data_content chart_type data_type tr)
    as [[[[[[df ct] x] y] fig] | e] tr1] eqn:Hprep; cbn [snd] in Htr1; subst tr1.
  - destruct (generate_chart_after_render ns W query data_content chart_type data_type
                filename tr _ df ct x y fig Hprep) as (data & Hdata & Hfst).
    destruct (store_embedding_emits ns W query filename df ct x y (tr ++ evs1))
      as (evs2 & Htr2 & H2).
    exists evs1, evs2. split; [|split; [exact H1 | split; [exact H2|]]].
    + unfold generate_chart_in, try_except, mbind, M_bind. rewrite Hprep.
      destruct (store_embedding ns W query filename df ct x y (tr ++ evs1))
        as [[[]|e] tr2]; cbn [snd] in Htr2; subst tr2.
      * rewrite axes_to_dict_run, Hdata. cbn. now rewrite app_assoc.
      * cbn. now rewrite app_assoc.
    + intros e He. rewrite Hfst in He. discriminate.
  - exists evs1, []. split; [|split; [exact H1 | split; [reflexivity | reflexivity]]].
    unfold generate_chart_in, try_except, mbind, M_bind. rewrite Hprep.
    cbn. now rewrite app_nil_r.
Qed.

(** X12: a successful request with a non-empty explicit chart type has
    that type and, as axes, the first and the second column of the loaded
    table, sanitized, whatever the query says; and the language model is
    not called during the whole request. *)
Theorem X12_explicit_type_request (ns : list string) (W : World) (query : string)
    (data_content : bytes) (explicit_type : string) (data_type filename : option string)
    (tr : trace) (df0 : DataFrame) (r : ChartResult) :
  explicit_type <> "" ->
  fst (load_data W data_content data_type tr) = Ok df0 ->
  fst (generate_chart_in ns W query data_content (Some explicit_type) data_type filename tr)
  = Ok r ->
  exists c0 c1 rest,
    columns df0 = c0 :: c1 :: rest
    /\ res_chart_type r = PStr explicit_type
    /\ res_x_axis r = PStr (sanitize_column_name c0)
    /\ res_y_axis r = PStr (sanitize_column_name c1)
    /\ appends (fun ev => negb (is_generate ev)) tr
         (snd (generate_chart_in ns W query data_content (Some explicit_type) data_type
                 filename tr)).
Proof.
  intros Hne Hload Hok.
  destruct (fst (validate_dataset df0)) as [[]|e] eqn:Hval.
  2:{ rewrite (generate_chart_invalid ns W query data_content (Some explicit_type)
                 data_type filename tr df0 e Hload Hval) in Hok. discriminate. }
  destruct (prepare_chart_explicit W query data_content explicit_type data_type tr df0
              Hne Hload Hval) as (c0 & c1 & rest & Hcols & Hprep).
  cbv zeta in Hprep.
  set (df := Frame.set_columns (List.map sanitize_column_name (columns df0)) df0) in *.
  exists c0, c1, rest. split; [exact Hcols|].
  destruct (create_chart_emits W (PStr explicit_type) df (PStr (sanitize_column_name c0))
              (PStr (sanitize_column_name c1)) tr) as (evp & Hevp & Hp).
  destruct (create_chart W (PStr explicit_type) df _ _ tr) as [[fig|e] tr1];
    cbn [snd] in Hevp; subst tr1.
  2:{ unfold generate_chart_in, try_except, mbind, M_bind in Hok.
      rewrite Hprep in Hok. discriminate. }
  destruct (generate_chart_after_render ns W query data_content (Some explicit_type)
              data_type filename tr _ df _ _ _ fig Hprep) as (data & Hdata & Hfst).
  rewrite Hfst in Hok. injection Hok as <-. cbn.
  repeat (split; [reflexivity|]).
  destruct (store_embedding_emits ns W query filename df (PStr explicit_type)
              (PStr (sanitize_column_name c0)) (PStr (sanitize_column_name c1))
              (tr ++ evp)) as (evs2 & Htr2 & H2).
  unfold generate_chart_in, try_except, mbind, M_bind. rewrite Hprep.
  destruct (store_embedding ns W query filename df _ _ _ (tr ++ evp))
    as [[[]|e] tr2]; cbn [snd] in Htr2; subst tr2.
  - rewrite axes_to_dict_run, Hdata. cbn. exists (evp ++ evs2).
    split; [now rewrite app_assoc|]. rewrite forallb_app.
    apply andb_true_iff. split; apply forallb_forall; intros ev Hev.
    + pose proof (proj1 (forallb_forall _ _) Hp ev Hev). now destruct ev.
    + pose proof (proj1 (forallb_forall _ _) H2 ev Hev). now destruct ev.
  - cbn. exists (evp ++ evs2).
    split; [now rewrite app_assoc|]. rewrite forallb_app.
    apply andb_true_iff. split; apply forallb_forall; intros ev Hev.
    + pose proof (proj1 (forallb_forall _ _) Hp ev Hev). now destruct ev.
    + pose proof (proj1 (forallb_forall _ _) H2 ev Hev). now destruct ev.
Qed.


Lemma X12_explicit_type_request_witness :
  "bar" <> ""
  /\ fst (load_data answering (encode_utf8 answering csv_Aa) (Some "manual") []) = Ok table_Aa
  /\ exists r,
       fst (generate_chart_in routes_globals answering "a pie of b by a, please"
              (encode_utf8 answering csv_Aa) (Some "bar") (Some "manual") None []) = Ok r
       /\ exists c0 c1 rest,
            columns table_Aa = c0 :: c1 :: rest
            /\ res_chart_type r = PStr "bar"
            /\ res_x_axis r = PStr (sanitize_column_name c0)
            /\ res_y_axis r = PStr (sanitize_column_name c1)
            /\ appends (fun ev => negb (is_generate ev)) []
                 (snd (generate_chart_in routes_globals answering "a pie of b by a, please"
                         (encode_utf8 answering csv_Aa) (Some "bar") (Some "manual") None [])).
Proof.
  assert (H1 : "bar" <> "") by discriminate.
  assert (H2 : fst (load_data answering (encode_utf8 answering csv_Aa) (Some "manual") [])
               = Ok table_Aa) by reflexivity.
  split; [exact H1|]. split; [exact H2|].
  eexists. split; [vm_compute; reflexivity|].
  refine (X12_explicit_type_request routes_globals answering "a pie of b by a, please"
            (encode_utf8 answering csv_Aa) "bar" (Some "manual") None [] table_Aa _
            H1 H2 _).
  vm_compute. reflexivity.
Defined.

(** ** [save_embeddings] with one embedding per row *)

Lemma last_value_absent (c : string) (g : nat -> pyval) (l : list string) (s : nat) :
  c ∉ l ->
  last_value c (List.map (fun jc => (snd jc, g (fst jc))) (combine (seq s (length l)) l))
  = None.
Proof.
  revert s. induction l as [|a l IH]; intros s Hnin; [reflexivity|].
  cbn [length seq combine List.map last_value fst snd].
  rewrite IH by set_solver.
  rewrite (eqb_false_of_ne a c) by set_solver. reflexivity.
Qed.

Lemma last_value_at (c : string) (g : nat -> pyval) (l : list string) (s j : nat) :
  NoDup l -> l !! j = Some c ->
  last_value c (List.map (fun jc => (snd jc, g (fst jc))) (combine (seq s (length l)) l))
  = Some (g (s + j)).
Proof.
  revert s j. induction l as [|a l IH]; intros s j Hnd Hj; [discriminate|].
  apply NoDup_cons in Hnd as [Ha Hnd].
  cbn [length seq combine List.map last_value fst snd].
  destruct j as [|j].
  - injection Hj as ->. rewrite last_value_absent by exact Ha.
    rewrite String.eqb_refl. now rewrite Nat.add_0_r.
  - cbn in Hj. rewrite (IH (S s) j Hnd Hj). f_equal. f_equal. lia.
Qed.

(** In a table with pairwise different column names, the dict of row [i]
    gives under each column name the cell of that column, in the dtype of
    the row. *)
Lemma row_to_dict_get (df : DataFrame) (i j : nat) (c : string) :
  NoDup (columns df) -> columns df !! j = Some c ->
  PyDict.get c (Frame.row_to_dict i df)
  = Some (Frame.as_dtype (Frame.row_dtype df) (nth j (nth i (rows df) []) PNone)).
Proof.
  intros Hnd Hj. unfold Frame.row_to_dict. cbv zeta. rewrite get_of_items.
  now rewrite (last_value_at c
                 (fun j => Frame.as_dtype (Frame.row_dtype df) (nth j (nth i (rows df) []) PNone))
                 (columns df) 0 j Hnd Hj).
Qed.

(** ** The dtype of a row *)

Lemma float64_of_int_examples :
  float64_of_int 0 = 0%Z
  /\ float64_of_int 1 = 4607182418800017408%Z
  /\ float64_of_int 3 = 4613937818241073152%Z
  /\ float64_of_int (-2) = 13835058055282163712%Z
  /\ float64_of_int (2 ^ 53 + 1) = float64_of_int (2 ^ 53)
  /\ float64_of_int (2 ^ 53 + 3) = float64_of_int (2 ^ 53 + 4)
  /\ float64_of_int (2 ^ 63 - 1) = float64_of_int (2 ^ 63).
Proof. repeat split; vm_compute; reflexivity. Qed.

Lemma dtype_eqb_eq (d1 d2 : Frame.dtype) : Frame.dtype_eqb d1 d2 = true <-> d1 = d2.
Proof. destruct d1, d2; cbn; split; congruence. Qed.

Lemma existsb_dtype (d : Frame.dtype) (ds : list Frame.dtype) :
  existsb (Frame.dtype_eqb d) ds = true <-> d ∈ ds.
Proof.
  rewrite existsb_exists. split.
  - intros (d' & Hin & Heq). apply dtype_eqb_eq in Heq. subst.
    now apply list_elem_of_In.
  - intros Hin. exists d. split; [now apply list_elem_of_In | now apply dtype_eqb_eq].
Qed.

Lemma forallb_dtype (d : Frame.dtype) (ds : list Frame.dtype) :
  forallb (Frame.dtype_eqb d) ds = true <-> forall d', d' ∈ ds -> d' = d.
Proof.
  rewrite forallb_forall. split.
  - intros H d' Hin. symmetry. apply dtype_eqb_eq, H. now apply list_elem_of_In.
  - intros H d' Hin. apply dtype_eqb_eq. symmetry. apply H. now apply list_elem_of_In.
Qed.

(** A row is a [float64] row exactly when every column holds numbers and
    either some column holds floats or the int columns are of both
    kinds. *)
Lemma common_dtype_float (ds : list Frame.dtype) :
  Frame.common_dtype ds = Frame.Dfloat64 <->
  forallb Frame.numeric ds = true
  /\ (Frame.Dfloat64 ∈ ds \/ (Frame.Dint64 ∈ ds /\ Frame.Duint64 ∈ ds)).
Proof.
  destruct ds as [|d ds'].
  { cbn. split; [discriminate|]. intros (_ & [H | (H & _)]); now apply elem_of_nil in H. }
  cbn [Frame.common_dtype].
  destruct (forallb (Frame.dtype_eqb d) ds') eqn:Eall.
  - pose proof (proj1 (forallb_dtype d ds') Eall) as Hall.
    assert (Hmem : forall d', d' ∈ d :: ds' -> d' = d).
    { intros d' [-> | Hin]%elem_of_cons; [reflexivity | now apply Hall]. }
    split.
    + intros ->. split; [|left; apply elem_of_cons; now left].
      apply forallb_forall. intros d' Hin%list_elem_of_In.
      now rewrite (Hmem d' Hin).
    + intros (_ & [H | (H1 & H2)]); [symmetry; now apply Hmem|].
      apply Hmem in H1, H2. congruence.
  - destruct (existsb (Frame.dtype_eqb Frame.Dobject) (d :: ds')
              || existsb (Frame.dtype_eqb Frame.Dbool) (d :: ds')) eqn:Eob.
    + split; [discriminate|]. intros (Hnum & _). exfalso.
      apply orb_true_iff in Eob as [H | H]; apply existsb_dtype, list_elem_of_In in H;
        apply (proj1 (forallb_forall _ _) Hnum) in H; discriminate H.
    + apply orb_false_iff in Eob as [Ho Hb].
      assert (Hnum : forall d', d' ∈ d :: ds' -> Frame.numeric d' = true).
      { intros d' Hin. destruct d'; try reflexivity.
        - apply existsb_dtype in Hin. congruence.
        - apply existsb_dtype in Hin. congruence. }
      split; [intros _|reflexivity].
      split; [apply forallb_forall; intros d' Hin%list_elem_of_In; now apply Hnum|].
      assert (Hother : exists d', d' ∈ ds' /\ d' <> d).
      { clear -Eall. induction ds' as [|d0 ds' IH]; [discriminate|].
        cbn [forallb] in Eall. apply andb_false_iff in Eall as [H | H].
        - exists d0. split; [apply elem_of_cons; now left|].
          intros ->. now rewrite (proj2 (dtype_eqb_eq d d) eq_refl) in H.
        - destruct (IH H) as (d' & Hin & Hne).
          exists d'. split; [apply elem_of_cons; now right | exact Hne]. }
      destruct Hother as (d' & Hin & Hne).
      assert (Hd : d ∈ d :: ds') by (apply elem_of_cons; now left).
      assert (Hd' : d' ∈ d :: ds') by (apply elem_of_cons; now right).
      pose proof (Hnum d Hd) as N1. pose proof (Hnum d' Hd') as N2.
      destruct d, d'; try discriminate; try congruence; auto.
Qed.

(** X13: given at least one embedding per row, [save_embeddings] makes
    exactly one upsert, of one point per row in row order, and its outcome
    is that of the upsert; point [i] has the id [hash((i, filename))]
    (which depends on nothing else, so two uploads under one file name
    get the same ids), the vector [embeddings[i]], and as payload the
    cells of row [i] under their column names (for pairwise different
    names), with the key ["filename"] set to a non-empty file name, over a
    column of that name if there is one.  The cells are those of the
    Series [df.iloc[i]]: as the table holds them, but for the ints of a
    table whose rows are [float64] rows, which come as floats; the rows
    are [float64] rows exactly when all columns hold numbers and they
    are not all [int64] or all [uint64]. *)
Theorem X13_save_embeddings_per_row (W : World) (df : DataFrame) (embeddings : list pyval)
    (collection : string) (filename : option string) (tr : trace) :
  Frame.len df <= length embeddings ->
  exists points,
    save_embeddings W df embeddings collection filename tr
    = (client_upsert W collection points, tr ++ [EvUpsert collection points])
    /\ length points = Frame.len df
    /\ (forall i, i < Frame.len df ->
          exists p, points !! i = Some p
            /\ point_id p = hash_tuple W i filename
            /\ embeddings !! i = Some (point_vector p)
            /\ (forall f, filename = Some f -> f <> "" ->
                  PyDict.get "filename" (point_payload p) = Some (PStr f))
            /\ (forall j c, NoDup (columns df) -> columns df !! j = Some c ->
                  c <> "filename" \/ truthy_str filename = false ->
                  PyDict.get c (point_payload p)
                  = Some (Frame.as_dtype (Frame.row_dtype df)
                            (nth j (nth i (rows df) []) PNone))))
    /\ (forall v, (forall z, v <> PInt z) -> Frame.as_dtype (Frame.row_dtype df) v = v)
    /\ (forall z, Frame.as_dtype (Frame.row_dtype df) (PInt z)
                  = if Frame.dtype_eqb (Frame.row_dtype df) Frame.Dfloat64
                    then PFloat (float64_of_int z) else PInt z)
    /\ (Frame.row_dtype df = Frame.Dfloat64 <->
        forallb Frame.numeric (Frame.dtypes df) = true
        /\ (Frame.Dfloat64 ∈ Frame.dtypes df
            \/ (Frame.Dint64 ∈ Frame.dtypes df /\ Frame.Duint64 ∈ Frame.dtypes df))).
Proof.
  intros Hlen.
  exists (List.map (point_of_row W df embeddings filename) (seq 0 (Frame.len df))).
  split; [|split; [|split; [|split; [|split]]]].
  - unfold save_embeddings, try_except, mbind, M_bind.
    rewrite build_points_enough.
    + unfold emit, lift. cbn [app]. now destruct (client_upsert W _ _).
    + apply Forall_forall. intros i Hi. apply elem_of_seq in Hi. lia.
  - now rewrite length_map, length_seq.
  - intros i Hi. exists (point_of_row W df embeddings filename i).
    split; [|split; [reflexivity | split; [|split]]].
    + rewrite list_lookup_fmap, lookup_seq_lt by exact Hi. reflexivity.
    + cbn [point_of_row point_vector].
      destruct (lookup_lt_is_Some_2 embeddings i ltac:(lia)) as (v & Hv).
      rewrite Hv. f_equal. symmetry. now apply nth_lookup_Some with (d := PNone) in Hv.
    + intros f -> Hf. cbn [point_of_row point_payload truthy_str].
      rewrite (eqb_false_of_ne _ _ Hf). cbn [negb default].
      rewrite get_set. now rewrite String.eqb_refl.
    + intros j c Hnd Hj Hor. cbn [point_of_row point_payload].
      destruct (truthy_str filename) eqn:Et.
      * destruct Hor as [Hc | Hc]; [|discriminate].
        rewrite get_set. rewrite (eqb_false_of_ne "filename" c) by congruence.
        now apply row_to_dict_get.
      * now apply row_to_dict_get.
  - intros v Hv. unfold Frame.as_dtype.
    destruct (Frame.row_dtype df); try reflexivity.
    destruct v; try reflexivity. now destruct (Hv z).
  - intros z. now destruct (Frame.row_dtype df).
  - apply common_dtype_float.
Qed.

(** A table with an int column and a float column: 3 pieces at 2.5, 1
    piece at 0.5. *)
Definition table_qty_price : DataFrame :=
  {| columns := ["qty"; "price"];
     rows := [[PInt 3; PFloat 4612811918334230528];
              [PInt 1; PFloat 4602678819172646912]] |}.

Lemma X13_save_embeddings_per_row_witness :
  Frame.len table_qty_price <= length [sample_vector; PList [PFloat 0]]
  /\ exists points,
       save_embeddings online table_qty_price [sample_vector; PList [PFloat 0]]
         COLLECTION_NAME (Some "sales.csv") []
       = (client_upsert online COLLECTION_NAME points, [] ++ [EvUpsert COLLECTION_NAME points])
       /\ length points = Frame.len table_qty_price
       /\ exists p, points !! 0 = Some p
            /\ PyDict.get "qty" (point_payload p) = Some (PFloat 4613937818241073152)
            /\ PyDict.get "price" (point_payload p) = Some (PFloat 4612811918334230528).
Proof.
  assert (H : Frame.len table_qty_price <= length [sample_vector; PList [PFloat 0]])
    by (cbn; lia).
  split; [exact H|].
  destruct (X13_save_embeddings_per_row online table_qty_price
              [sample_vector; PList [PFloat 0]] COLLECTION_NAME (Some "sales.csv") [] H)
    as (points & Hrun & Hlen & Hrows & _).
  exists points. split; [exact Hrun|]. split; [exact Hlen|].
  assert (Hnd : NoDup (columns table_qty_price)).
  { cbn. repeat constructor; set_solver. }
  destruct (Hrows 0 ltac:(cbn; lia)) as (p & Hp & _ & _ & _ & Hcells).
  exists p. split; [exact Hp|]. split.
  - rewrite (Hcells 0 "qty" Hnd eq_refl); [reflexivity | left; discriminate].
  - rewrite (Hcells 1 "price" Hnd eq_refl); [reflexivity | left; discriminate].
Defined.

(** ** Trend analysis: [analyze_data], [analyze_trends], [get_trends] *)

(** [TREND_PROMPT.format(query=query, columns=df.columns.tolist())] *)
Definition TREND_PROMPT_format (W : World) (query : string) (columns : list string) : string :=
  nl +:+ "Given a user query '" +:+ query
  +:+ "' and a dataset with columns " +:+ py_repr W (PList (List.map PStr columns))
  +:+ ", analyze the data and provide insights or trends." +:+ nl.

Definition TREND_FALLBACK : string := "Unable to analyze trends at this time.".

(** [analyze_data(query, df)] ([llm_integration.py]).  Its call of
    [model.generate_content] carries other safety settings than that of
    [interpret_query]; [generate_trend] is what that call answers, as
    [.text], for a prompt. *)
Definition analyze_data (generate_trend : string -> Result string) (W : World)
    (query : string) (df : DataFrame) : M string :=
  if negb (model_initialized W) then mret TREND_FALLBACK
  else
    try_except
      (let full_prompt := TREND_PROMPT_format W query (columns df) in
       _ ← emit (EvGenerateContent full_prompt);
       text ← lift (generate_trend full_prompt);
       mret (PyStr.strip text))
      (fun e => mret TREND_FALLBACK).

(** What [analyze_trends] returns. *)
Record TrendResult : Type := mkTrendResult {
  res_insights : string;
  res_trend_status : string
}.

(** [analyze_trends(query, file_content)] ([routes.py]) *)
Definition analyze_trends (generate_trend : string -> Result string) (W : World)
    (query : string) (file_content : bytes) : M TrendResult :=
  try_except
    (df ← frame_of_csv W file_content;
     let '(r, df) := validate_dataset df in
     _ ← lift r;
     insights ← analyze_data generate_trend W query df;
     mret {| res_insights := insights; res_trend_status := "success" |})
    (fun e => raise e).

(** [get_trends(query, file)] ([app.py]) *)
Definition get_trends (generate_trend : string -> Result string) (W : World)
    (query : string) (file : option App.UploadFile) : M TrendResult :=
  try_except
    (match file with
     | Some f =>
         if PyStr.endswith (App.filename f) ".csv"
         then analyze_trends generate_trend W query (App.file_bytes f)
         else raise (Exn (HTTPException App.HTTP_400_BAD_REQUEST)
                         "CSV file required for trend analysis" None)
     | None =>
         raise (Exn (HTTPException App.HTTP_400_BAD_REQUEST)
                    "CSV file required for trend analysis" None)
     end)
    (fun e =>
       if is_HTTPException e then raise e
       else raise (Exn (HTTPException App.HTTP_500_INTERNAL_SERVER_ERROR)
                       (exn_msg e) (Some e))).

Lemma analyze_data_run (generate_trend : string -> Result string) (W : World)
    (query : string) (df : DataFrame) (tr : trace) :
  exists s,
    analyze_data generate_trend W query df tr
    = (Ok s,
       if model_initialized W
       then tr ++ [EvGenerateContent (TREND_PROMPT_format W query (columns df))]
       else tr)
    /\ PyStr.strip s = s
    /\ (s = TREND_FALLBACK
        \/ exists text,
             model_initialized W = true
             /\ generate_trend (TREND_PROMPT_format W query (columns df)) = Ok text
             /\ s = PyStr.strip text).
Proof.
  unfold analyze_data. destruct (model_initialized W); cbn [negb].
  - unfold try_except, mbind, M_bind, emit, lift, mret, M_ret.
    destruct (generate_trend _) as [text|e] eqn:Hg.
    + exists (PyStr.strip text). split; [reflexivity|].
      split; [apply clean_strip, strip_clean | right; eauto].
    + exists TREND_FALLBACK. split; [reflexivity|]. split; [reflexivity | now left].
  - exists TREND_FALLBACK. split; [reflexivity|]. split; [reflexivity | now left].
Qed.


Lemma analyze_trends_refused (generate_trend : string -> Result string) (W : World)
    (query : string) (file_content : bytes) (tr : trace) (df : DataFrame) :
  fst (frame_of_csv W file_content []) = Ok df ->
  ~ (1 <= Frame.len df /\ 2 <= length (columns df) /\ NoDup (columns df)) ->
  analyze_trends generate_trend W query file_content tr
  = (Raise (Exn ValueError (validation_error df) None), tr).
Proof.
  intros Hdf Hinv. unfold analyze_trends, try_except, mbind, M_bind.
  rewrite frame_of_csv_run, Hdf.
  pose proof (validate_dataset_refuses df Hinv) as Hv.
  destruct (validate_dataset df) as [r df']. cbn in Hv. now subst r.
Qed.

(** X15: [analyze_trends] fails only while reading or validating the CSV:
    a reading error leaves it as the library raised it (it is not made a
    [ValueError]), a refused table gives the [ValueError] of
    [validate_dataset]; for a valid table the result always has status
    ["success"], and the prompt names the columns as they are in the
    file: they are not sanitized here. *)
Theorem X15_analyze_trends_outcomes (generate_trend : string -> Result string)
    (W : World) (query : string) (file_content : bytes) (tr : trace) :
  (forall e, fst (frame_of_csv W file_content []) = Raise e ->
     analyze_trends generate_trend W query file_content tr = (Raise e, tr))
  /\ (forall df, fst (frame_of_csv W file_content []) = Ok df ->
        ~ (1 <= Frame.len df /\ 2 <= length (columns df) /\ NoDup (columns df)) ->
        analyze_trends generate_trend W query file_content tr
        = (Raise (Exn ValueError (validation_error df) None), tr))
  /\ (forall df, fst (frame_of_csv W file_content []) = Ok df ->
        fst (validate_dataset df) = Ok tt ->
        exists s,
          analyze_trends generate_trend W query file_content tr
          = (Ok {| res_insights := s; res_trend_status := "success" |},
             if model_initialized W
             then tr ++ [EvGenerateContent (TREND_PROMPT_format W query (columns df))]
             else tr)
          /\ PyStr.strip s = s).
Proof.
  split; [|split].
  - intros e He. unfold analyze_trends, try_except, mbind, M_bind.
    now rewrite frame_of_csv_run, He.
  - intros df Hdf Hinv. now apply analyze_trends_refused.
  - intros df Hdf Hval. unfold analyze_trends, try_except, mbind, M_bind.
    rewrite frame_of_csv_run, Hdf.
    pose proof (validate_dataset_unchanged df) as Hsame.
    destruct (validate_dataset df) as [r df']. cbn in Hval, Hsame. subst r df'.
    unfold lift.
    destruct (analyze_data_run generate_trend W query df tr) as (s & -> & Hs & _).
    exists s. split; [reflexivity | exact Hs].
Qed.

(** X16: [/analyze-trends/] answers status 400 and
    ["CSV file required for trend analysis"] when no file is sent or its
    name does not end in [.csv], without reading anything; every failure
    it lets out is an [HTTPException]; and a failure of [analyze_trends],
    be it a table that [validate_dataset] refuses, is answered with
    status 500 and the error's message, not with 400. *)
Theorem X16_get_trends_errors (generate_trend : string -> Result string) (W : World)
    (query : string) (file : option App.UploadFile) (tr : trace) :
  (file = None \/ (exists f, file = Some f /\ ~ exists pre, App.filename f = pre +:+ ".csv") ->
   get_trends generate_trend W query file tr
   = (Raise (Exn (HTTPException 400) "CSV file required for trend analysis" None), tr))
  /\ (forall f df,
        file = Some f -> (exists pre, App.filename f = pre +:+ ".csv") ->
        fst (frame_of_csv W (App.file_bytes f) []) = Ok df ->
        ~ (1 <= Frame.len df /\ 2 <= length (columns df) /\ NoDup (columns df)) ->
        get_trends generate_trend W query file tr
        = (Raise (Exn (HTTPException 500) (validation_error df)
                    (Some (Exn ValueError (validation_error df) None))), tr))
  /\ (forall e, fst (get_trends generate_trend W query file tr) = Raise e ->
        is_HTTPException e = true).
Proof.
  split; [|split].
  - intros [-> | (f & -> & Hn)]; [reflexivity|].
    unfold get_trends, try_except.
    destruct (PyStr.endswith (App.filename f) ".csv") eqn:E; [|reflexivity].
    apply endswith_spec in E. contradiction.
  - intros f df -> Hcsv Hdf Hinv. apply endswith_spec in Hcsv.
    unfold get_trends, try_except. rewrite Hcsv.
    now rewrite (analyze_trends_refused generate_trend W query (App.file_bytes f) tr df
                   Hdf Hinv).
  - intros e. unfold get_trends, try_except.
    destruct file as [f|]; [|cbn; now intros [= <-]].
    destruct (PyStr.endswith (App.filename f) ".csv"); [|cbn; now intros [= <-]].
    destruct (analyze_trends generate_trend W query (App.file_bytes f) tr)
      as [[r|e0] tr1]; [discriminate|].
    destruct (is_HTTPException e0) eqn:E0; cbn; intros [= <-]; [exact E0 | reflexivity].
Qed.

Definition trends_file : App.UploadFile :=
  {| App.filename := "sales.csv"; App.file_bytes := encode_utf8 offline csv_ab |}.

Lemma X16_get_trends_errors_witness :
  get_trends (fun _ => Ok "Sales grow.") reading_dup "any trend?" (Some trends_file) []
  = (Raise (Exn (HTTPException 500) "Column names must be unique."
              (Some (Exn ValueError "Column names must be unique." None))), []).
Proof.
  refine (proj1 (proj2 (X16_get_trends_errors (fun _ => Ok "Sales grow.") reading_dup
                          "any trend?" (Some trends_file) []))
            trends_file table_dup eq_refl _ eq_refl _).
  - exists "sales". reflexivity.
  - intros (_ & _ & Hnd). now apply (not_NoDup_twice "a").
Defined.

(** ** A request on a valid table *)

Lemma resolve_config_total (W : World) (query : string) (chart_type : option string)
    (c0 c1 : string) (rest : list string) (tr : trace) :
  exists cfg,
    resolve_config W query chart_type (c0 :: c1 :: rest) tr
    = (Ok cfg,
       if truthy_str chart_type then tr
       else if model_initialized W
            then tr ++ [EvGenerateContent (CHART_PROMPT_format W query (c0 :: c1 :: rest))]
            else tr)
    /\ refers_to (c0 :: c1 :: rest) cfg.
Proof.
  unfold resolve_config. destruct (truthy_str chart_type).
  - eexists. split; [reflexivity|].
    repeat split; eexists; try (split; [reflexivity|]); try reflexivity; set_solver.
  - apply interpret_query_two.
Qed.

(** The table [generate_chart] works on: the loaded one with its column
    names sanitized. *)
Definition sanitized (df0 : DataFrame) : DataFrame :=
  Frame.set_columns (List.map sanitize_column_name (columns df0)) df0.

(** Once the data is loaded and valid, [prepare_chart] resolves a
    configuration whose axes are sanitized column names, passes the
    column check, and stands or falls with [create_chart]. *)
Lemma prepare_chart_valid (W : World) (query : string) (data_content : bytes)
    (chart_type data_type : option string) (tr : trace) (df0 : DataFrame) :
  fst (load_data W data_content data_type tr) = Ok df0 ->
  fst (validate_dataset df0) = Ok tt ->
  exists ct x y,
    x ∈ columns (sanitized df0) /\ y ∈ columns (sanitized df0)
    /\ prepare_chart W query data_content chart_type data_type tr
       = let tr1 :=
           if truthy_str chart_type then tr
           else if model_initialized W
                then tr ++ [EvGenerateContent
                              (CHART_PROMPT_format W query (columns (sanitized df0)))]
                else tr in
         match create_chart W ct (sanitized df0) (PStr x) (PStr y) tr1 with
         | (Ok fig, tr') => (Ok (sanitized df0, ct, PStr x, PStr y, fig), tr')
         | (Raise e, tr') => (Raise e, tr')
         end.
Proof.
  intros Hload Hval.
  pose proof (validate_dataset_accepts df0 Hval) as Hlen.
  assert (Hcols : exists c0 c1 rest, columns (sanitized df0) = c0 :: c1 :: rest).
  { unfold sanitized. cbn [columns Frame.set_columns].
    destruct (columns df0) as [|c0 [|c1 rest]]; cbn in Hlen; try lia.
    cbn [List.map]. eauto. }
  destruct Hcols as (c0 & c1 & rest & Hcols).
  destruct (resolve_config_total W query chart_type c0 c1 rest tr)
    as (cfg & Hres & (t & Ht) & (x & Hx & Hxin) & (y & Hy & Hyin)).
  rewrite <- Hcols in Hres, Hxin, Hyin.
  exists t, x, y. split; [exact Hxin|]. split; [exact Hyin|].
  unfold prepare_chart.
  rewrite (bind_Ok _ _ _ _ _ (load_data_run _ _ _ _ _ Hload)).
  rewrite (bind_Ok _ _ _ _ _ (validate_and_sanitize_valid df0 tr Hval)).
  fold (sanitized df0).
  rewrite (bind_Ok _ _ _ _ _ Hres). cbv zeta.
  set (tr1 := if truthy_str chart_type then tr else _).
  assert (Hg : forall k v, PyDict.get k cfg = Some v -> dict_getitem cfg k tr1 = (Ok v, tr1)).
  { intros k v Hk. unfold dict_getitem. now rewrite Hk. }
  rewrite (bind_Ok _ _ _ _ _ (Hg _ _ Ht)).
  rewrite (bind_Ok _ _ _ _ _ (Hg _ _ Hx)).
  rewrite (bind_Ok _ _ _ _ _ (Hg _ _ Hy)).
  rewrite (bind_Ok _ _ _ _ _ (index_contains_member x _ tr1 Hxin)).
  rewrite (bind_Ok _ _ _ _ _ (index_contains_member y _ tr1 Hyin)).
  cbn [negb orb]. unfold mbind, M_bind.
  now destruct (create_chart W t (sanitized df0) (PStr x) (PStr y) tr1) as [[fig|e] tr'].
Qed.

Lemma elem_of_map_sanitize (x : string) (cols : list string) :
  x ∈ List.map sanitize_column_name cols ->
  exists c, c ∈ cols /\ x = sanitize_column_name c.
Proof.
  intros H. apply list_elem_of_In, in_map_iff in H as (c & <- & Hc).
  exists c. split; [now apply list_elem_of_In | reflexivity].
Qed.

Lemma column_at_length (j : nat) (df : DataFrame) :
  length (Frame.column_at j df) = Frame.len df.
Proof. unfold Frame.column_at, Frame.len. apply length_map. Qed.

Lemma try_except_reraise {A : Type} (body : M A) (wrap : exn -> exn) (tr : trace) (e : exn) :
  fst (try_except body (fun e0 => raise (wrap e0)) tr) = Raise e ->
  exists cause, e = wrap cause.
Proof.
  unfold try_except, raise. destruct (body tr) as [[a|e0] t]; cbn; [discriminate|].
  intros [= <-]. eauto.
Qed.

(** Every exception that leaves [create_chart] is its own [ValueError]. *)
Lemma create_chart_raises (W : World) (chart_type : pyval) (df : DataFrame)
    (x y : pyval) (tr : trace) (e : exn) :
  fst (create_chart W chart_type df x y tr) = Raise e ->
  exists cause, e = Exn ValueError "Failed to generate chart." (Some cause).
Proof.
  unfold create_chart. intros H.
  now apply try_except_reraise
    with (wrap := fun e0 => Exn ValueError "Failed to generate chart." (Some e0)) in H.
Qed.

(** X17: a request whose data does not go through [pd.DataFrame] (it
    is not sent as JSON, and a file reads as CSV) fails for one of three
    reasons only: the data does not load, the table read from the CSV is
    refused by [validate_dataset], or [create_chart] fails; the resolver
    and the test that both axes are columns never make such a request
    fail (the error ["Columns ... not found in dataset"] cannot occur). *)
Theorem X17_why_a_request_fails (ns : list string) (W : World) (query : string)
    (data_content : bytes) (chart_type data_type filename : option string)
    (tr : trace) (e : exn) :
  csv_request W data_content data_type ->
  fst (generate_chart_in ns W query data_content chart_type data_type filename tr) = Raise e ->
  fst (load_data W data_content data_type tr) = Raise e
  \/ (exists df0,
        read_as_csv W data_content data_type df0
        /\ fst (validate_dataset df0) = Raise e)
  \/ (exists df0 ct x y tr1 cause,
        read_as_csv W data_content data_type df0
        /\ fst (validate_dataset df0) = Ok tt
        /\ x ∈ columns (sanitized df0) /\ y ∈ columns (sanitized df0)
        /\ fst (create_chart W ct (sanitized df0) (PStr x) (PStr y) tr1) = Raise e
        /\ e = Exn ValueError "Failed to generate chart." (Some cause)).
Proof.
  intros Hreq Hfail.
  destruct (fst (load_data W data_content data_type tr)) as [df0|e0] eqn:Hload.
  2:{ left. unfold generate_chart_in, try_except, prepare_chart, mbind, M_bind in Hfail.
      destruct (load_data W data_content data_type tr) as [[df|e1] t1]; cbn in Hload;
        [discriminate|].
      injection Hload as ->. cbn in Hfail. congruence. }
  pose proof (csv_request_loads W data_content data_type df0 tr Hreq Hload) as Hcsv.
  destruct (fst (validate_dataset df0)) as [[]|e0] eqn:Hval.
  2:{ right; left. exists df0. split; [exact Hcsv|].
      rewrite (generate_chart_invalid ns W query data_content chart_type data_type
                 filename tr df0 e0 Hload Hval) in Hfail.
      cbn in Hfail. congruence. }
  right; right.
  destruct (prepare_chart_valid W query data_content chart_type data_type tr df0 Hload Hval)
    as (ct & x & y & Hx & Hy & Hprep).
  cbv zeta in Hprep. set (tr1 := if truthy_str chart_type then tr else _) in Hprep.
  destruct (create_chart W ct (sanitized df0) (PStr x) (PStr y) tr1)
    as [[fig|e1] tr'] eqn:Hcc.
  - destruct (generate_chart_after_render ns W query data_content chart_type data_type
                filename tr tr' _ ct _ _ fig Hprep) as (data & _ & Hok).
    rewrite Hok in Hfail. discriminate.
  - assert (e1 = e) as ->.
    { unfold generate_chart_in, try_except, mbind, M_bind in Hfail.
      rewrite Hprep in Hfail. cbn in Hfail. congruence. }
    assert (Hcause : exists cause, e = Exn ValueError "Failed to generate chart." (Some cause)).
    { apply (create_chart_raises W ct (sanitized df0) (PStr x) (PStr y) tr1).
      now rewrite Hcc. }
    destruct Hcause as (cause & Hcause).
    exists df0, ct, x, y, tr1, cause. rewrite Hcc. auto 10.
Qed.

Lemma X17_why_a_request_fails_witness :
  csv_request undrawable (encode_utf8 undrawable csv_ab) (Some "manual")
  /\ fst (generate_chart_in routes_globals undrawable "plot a vs b"
            (encode_utf8 undrawable csv_ab) None (Some "manual") None [])
     = Raise (Exn ValueError "Failed to generate chart."
                (Some (Exn TypeError "unsupported operand type(s) for +: 'int' and 'str'" None)))
  /\ (fst (load_data undrawable (encode_utf8 undrawable csv_ab) (Some "manual") [])
      = Raise (Exn ValueError "Failed to generate chart."
                 (Some (Exn TypeError "unsupported operand type(s) for +: 'int' and 'str'" None)))
      \/ (exists df0,
            read_as_csv undrawable (encode_utf8 undrawable csv_ab) (Some "manual") df0
            /\ fst (validate_dataset df0)
               = Raise (Exn ValueError "Failed to generate chart."
                          (Some (Exn TypeError "unsupported operand type(s) for +: 'int' and 'str'" None))))
      \/ (exists df0 ct x y tr1 cause,
            read_as_csv undrawable (encode_utf8 undrawable csv_ab) (Some "manual") df0
            /\ fst (validate_dataset df0) = Ok tt
            /\ x ∈ columns (sanitized df0) /\ y ∈ columns (sanitized df0)
            /\ fst (create_chart undrawable ct (sanitized df0) (PStr x) (PStr y) tr1)
               = Raise (Exn ValueError "Failed to generate chart."
                          (Some (Exn TypeError "unsupported operand type(s) for +: 'int' and 'str'" None)))
            /\ Exn ValueError "Failed to generate chart."
                 (Some (Exn TypeError "unsupported operand type(s) for +: 'int' and 'str'" None))
               = Exn ValueError "Failed to generate chart." (Some cause))).
Proof.
  assert (Hreq : csv_request undrawable (encode_utf8 undrawable csv_ab) (Some "manual")).
  { split; [discriminate | discriminate]. }
  assert (H : fst (generate_chart_in routes_globals undrawable "plot a vs b"
                     (encode_utf8 undrawable csv_ab) None (Some "manual") None [])
              = Raise (Exn ValueError "Failed to generate chart."
                         (Some (Exn TypeError
                                  "unsupported operand type(s) for +: 'int' and 'str'" None)))).
  { vm_compute. reflexivity. }
  split; [exact Hreq|]. split; [exact H|].
  exact (X17_why_a_request_fails routes_globals undrawable "plot a vs b"
           (encode_utf8 undrawable csv_ab) None (Some "manual") None [] _ Hreq H).
Defined.

Lemma validate_dataset_valid (df : DataFrame) :
  fst (validate_dataset df) = Ok tt ->
  1 <= Frame.len df /\ 2 <= length (columns df) /\ NoDup (columns df).
Proof.
  intros Hval.
  destruct (decide (1 <= Frame.len df /\ 2 <= length (columns df) /\ NoDup (columns df)))
    as [H|H]; [exact H|].
  rewrite (validate_dataset_refuses df H) in Hval. discriminate.
Qed.

(** X18: a successful result fits the loaded table: the table has at
    least one row and two columns with pairwise different names; the two
    axes are sanitized names of columns of it; and every list in [data]
    has one entry per row. *)
Theorem X18_result_fits_table (ns : list string) (W : World) (query : string)
    (data_content : bytes) (chart_type data_type filename : option string)
    (tr : trace) (df0 : DataFrame) (r : ChartResult) :
  fst (load_data W data_content data_type tr) = Ok df0 ->
  fst (generate_chart_in ns W query data_content chart_type data_type filename tr) = Ok r ->
  (1 <= Frame.len df0 /\ 2 <= length (columns df0) /\ NoDup (columns df0))
  /\ (exists cx cy,
        cx ∈ columns df0 /\ cy ∈ columns df0
        /\ res_x_axis r = PStr (sanitize_column_name cx)
        /\ res_y_axis r = PStr (sanitize_column_name cy))
  /\ (forall k v, PyDict.get k (res_data r) = Some v ->
        exists cells, v = PList cells /\ length cells = Frame.len df0).
Proof.
  intros Hload Hok.
  destruct (fst (validate_dataset df0)) as [[]|e] eqn:Hval.
  2:{ rewrite (generate_chart_invalid ns W query data_content chart_type data_type
                 filename tr df0 e Hload Hval) in Hok. discriminate. }
  split; [now apply validate_dataset_valid|].
  destruct (prepare_chart_valid W query data_content chart_type data_type tr df0 Hload Hval)
    as (ct & x & y & Hx & Hy & Hprep).
  cbv zeta in Hprep. set (tr1 := if truthy_str chart_type then tr else _) in Hprep.
  destruct (create_chart W ct (sanitized df0) (PStr x) (PStr y) tr1) as [[fig|e1] tr'].
  2:{ unfold generate_chart_in, try_except, mbind, M_bind in Hok.
      rewrite Hprep in Hok. discriminate. }
  destruct (generate_chart_after_render ns W query data_content chart_type data_type
              filename tr tr' _ ct _ _ fig Hprep) as (data & Hdata & Hres).
  rewrite Hres in Hok. injection Hok as <-. cbn [res_x_axis res_y_axis res_data].
  split.
  - destruct (elem_of_map_sanitize x (columns df0) Hx) as (cx & Hcx & ->).
    destruct (elem_of_map_sanitize y (columns df0) Hy) as (cy & Hcy & ->).
    exists cx, cy. auto.
  - destruct (select_to_dict_two (sanitized df0) x y Hx Hy) as (d & Hd & Hkeys & Hgx & Hgy).
    unfold axes_to_dict in Hdata. rewrite Hd in Hdata. cbn in Hdata. injection Hdata as <-.
    intros k v Hk.
    assert (Hhas : PyDict.has k d = true) by (unfold PyDict.has; now rewrite Hk).
    apply Hkeys in Hhas as [-> | ->].
    + rewrite Hgx in Hk. injection Hk as <-. eexists. split; [reflexivity|].
      rewrite column_at_length. reflexivity.
    + rewrite Hgy in Hk. injection Hk as <-. eexists. split; [reflexivity|].
      rewrite column_at_length. reflexivity.
Qed.

Lemma X18_result_fits_table_witness :
  fst (load_data answering (encode_utf8 answering csv_ab) (Some "manual") []) = Ok table_ab
  /\ exists r,
       fst (generate_chart_in routes_globals answering "a pie of b by a"
              (encode_utf8 answering csv_ab) None (Some "manual") None []) = Ok r
       /\ res_x_axis r = PStr "b" /\ res_y_axis r = PStr "a"
       /\ (forall k v, PyDict.get k (res_data r) = Some v ->
             exists cells, v = PList cells /\ length cells = Frame.len table_ab).
Proof.
  assert (H1 : fst (load_data answering (encode_utf8 answering csv_ab) (Some "manual") [])
               = Ok table_ab) by reflexivity.
  split; [exact H1|].
  eexists. split; [vm_compute; reflexivity|].
  split; [reflexivity|]. split; [reflexivity|].
  refine (proj2 (proj2 (X18_result_fits_table routes_globals answering "a pie of b by a"
                          (encode_utf8 answering csv_ab) None (Some "manual") None []
                          table_ab _ H1 _))).
  vm_compute. reflexivity.
Defined.

(** X19: when no chart type is given (or an empty one) and the model is
    there, a request on manual data or a file that reads as CSV into a
    valid table asks the language model exactly once, as its first call,
    and about the sanitized column names, not the names in the file. *)
Theorem X19_model_sees_sanitized_names (ns : list string) (W : World) (query : string)
    (data_content : bytes) (chart_type data_type filename : option string)
    (tr : trace) (df0 : DataFrame) :
  truthy_str chart_type = false ->
  model_initialized W = true ->
  read_as_csv W data_content data_type df0 ->
  fst (validate_dataset df0) = Ok tt ->
  exists evs,
    snd (generate_chart_in ns W query data_content chart_type data_type filename tr)
    = tr ++ EvGenerateContent
              (CHART_PROMPT_format W query (List.map sanitize_column_name (columns df0)))
         :: evs
    /\ forallb (fun ev => negb (is_generate ev)) evs = true.
Proof.
  intros Hct Hm Hcsv Hval.
  pose proof (read_as_csv_loads W data_content data_type df0 tr Hcsv) as Hload.
  destruct (prepare_chart_valid W query data_content chart_type data_type tr df0 Hload Hval)
    as (ct & x & y & Hx & Hy & Hprep).
  rewrite Hct, Hm in Hprep. cbv zeta in Hprep.
  change (columns (sanitized df0)) with (List.map sanitize_column_name (columns df0)) in Hprep.
  set (ev := EvGenerateContent _) in *.
  destruct (create_chart_emits W ct (sanitized df0) (PStr x) (PStr y) (tr ++ [ev]))
    as (evp & Hevp & Hp).
  assert (Hnot : forall P evs, (forall e0, P e0 = true -> is_generate e0 = false) ->
                   forallb P evs = true ->
                   forallb (fun e0 => negb (is_generate e0)) evs = true).
  { intros P evs HP Hall. apply forallb_forall. intros e0 He0.
    rewrite (HP e0); [reflexivity|]. now apply (proj1 (forallb_forall P evs) Hall). }
  destruct (create_chart W ct (sanitized df0) (PStr x) (PStr y) (tr ++ [ev]))
    as [[fig|e1] tr'] eqn:Hcc; cbn [snd] in Hevp; subst tr'.
  - destruct (generate_chart_after_render ns W query data_content chart_type data_type
                filename tr _ _ ct _ _ fig Hprep) as (data & Hdata & _).
    destruct (store_embedding_emits ns W query filename (sanitized df0) ct (PStr x) (PStr y)
                ((tr ++ [ev]) ++ evp)) as (evs2 & Htr2 & H2).
    exists (evp ++ evs2). split.
    + unfold generate_chart_in, try_except, mbind, M_bind. rewrite Hprep.
      destruct (store_embedding ns W query filename _ ct _ _ ((tr ++ [ev]) ++ evp))
        as [[[]|e2] tr2]; cbn [snd] in Htr2; subst tr2.
      * rewrite axes_to_dict_run, Hdata. cbn [snd]. now rewrite <- !app_assoc.
      * cbn [snd]. now rewrite <- !app_assoc.
    + rewrite forallb_app. apply andb_true_iff. split.
      * apply (Hnot is_plot); [now intros [] | exact Hp].
      * apply (Hnot is_enrichment); [now intros [] | exact H2].
  - exists evp. split.
    + unfold generate_chart_in, try_except, mbind, M_bind. rewrite Hprep.
      cbn [snd raise]. now rewrite <- app_assoc.
    + apply (Hnot is_plot); [now intros [] | exact Hp].
Qed.

Lemma X19_model_sees_sanitized_names_witness :
  exists evs,
    snd (generate_chart_in routes_globals answering "plot" (encode_utf8 answering csv_Aa)
           None (Some "manual") None [])
    = [] ++ EvGenerateContent
               (CHART_PROMPT_format answering "plot"
                  (List.map sanitize_column_name (columns table_Aa)))
         :: evs
    /\ forallb (fun ev => negb (is_generate ev)) evs = true.
Proof.
  apply (X19_model_sees_sanitized_names routes_globals answering "plot"
           (encode_utf8 answering csv_Aa) None (Some "manual") None [] table_Aa);
    try reflexivity.
  split; [now left | reflexivity].
Defined.
